(** * sh_commands: device orchestration of mobile-ai-bench

    A shallow embedding of [aibench/python/sh_commands.py].  Pure string
    helpers are Rocq functions on [string]; code that talks to the host, the
    device bridge or the clock is written in a state-and-exception monad over
    an explicit [World].  *)

From stdpp Require Import base strings list gmap pretty.
From Stdlib Require Import Ascii ZArith QArith Lia.

Local Open Scope Z_scope.

(** ** Python string primitives *)

Module Py.

Definition newline : ascii := "010"%char.
Definition nl : string := String newline "".

(** [s[1:]] *)
Definition tail (s : string) : string :=
  match s with
  | "" => ""
  | String _ r => r
  end.

(** [s[n:]] *)
Fixpoint drop (n : nat) (s : string) : string :=
  match n, s with
  | O, _ => s
  | S n', String _ r => drop n' r
  | S _, "" => ""
  end.

(** [s.startswith(p)] *)
Definition startswith (p s : string) : bool := String.prefix p s.

(** [c in s] for a single character. *)
Fixpoint mem (c : ascii) (s : string) : bool :=
  match s with
  | "" => false
  | String a r => if decide (a = c) then true else mem c r
  end.

(** [p in s] for a substring [p]. *)
Fixpoint contains (p s : string) : bool :=
  String.prefix p s ||
  match s with
  | "" => false
  | String _ r => contains p r
  end.

(** [s.split(sep)] for a one-character separator: the pieces between the
    separators, always at least one piece. *)
Fixpoint split (sep : ascii) (s : string) : list string :=
  match s with
  | "" => [""]
  | String a r =>
      if decide (a = sep) then "" :: split sep r
      else match split sep r with
           | [] => [String a ""]
           | p :: ps => String a p :: ps
           end
  end.

(** [s.replace(old, new)] for a non-empty [old]: occurrences are replaced
    from left to right and do not overlap.  [skip] counts the characters of
    a matched occurrence that are still to be passed over. *)
Fixpoint replace_go (old new : string) (skip : nat) (s : string) : string :=
  match s with
  | "" => ""
  | String a r =>
      match skip with
      | S k => replace_go old new k r
      | O =>
          if String.prefix old s
          then new +:+ replace_go old new (String.length old - 1) r
          else String a (replace_go old new O r)
      end
  end.

Definition replace (old new s : string) : string := replace_go old new O s.

(** [s.strip()], [s.rstrip()] on byte strings: white space is
    space, tab, newline, carriage return, vertical tab and form feed. *)
Fixpoint lstrip (s : string) : string :=
  match s with
  | "" => ""
  | String a r => if Ascii.is_space a then lstrip r else s
  end.

Fixpoint rstrip (s : string) : string :=
  match s with
  | "" => ""
  | String a r =>
      match rstrip r with
      | "" => if Ascii.is_space a then "" else String a ""
      | r' => String a r'
      end
  end.

Definition strip (s : string) : string := rstrip (lstrip s).

(** [sep.join(l)] *)
Fixpoint join (sep : string) (l : list string) : string :=
  match l with
  | [] => ""
  | [x] => x
  | x :: r => x +:+ sep +:+ join sep r
  end.

(** [os.path.join(a, b)] and [os.path.basename(p)] of [posixpath]. *)
Definition endswith_slash (s : string) : bool :=
  match String.rev s with
  | String "/"%char _ => true
  | _ => false
  end.

Definition path_join (a b : string) : string :=
  if startswith "/" b then b
  else if decide (a = "") then b
  else if endswith_slash a then a +:+ b
  else a +:+ "/" +:+ b.

Definition basename (p : string) : string :=
  default "" (last (split "/"%char p)).

(** [s.split()]: the maximal runs of characters that are not white space. *)
Fixpoint split_ws (s : string) : list string :=
  match s with
  | "" => []
  | String a r =>
      if Ascii.is_space a then split_ws r
      else match r with
           | "" => [String a ""]
           | String b _ =>
               if Ascii.is_space b then String a "" :: split_ws r
               else match split_ws r with
                    | w :: ws => String a w :: ws
                    | [] => [String a ""]
                    end
           end
  end.

(** The lines of a command's output as [sh] hands them to an [_out]
    callback: each line keeps its newline, a last unterminated line is
    handed over as it is. *)
Fixpoint lines_keepends (s : string) : list string :=
  match s with
  | "" => []
  | String a r =>
      if decide (a = newline) then String a "" :: lines_keepends r
      else match lines_keepends r with
           | l :: ls => String a l :: ls
           | [] => [String a ""]
           end
  end.

(** The longest prefix of characters satisfying [p], and the rest. *)
Fixpoint span (p : ascii -> bool) (s : string) : string * string :=
  match s with
  | "" => ("", "")
  | String a r =>
      if p a then let '(x, y) := span p r in (String a x, y)
      else ("", s)
  end.

Definition is_digit (a : ascii) : bool :=
  let n := N_of_ascii a in ((48 <=? n) && (n <=? 57))%N.

Definition is_word (a : ascii) : bool :=
  let n := N_of_ascii a in
  (((48 <=? n) && (n <=? 57)) || ((65 <=? n) && (n <=? 90))
   || ((97 <=? n) && (n <=? 122)) || (n =? 95))%N.

(** Decimal digits, most significant first. *)
Fixpoint digits_value (acc : Z) (s : string) : option Z :=
  match s with
  | "" => Some acc
  | String a r =>
      if is_digit a
      then digits_value (10 * acc + (Z.of_N (N_of_ascii a) - 48)) r
      else None
  end.

(** [int(s)] on a byte string: surrounding white space and one sign are
    accepted, at least one digit is required. *)
Definition int (s : string) : option Z :=
  match strip s with
  | "" => None
  | String "-"%char ((String _ _) as d) => Z.opp <$> digits_value 0 d
  | String "+"%char ((String _ _) as d) => digits_value 0 d
  | d => digits_value 0 d
  end.

(** [int(s, 2)] on a string of binary digits (the only strings
    [get_cpu_mask] builds); the empty string is not a number. *)
Fixpoint bits_value (acc : Z) (s : string) : option Z :=
  match s with
  | "" => Some acc
  | String "0"%char r => bits_value (2 * acc) r
  | String "1"%char r => bits_value (2 * acc + 1) r
  | String _ _ => None
  end.

Definition int2 (s : string) : option Z :=
  match s with
  | "" => None
  | _ => bits_value 0 s
  end.

Definition hex_digit (n : Z) : ascii :=
  ascii_of_N (Z.to_N (if n <? 10 then 48 + n else 87 + n)).

(** The hexadecimal digits of [n >= 0] without leading zeros. *)
Fixpoint hex_go (fuel : nat) (n : Z) (acc : string) : string :=
  match fuel with
  | O => acc
  | S f =>
      let acc' := String (hex_digit (n mod 16)) acc in
      if n <? 16 then acc' else hex_go f (n / 16) acc'
  end.

Definition hex_digits (n : Z) : string :=
  hex_go (S (Z.to_nat (Z.log2 n))) n "".

(** [hex(n)] of Python 2 for [n >= 0]: a value above [sys.maxint] is a
    [long] and is printed with a trailing [L]. *)
Definition hex (maxint n : Z) : string :=
  "0x" +:+ hex_digits n +:+ (if maxint <? n then "L" else "").

(** [int(s, 16)] on a string of lowercase hexadecimal digits: the inverse
    of the rendering, used to say what a rendered number denotes. *)
Definition hex_digit_value (a : ascii) : option Z :=
  let code := Z.of_N (N_of_ascii a) in
  if (48 <=? code) && (code <=? 57) then Some (code - 48)
  else if (97 <=? code) && (code <=? 102) then Some (code - 87)
  else None.

Fixpoint hex_value (acc : Z) (s : string) : option Z :=
  match s with
  | "" => Some acc
  | String a r =>
      match hex_digit_value a with
      | Some d => hex_value (16 * acc + d) r
      | None => None
      end
  end.

Definition int16 (s : string) : option Z :=
  match s with
  | "" => None
  | _ => hex_value 0 s
  end.

(** [width] hexadecimal digits of [n], most significant first. *)
Fixpoint hex_fixed (width : nat) (n : Z) : string :=
  match width with
  | O => ""
  | S k => hex_fixed k (n / 16) +:+ String (hex_digit (n mod 16)) ""
  end.

(** [max(l)] of a list of integers, [None] for the empty list. *)
Definition max (l : list Z) : option Z :=
  match l with
  | [] => None
  | x :: r => Some (foldl Z.max x r)
  end.

(** [s[:-1]] *)
Definition init (s : string) : string :=
  String.rev (tail (String.rev s)).

(** [s[-1]] *)
Definition last_char (s : string) : option ascii :=
  match String.rev s with
  | "" => None
  | String a _ => Some a
  end.

(** [s.lower()] on a byte string: the letters [A] to [Z] are changed. *)
Definition lower_char (a : ascii) : ascii :=
  let n := N_of_ascii a in
  if ((65 <=? n) && (n <=? 90))%N then ascii_of_N (n + 32) else a.

Fixpoint lower (s : string) : string :=
  match s with
  | "" => ""
  | String a r => String (lower_char a) (lower r)
  end.

(** [s.count(c)] for a single character. *)
Fixpoint count (c : ascii) (s : string) : nat :=
  match s with
  | "" => O
  | String a r => if decide (a = c) then S (count c r) else count c r
  end.

End Py.

(** ** Exceptions and results *)

(** The exceptions the module can meet.  [ErrorReturnCode n err] is
    [sh.ErrorReturnCode_n], raised by [sh] when a command exits with status
    [n]; it is the only one that carries a [stderr] attribute. *)
Inductive exn : Type :=
  | ErrorReturnCode (code : Z) (stderr : string)
  | CommandNotFound (prog : string)
  | LockTimeout (path : string)
  | ValueError (msg : string)
  | KeyError (key : string)
  | IndexError (msg : string)
  | AttributeError (attr : string)
  | IOError (msg : string)
  | CheckFailed (msg : string)
  | SystemExit (code : Z).

Inductive result (A : Type) : Type :=
  | Ok (a : A)
  | Raise (e : exn)
  | OutOfFuel.
Arguments Ok {A} a.
Arguments Raise {A} e.
Arguments OutOfFuel {A}.

(** [except Exception] catches everything but [SystemExit]. *)
Definition is_Exception (e : exn) : bool :=
  match e with
  | SystemExit _ => false
  | _ => true
  end.

(** [except sh.ErrorReturnCode_1] *)
Definition is_ErrorReturnCode_1 (e : exn) : bool :=
  match e with
  | ErrorReturnCode 1 _ => true
  | _ => false
  end.

(** [str(e)] *)
Definition str_exn (e : exn) : string :=
  match e with
  | ErrorReturnCode code err =>
      "RAN with exit code " +:+ pretty code +:+ ", STDERR: " +:+ err
  | CommandNotFound prog => prog
  | LockTimeout path => "The file lock '" +:+ path +:+ "' could not be acquired."
  | ValueError msg | IndexError msg | IOError msg | CheckFailed msg => msg
  | KeyError key => "'" +:+ key +:+ "'"
  | AttributeError attr => "object has no attribute '" +:+ attr +:+ "'"
  | SystemExit code => pretty code
  end.

(** ** The world: host, device, bridge *)

(** What the program does to its surroundings, in order. *)
Inductive event : Type :=
  | Cmd (prog : string) (args : list string) (fg : bool)
  | Acquire (path : string)
  | AcquireTimeout (path : string)
  | Release (path : string)
  | Sleep (secs : Z)
  | UrlRetrieve (url path : string).

(** The host's file system, environment and reachable URLs. *)
Record Host : Type := mkHost {
  host_files : gmap string string;
  host_dirs : gmap string (list string);
  environ : gmap string string;
  internet : gmap string string
}.

(** The attached device: its serial, its property dump, the content of
    [cpu<k>/cpufreq/cpuinfo_max_freq] for each core, and its files. *)
Record Device : Type := mkDevice {
  dev_serial : string;
  dev_props : string;
  dev_cpufreq : list string;
  dev_files : gmap string string
}.

(** What the program cannot control: the output of [adb devices], failures
    injected into the [k]-th event, the effect of a shell command the model
    does not interpret, and the clock. *)
Record Oracle : Type := mkOracle {
  devices_dump : string;
  faults : nat -> option exn;
  dev_effect : nat -> gmap string string -> gmap string string;
  clock : nat -> Q
}.

Record World : Type := mkWorld {
  host : Host;
  dev : Device;
  oracle : Oracle;
  trace : list event;
  stdout : list string
}.

Definition set_host (h : Host) (w : World) : World :=
  mkWorld h (dev w) (oracle w) (trace w) (stdout w).
Definition set_dev (d : Device) (w : World) : World :=
  mkWorld (host w) d (oracle w) (trace w) (stdout w).
Definition set_host_files (f : gmap string string) (w : World) : World :=
  set_host (mkHost f (host_dirs (host w)) (environ (host w)) (internet (host w))) w.
Definition set_dev_files (f : gmap string string) (w : World) : World :=
  set_dev (mkDevice (dev_serial (dev w)) (dev_props (dev w))
             (dev_cpufreq (dev w)) f) w.
Definition log_event (e : event) (w : World) : World :=
  mkWorld (host w) (dev w) (oracle w) (trace w ++ [e]) (stdout w).
Definition log_line (l : string) (w : World) : World :=
  mkWorld (host w) (dev w) (oracle w) (trace w) (stdout w ++ [l]).

(** ** The monad: state and exceptions *)

Definition M (A : Type) : Type := World -> result A * World.

Definition ret {A} (a : A) : M A := fun w => (Ok a, w).
Definition raise {A} (e : exn) : M A := fun w => (Raise e, w).
Definition out_of_fuel {A} : M A := fun w => (OutOfFuel, w).

Definition bind {A B} (m : M A) (k : A -> M B) : M B :=
  fun w =>
    match m w with
    | (Ok a, w') => k a w'
    | (Raise e, w') => (Raise e, w')
    | (OutOfFuel, w') => (OutOfFuel, w')
    end.

Notation "'let!' x ':=' m 'in' k" := (bind m (fun x => k))
  (at level 10, x pattern, m at level 100, k at level 200).
Notation "m >> k" := (bind m (fun _ => k))
  (at level 90, right associativity).

(** [try: m  except <handles>: h e  else: k a] *)
Definition try_except_else {A B} (m : M A) (handles : exn -> bool)
    (h : exn -> M B) (k : A -> M B) : M B :=
  fun w =>
    match m w with
    | (Ok a, w') => k a w'
    | (Raise e, w') => if handles e then h e w' else (Raise e, w')
    | (OutOfFuel, w') => (OutOfFuel, w')
    end.

(** [try: m  except <handles>: h e] *)
Definition try_except {A} (m : M A) (handles : exn -> bool)
    (h : exn -> M A) : M A :=
  try_except_else m handles h ret.

(** [try: m  finally: c], where [c] cannot fail. *)
Definition finally {A} (m : M A) (c : World -> World) : M A :=
  fun w =>
    match m w with
    | (OutOfFuel, w') => (OutOfFuel, w')
    | (r, w') => (r, c w')
    end.

Definition print (line : string) : M unit :=
  fun w => (Ok tt, log_line line w).

(** [d[key]] *)
Definition getitem (d : gmap string string) (key : string) : M string :=
  match d !! key with
  | Some v => ret v
  | None => raise (KeyError key)
  end.

(** [l[i]] for [i >= 0] *)
Definition index {A} (l : list A) (i : nat) : M A :=
  match l !! i with
  | Some v => ret v
  | None => raise (IndexError "list index out of range")
  end.

(** [for x in l: body x] *)
Fixpoint for_each {A} (l : list A) (body : A -> M unit) : M unit :=
  match l with
  | [] => ret tt
  | x :: r => body x >> for_each r body
  end.

(** ** [bazel_target_to_bin] *)

(** [prefix, bin_name = target.split(':')] needs exactly two pieces. *)
Definition bazel_target_to_bin (target : string) : result (string * string) :=
  match Py.split ":"%char target with
  | [prefix; bin_name] =>
      let prefix := Py.replace "//" "/" prefix in
      let prefix := if Py.startswith "/" prefix then Py.tail prefix else prefix in
      let host_bin_path := "bazel-bin/" +:+ prefix in
      Ok (host_bin_path, bin_name)
  | [_] => Raise (ValueError "need more than 1 value to unpack")
  | _ => Raise (ValueError "too many values to unpack")
  end.


(** ** What the module imports *)

(** The parts of the imported libraries the module relies on: the MD5 digest
    of [hashlib] (as a number below [2^128]), the filter [iconv -c -t UTF-8],
    the enumerations of [base_pb2] (generated from the protocol files, which
    are not part of this module), [sys.maxint] and the rendering of a float
    by [%f]. *)
Record Externals : Type := mkExternals {
  md5 : string -> Z;
  iconv_utf8 : string -> string;
  ExecutorType_Name : Z -> option string;
  ModelName_Name : Z -> option string;
  DeviceType_Name : Z -> option string;
  SNPE : Z;
  MACE : Z;
  TFLITE : Z;
  DSP : Z;
  Precision : Z;
  sys_maxint : Z;
  format_f : Q -> string
}.

(** A benchmark job: the dictionary [prepare_all_models] builds always has
    these four keys. *)
Record Job : Type := mkJob {
  executor : Z;
  model_name : Z;
  device_type : Z;
  quantize : bool
}.

Section sh_commands.

Context (X : Externals).

(** [hashlib.md5(content).hexdigest()]: 32 hexadecimal digits. *)
Definition hexdigest (content : string) : string :=
  Py.hex_fixed 32 (md5 X content mod 2 ^ 128).

(** *** The bridge *)

Definition cpufreq_path (cpu_id : nat) : string :=
  "/sys/devices/system/cpu/cpu" +:+ pretty cpu_id
    +:+ "/cpufreq/cpuinfo_max_freq".

(** [cat path] on the device: under [/sys] the only files are the
    [cpuinfo_max_freq] entries of the cores. *)
Definition dev_cat (path : string) (d : Device) : result string :=
  if Py.startswith "/sys/" path then
    match list_find (fun k => path = cpufreq_path k)
            (seq 0 (length (dev_cpufreq d))) with
    | Some (_, k) =>
        match dev_cpufreq d !! k with
        | Some c => Ok c
        | None => Raise (ErrorReturnCode 1 (path +:+ ": No such file or directory"))
        end
    | None => Raise (ErrorReturnCode 1 (path +:+ ": No such file or directory"))
    end
  else
    match dev_files d !! path with
    | Some c => Ok c
    | None => Raise (ErrorReturnCode 1 (path +:+ ": No such file or directory"))
    end.

(** A command the model does not interpret: no output, and whatever effect
    on the device's files the oracle says. *)
Definition opaque (w : World) : result string * World :=
  (Ok "", set_dev_files
            (dev_effect (oracle w) (length (trace w)) (dev_files (dev w))) w).

Definition no_such_file (what path : string) : exn :=
  ErrorReturnCode 1 (what +:+ path +:+ ": No such file or directory").

(** [adb -s serial shell md5sum f] *)
Definition md5sum_sim (f : string) (w : World) : result string * World :=
  match dev_files (dev w) !! f with
  | Some c => (Ok (hexdigest c +:+ "  " +:+ f +:+ Py.nl), w)
  | None => (Raise (no_such_file "md5sum: " f), w)
  end.

(** [adb -s serial push src dst], where [dst] is a directory of the
    device: a file lands in it under its own name. *)
Definition push_sim (src dst : string) (w : World) : result string * World :=
  match host_files (host w) !! src with
  | Some c =>
      (Ok "", set_dev_files
                (<[Py.path_join dst (Py.basename src) := c]> (dev_files (dev w))) w)
  | None =>
      if decide (is_Some (host_dirs (host w) !! src)) then opaque w
      else (Raise (no_such_file "adb: error: cannot stat " src), w)
  end.

(** [adb -s serial pull src dst] *)
Definition pull_sim (src dst : string) (w : World) : result string * World :=
  match dev_files (dev w) !! src with
  | Some c => (Ok "", set_host_files (<[dst := c]> (host_files (host w))) w)
  | None => (Raise (no_such_file "adb: error: remote object " src), w)
  end.

(** [adb -s serial <rest>] for the attached device. *)
Definition adb_device_sim (rest : list string) (w : World)
    : result string * World :=
  match rest with
  | [verb; a] =>
      if decide (verb = "shell") then
        if decide (a = "getprop") then (Ok (dev_props (dev w)), w)
        else if Py.startswith "cat " a then (dev_cat (Py.drop 4 a) (dev w), w)
        else opaque w
      else opaque w
  | [verb; a; b] =>
      if decide (verb = "shell") then
        if decide (a = "md5sum") then md5sum_sim b w else opaque w
      else if decide (verb = "push") then push_sim a b w
      else if decide (verb = "pull") then pull_sim a b w
      else opaque w
  | _ => opaque w
  end.

(** [adb <args>] when no failure is injected. *)
Definition adb_sim (args : list string) (w : World) : result string * World :=
  match args with
  | [a] =>
      if decide (a = "devices") then (Ok (devices_dump (oracle w)), w)
      else opaque w
  | a :: serialno :: rest =>
      if decide (a = "-s") then
        if decide (serialno = dev_serial (dev w)) then adb_device_sim rest w
        else (Raise (ErrorReturnCode 1
                       ("error: device '" +:+ serialno +:+ "' not found")), w)
      else opaque w
  | _ => opaque w
  end.

(** [sh.<prog>(args..., _fg=fg)], with [input] piped in when given: the call
    is recorded, then the oracle may make it fail; otherwise the bridge
    answers. *)
Definition sh (prog : string) (args : list string) (fg : bool)
    (input : option string) : M string :=
  fun w =>
    let w1 := log_event (Cmd prog args fg) w in
    match faults (oracle w) (length (trace w)) with
    | Some e => (Raise e, w1)
    | None =>
        if decide (prog = "adb") then adb_sim args w1
        else if decide (prog = "iconv")
             then (Ok (iconv_utf8 X (default "" input)), w1)
             else opaque w1
    end.

Definition sh_adb (args : list string) : M string := sh "adb" args false None.

(** [time.time()] *)
Definition time_time : M Q :=
  fun w => (Ok (clock (oracle w) (length (trace w))), w).

(** [time.sleep(secs)] *)
Definition time_sleep (secs : Z) : M unit :=
  fun w =>
    if secs <? 0 then (Raise (IOError "[Errno 22] Invalid argument"), w)
    else (Ok tt, log_event (Sleep secs) w).

(** *** Host file system *)

Definition os_path_isfile (path : string) : M bool :=
  fun w => (Ok (bool_decide (is_Some (host_files (host w) !! path))), w).

Definition os_path_isdir (path : string) : M bool :=
  fun w => (Ok (bool_decide (is_Some (host_dirs (host w) !! path))), w).

Definition os_path_exists (path : string) : M bool :=
  fun w => (Ok (bool_decide (is_Some (host_files (host w) !! path))
                || bool_decide (is_Some (host_dirs (host w) !! path))), w).

Definition os_listdir (path : string) : M (list string) :=
  fun w =>
    match host_dirs (host w) !! path with
    | Some l => (Ok l, w)
    | None => (Raise (IOError ("[Errno 2] No such file or directory: '"
                                 +:+ path +:+ "'")), w)
    end.

Definition os_environ (key : string) : M string :=
  fun w =>
    match environ (host w) !! key with
    | Some v => (Ok v, w)
    | None => (Raise (KeyError key), w)
    end.

(** [urllib.urlretrieve(url, path)] *)
Definition urlretrieve (url path : string) : M unit :=
  fun w =>
    let w1 := log_event (UrlRetrieve url path) w in
    match faults (oracle w) (length (trace w)) with
    | Some e => (Raise e, w1)
    | None =>
        match internet (host w) !! url with
        | Some c => (Ok tt, set_host_files (<[path := c]> (host_files (host w))) w1)
        | None => (Raise (IOError ("cannot retrieve " +:+ url)), w1)
        end
    end.

(** *** Reading command output *)

Definition strip_invalid_utf8 (str : string) : M string :=
  sh "iconv" ["-c"; "-t"; "UTF-8"] false (Some str).

(** The list comprehension of [split_stdout]. *)
Definition stdout_lines (stdout_str : string) : list string :=
  (* Filter out last empty line *)
  Py.strip <$>
    filter (fun l => Py.strip l <> "") (Py.split Py.newline stdout_str).

Definition split_stdout (stdout_str : string) : M (list string) :=
  let! stdout_str := strip_invalid_utf8 stdout_str in
  ret (stdout_lines stdout_str).

Definition device_lock_path (serialno : string) : string :=
  "/tmp/device-lock-" +:+ serialno.

(** [with device_lock(serialno): body]: acquiring may fail (the oracle
    decides), the lock is released however the body ends. *)
Definition with_device_lock {A} (serialno : string) (body : M A) : M A :=
  let path := device_lock_path serialno in
  (fun w =>
     match faults (oracle w) (length (trace w)) with
     | Some e => (Raise e, log_event (AcquireTimeout path) w)
     | None => (Ok tt, log_event (Acquire path) w)
     end) >>
  finally body (log_event (Release path)).

(** [re.compile(r'(\w+)\s+device').match(line)]: the word and the white
    space are matched greedily; as no character is both, no shorter choice
    could match, and group 1 is the whole leading word. *)
Definition match_device (line : string) : option string :=
  let '(word, rest) := Py.span Py.is_word line in
  let '(space, rest) := Py.span Ascii.is_space rest in
  if bool_decide (word <> "") && bool_decide (space <> "")
       && Py.startswith "device" rest
  then Some word else None.

Definition adb_devices : M (list string) :=
  let! out := sh_adb ["devices"] in
  let! lines := split_stdout out in
  ret (omap match_device lines).

(** [re.compile(r'\[(.+)\]: \[(.+)\]').match(raw_prop)]: [match_val] is
    [(.+)\]] and [match_key] is [(.+)\]: \[(.+)\]], both taking the longest
    group first; [.] is any character but a newline. *)
Fixpoint match_val (t : string) : option string :=
  match t with
  | "" => None
  | String a r =>
      if decide (a = Py.newline) then None
      else match match_val r with
           | Some v => Some (String a v)
           | None => if Py.startswith "]" r then Some (String a "") else None
           end
  end.

Fixpoint match_key (s : string) : option (string * string) :=
  match s with
  | "" => None
  | String a r =>
      if decide (a = Py.newline) then None
      else match match_key r with
           | Some (k, v) => Some (String a k, v)
           | None =>
               if Py.startswith "]: [" r
               then (fun v => (String a "", v)) <$> match_val (Py.drop 4 r)
               else None
           end
  end.

Definition match_prop (raw_prop : string) : option (string * string) :=
  match raw_prop with
  | String "["%char r => match_key r
  | _ => None
  end.

Definition adb_getprop_by_serialno (serialno : string)
    : M (gmap string string) :=
  let! outputs := sh_adb ["-s"; serialno; "shell"; "getprop"] in
  let! raw_props := split_stdout outputs in
  ret (foldl (fun props raw_prop =>
                match match_prop raw_prop with
                | Some (k, v) => <[k := v]> props
                | None => props
                end) ∅ raw_props).

Definition adb_supported_abis (serialno : string) : M (list string) :=
  let! props := adb_getprop_by_serialno serialno in
  let! abilist_str := getitem props "ro.product.cpu.abilist" in
  ret (Py.strip <$> Py.split ","%char abilist_str).

(** *** Checksums and transfer *)

Definition file_checksum (fname : string) : M string :=
  fun w =>
    match host_files (host w) !! fname with
    | Some c => (Ok (hexdigest c), w)
    | None => (Raise (IOError ("[Errno 2] No such file or directory: '"
                                 +:+ fname +:+ "'")), w)
    end.

Definition adb_push_file (src_file dst_dir serialno : string) : M unit :=
  let! isfile := os_path_isfile src_file in
  if negb isfile then print ("Not file, skip pushing " +:+ src_file)
  else
    let! src_checksum := file_checksum src_file in
    let dst_file := Py.path_join dst_dir (Py.basename src_file) in
    try_except_else
      (let! out := sh_adb ["-s"; serialno; "shell"; "md5sum"; dst_file] in
       ret (Py.lines_keepends out))
      is_ErrorReturnCode_1
      (fun _ =>
         print ("Push " +:+ src_file +:+ " to " +:+ dst_dir) >>
         sh_adb ["-s"; serialno; "push"; src_file; dst_dir] >> ret tt)
      (fun stdout_buff =>
         let! line := index stdout_buff 0 in
         let! dst_checksum := index (Py.split_ws line) 0 in
         if decide (src_checksum = dst_checksum)
         then print ("Equal checksum with " +:+ src_file +:+ " and " +:+ dst_file)
         else
           print ("Push " +:+ src_file +:+ " to " +:+ dst_dir) >>
           sh_adb ["-s"; serialno; "push"; src_file; dst_dir] >> ret tt).

Definition adb_push (src_path dst_dir serialno : string) : M unit :=
  let! isdir := os_path_isdir src_path in
  if isdir then
    let! entries := os_listdir src_path in
    for_each entries (fun src_file =>
      adb_push_file (Py.path_join src_path src_file) dst_dir serialno)
  else adb_push_file src_path dst_dir serialno.

(** [e.stderr]: only [sh.ErrorReturnCode] has the attribute. *)
Definition getattr_stderr (e : exn) : M string :=
  match e with
  | ErrorReturnCode _ err => ret err
  | _ => raise (AttributeError "stderr")
  end.

Definition adb_pull (src_path dst_path serialno : string) : M unit :=
  print ("Pull " +:+ src_path +:+ " to " +:+ dst_path) >>
  try_except
    (sh_adb ["-s"; serialno; "pull"; src_path; dst_path] >> ret tt)
    is_Exception
    (fun e =>
       let! err := getattr_stderr e in
       print ("Error msg: " +:+ err)).

(** *** Fetching artifacts *)

Definition download_file (configs : gmap string string)
    (filename output_dir : string) : M string :=
  let file_path := output_dir +:+ "/" +:+ filename in
  let! url := getitem configs filename in
  let! checksum := getitem configs (filename +:+ "_md5_checksum") in
  let! exists_ := os_path_exists file_path in
  let! stale :=
    (if negb exists_ then ret true
     else let! sum := file_checksum file_path in
          ret (bool_decide (sum <> checksum))) in
  (if stale : bool then
     print ("downloading " +:+ filename +:+ "...") >>
     urlretrieve url file_path
   else ret tt) >>
  let! sum := file_checksum file_path in
  (if decide (sum <> checksum) then
     print ("file " +:+ filename +:+ " md5 checksum not match") >>
     raise (SystemExit 1)
   else ret tt) >>
  ret file_path.

(** Modelled from the spec: [aibench_check] of
    [aibench/python/utils/common.py], which is not part of this module.
    The specification's [verifyOrFail] raises a Checksum Mismatch failure,
    fatal to the calling stage, when the digests differ; so the check raises
    when its condition is false and does nothing otherwise. *)
Definition aibench_check (condition : bool) (msg : string) : M unit :=
  if condition then ret tt else raise (CheckFailed msg).

(** [push_list.append(...)] is modelled by returning the extended list. *)
Definition get_model_file (file_path checksum output_dir : string)
    (push_list : list string) : M (list string) :=
  let filename := default "" (last (Py.split "/"%char file_path)) in
  let! local_file_path :=
    (if Py.startswith "http" file_path then
       let local_file_path := output_dir +:+ "/" +:+ filename in
       let! exists_ := os_path_exists local_file_path in
       let! stale :=
         (if negb exists_ then ret true
          else let! sum := file_checksum local_file_path in
               ret (bool_decide (sum <> checksum))) in
       (if stale : bool then
          print ("downloading " +:+ filename +:+ "...") >>
          urlretrieve file_path local_file_path
        else ret tt) >>
       let! sum := file_checksum local_file_path in
       aibench_check (bool_decide (sum = checksum))
         ("file " +:+ filename +:+ " md5 checksum not match") >>
       ret local_file_path
     else
       let local_file_path := file_path in
       let! sum := file_checksum local_file_path in
       aibench_check (bool_decide (sum = checksum))
         ("file " +:+ filename +:+ " md5 checksum not match") >>
       ret local_file_path) in
  ret (push_list ++ [local_file_path]).

(** *** Staging *)

Definition prepare_device_env (serialno abi device_bin_path : string)
    (executors : list Z) : M unit :=
  let opencv_lib_path :=
    if decide (abi = "armeabi-v7a")
    then "bazel-mobile-ai-bench/external/opencv/sdk/native/libs/armeabi-v7a/libopencv_java3.so"
    else if decide (abi = "arm64-v8a")
    then "bazel-mobile-ai-bench/external/opencv/sdk/native/libs/arm64-v8a/libopencv_java3.so"
    else "" in
  (if decide (opencv_lib_path <> "")
   then adb_push opencv_lib_path device_bin_path serialno
   else ret tt) >>
  (* for snpe *)
  (if bool_decide (SNPE X ∈ executors) then
     let snpe_lib_path :=
       if decide (abi = "armeabi-v7a")
       then "bazel-mobile-ai-bench/external/snpe/lib/arm-android-gcc4.9"
       else if decide (abi = "arm64-v8a")
       then "bazel-mobile-ai-bench/external/snpe/lib/aarch64-android-gcc4.9"
       else "" in
     (if decide (snpe_lib_path <> "") then
        adb_push snpe_lib_path device_bin_path serialno >>
        let! ndk := os_environ "ANDROID_NDK_HOME" in
        let libgnustl_path :=
          ndk +:+ "/sources/cxx-stl/gnu-libstdc++/4.9/libs/" +:+ abi
              +:+ "/libgnustl_shared.so" in
        adb_push libgnustl_path device_bin_path serialno
      else ret tt) >>
     adb_push "bazel-mobile-ai-bench/external/snpe/lib/dsp"
       device_bin_path serialno
   else ret tt) >>
  (* for mace *)
  (if bool_decide (MACE X ∈ executors) && bool_decide (abi = "armeabi-v7a")
   then adb_push "third_party/mace/nnlib/libhexagon_controller.so"
          device_bin_path serialno
   else ret tt) >>
  (* for tflite *)
  (if bool_decide (TFLITE X ∈ executors) then
     let tflite_lib_path :=
       if decide (abi = "armeabi-v7a")
       then "third_party/tflite/tensorflow/contrib/lite/lib/armeabi-v7a/libtensorflowLite.so"
       else if decide (abi = "arm64-v8a")
       then "third_party/tflite/tensorflow/contrib/lite/lib/arm64-v8a/libtensorflowLite.so"
       else "" in
     if decide (tflite_lib_path <> "")
     then adb_push tflite_lib_path device_bin_path serialno
     else ret tt
   else ret tt).

Definition push_all_models (serialno device_bin_path : string)
    (push_list : list string) : M unit :=
  for_each push_list (fun path => adb_push path device_bin_path serialno).

Definition push_precision_files (serialno device_bin_path input_dir : string)
    : M unit :=
  sh_adb ["-s"; serialno; "shell"; "mkdir -p " +:+ device_bin_path] >>
  adb_push "aibench/benchmark/imagenet/imagenet_blacklist.txt"
    device_bin_path serialno >>
  adb_push "aibench/benchmark/imagenet/imagenet_groundtruth_labels.txt"
    device_bin_path serialno >>
  adb_push "aibench/benchmark/imagenet/mobilenet_model_labels.txt"
    device_bin_path serialno >>
  if decide (input_dir <> "") then
    let imagenet_input_path := device_bin_path +:+ "/inputs/" in
    print ("Pushing images from " +:+ input_dir +:+ " to "
             +:+ imagenet_input_path +:+ " ...") >>
    sh_adb ["-s"; serialno; "shell"; "mkdir -p " +:+ imagenet_input_path] >>
    sh_adb ["-s"; serialno; "push"; input_dir; imagenet_input_path] >>
    let base_dir :=
      if decide (Py.last_char input_dir <> Some "/"%char)
      then Py.basename input_dir
      else Py.basename (Py.init input_dir) in
    sh_adb ["-s"; serialno; "shell";
            "mv " +:+ (imagenet_input_path +:+ base_dir) +:+ "/* "
              +:+ imagenet_input_path] >>
    ret tt
  else ret tt.

(** *** The CPU affinity mask *)

(** The [while True] loop of [get_cpu_mask]: one core is read per round
    until a read fails with status 1 or its output is not a number. *)
Fixpoint read_cpu_freqs (fuel : nat) (serialno : string) (cpu_id : nat)
    (freq_list : list Z) : M (list Z) :=
  match fuel with
  | O => out_of_fuel
  | S fuel' =>
      try_except_else
        (let! out := sh_adb ["-s"; serialno; "shell";
                             "cat " +:+ cpufreq_path cpu_id] in
         match Py.int out with
         | Some freq => ret freq
         | None => raise (ValueError ("invalid literal for int() with base 10: '"
                                        +:+ Py.strip out +:+ "'"))
         end)
        (fun e => match e with
                  | ValueError _ => true
                  | _ => is_ErrorReturnCode_1 e
                  end)
        (fun _ => ret freq_list)
        (fun freq => read_cpu_freqs fuel' serialno (S cpu_id) (freq_list ++ [freq]))
  end.

(** The [for freq in freq_list] loop: the bit of each core is put in front
    of the bits of the cores before it. *)
Definition cpu_mask_string (freq_list : list Z) : string :=
  foldl (fun cpu_mask freq =>
           if decide (Some freq = Py.max freq_list)
           then "1" +:+ cpu_mask else "0" +:+ cpu_mask)
    "" freq_list.

(** The last line: [str(hex(int(cpu_mask, 2)))[2:]]. *)
Definition render_cpu_mask (cpu_mask : string) : M string :=
  match Py.int2 cpu_mask with
  | Some n => ret (Py.drop 2 (Py.hex (sys_maxint X) n))
  | None => raise (ValueError ("invalid literal for int() with base 2: '"
                                 +:+ cpu_mask +:+ "'"))
  end.

Definition get_cpu_mask (fuel : nat) (serialno : string) : M string :=
  let! freq_list := read_cpu_freqs fuel serialno 0 [] in
  render_cpu_mask (cpu_mask_string freq_list).

(** *** The scheduler *)

Definition Qltb (a b : Q) : bool :=
  (Qnum a * QDen b <? Qnum b * QDen a)%Z.

Definition enum_name (table : Z -> option string) (enum : string) (v : Z)
    : M string :=
  match table v with
  | Some n => ret n
  | None => raise (ValueError ("Enum " +:+ enum
                                 +:+ " has no name defined for value "
                                 +:+ pretty v))
  end.

Definition str_bool (b : bool) : string := if b then "True" else "False".

Section adb_run.

Context (abi serialno host_bin_path bin_name : string)
        (benchmark_option : Z)
        (input_dir : string)
        (run_interval num_threads : Z)
        (max_time_per_lock : Q)
        (push_list : list string)
        (benchmark_list : list Job)
        (executors : list Z)
        (device_bin_path output_dir : string).

(** The command line of one benchmark job. *)
Definition benchmark_command (cpu_mask : string) (item : Job) : string :=
  let cmd :=
    "cd " +:+ device_bin_path
      +:+ "; ADSP_LIBRARY_PATH='.;/system/lib/rfsa/adsp;/system/vendor/lib/rfsa/adsp;/dsp'; LD_LIBRARY_PATH=. taskset "
      +:+ cpu_mask +:+ " ./model_benchmark" in
  let args :=
    Py.join " "
      ["--run_interval=" +:+ pretty run_interval;
       "--num_threads=" +:+ pretty num_threads +:+ " ";
       "--benchmark_option=" +:+ pretty benchmark_option;
       "--executor=" +:+ pretty (executor item);
       "--device_type=" +:+ pretty (device_type item);
       "--model_name=" +:+ pretty (model_name item);
       "--quantize=" +:+ str_bool (quantize item)] in
  cmd +:+ " " +:+ args.

(** The inner [while]: jobs are run from index [i] on while the minutes
    spent under the lock stay below [max_time_per_lock].  Every round
    advances [i], so [rounds = len(benchmark_list)] rounds are enough. *)
Fixpoint run_batch (rounds : nat) (cpu_mask : string) (start_time : Q)
    (elapse_minutes : Q) (i : nat) : M (Q * nat) :=
  if Qltb elapse_minutes max_time_per_lock
       && bool_decide (i < length benchmark_list)%nat
  then
    match rounds with
    | O => out_of_fuel
    | S rounds' =>
        let! item := index benchmark_list i in
        let i := S i in
        let! e := enum_name (ExecutorType_Name X) "ExecutorType" (executor item) in
        let! m := enum_name (ModelName_Name X) "ModelName" (model_name item) in
        let! d := enum_name (DeviceType_Name X) "DeviceType" (device_type item) in
        print ("('" +:+ e +:+ "', '" +:+ m +:+ "', '" +:+ d +:+ "', '"
                 +:+ (if quantize item then "Quantized" else "Float") +:+ "')") >>
        sh "adb" ["-s"; serialno; "shell"; benchmark_command cpu_mask item]
          true None >>
        let! now := time_time in
        let elapse_minutes := ((now - start_time) / (60 # 1))%Q in
        run_batch rounds' cpu_mask start_time elapse_minutes i
    end
  else ret (elapse_minutes, i).

(** The first part of the body of [with device_lock(serialno)]: power
    configuration, scratch directory, libraries, models, reference files
    and the binary. *)
Definition stage_device (props : gmap string string)
    (product_model target_soc : string) : M unit :=
  print ("Run on device: " +:+ serialno +:+ ", " +:+ product_model
           +:+ ", " +:+ target_soc) >>
  try_except
    (let! soc := getitem props "ro.board.platform" in
     sh "bash" ["tools/power.sh"; serialno; soc] true None >> ret tt)
    is_Exception
    (fun e => print ("Config power exception " +:+ str_exn e)) >>
  sh_adb ["-s"; serialno; "shell"; "mkdir -p " +:+ device_bin_path] >>
  sh_adb ["-s"; serialno; "shell";
          "rm -rf " +:+ Py.path_join device_bin_path "interior"] >>
  sh_adb ["-s"; serialno; "shell";
          "mkdir " +:+ Py.path_join device_bin_path "interior"] >>
  prepare_device_env serialno abi device_bin_path executors >>
  push_all_models serialno device_bin_path push_list >>
  (if decide (benchmark_option = Precision X)
   then push_precision_files serialno device_bin_path input_dir
   else ret tt) >>
  let host_bin_full_path := host_bin_path +:+ "/" +:+ bin_name in
  let device_bin_full_path := device_bin_path +:+ "/" +:+ bin_name in
  adb_push host_bin_full_path device_bin_path serialno >>
  print ("Run " +:+ device_bin_full_path).

(** The body of [with device_lock(serialno)]: take the time, set the
    device up, compute the mask, then run one batch.  It returns the
    index of the next pending job. *)
Definition lock_hold (cpu_fuel : nat) (props : gmap string string)
    (product_model target_soc : string) (i : nat) : M nat :=
  let! start_time := time_time in
  stage_device props product_model target_soc >>
  let! cpu_mask := get_cpu_mask cpu_fuel serialno in
  (* run at least one model *)
  let elapse_minutes := 0%Q in
  let! (elapse_minutes, i) :=
    run_batch (length benchmark_list) cpu_mask start_time elapse_minutes i in
  print ("Elapse time: " +:+ format_f X elapse_minutes +:+ " minutes.") >>
  ret i.

(** The outer [while i < len(benchmark_list)]: one lock hold per round,
    then a pause so that other pipelines can take the lock. *)
Fixpoint schedule (fuel cpu_fuel : nat) (props : gmap string string)
    (product_model target_soc : string) (i : nat) : M unit :=
  if bool_decide (i < length benchmark_list)%nat then
    match fuel with
    | O => out_of_fuel
    | S fuel' =>
        print "=============================================================" >>
        print ("Trying to lock device " +:+ serialno) >>
        let! i :=
          with_device_lock serialno
            (lock_hold cpu_fuel props product_model target_soc i) in
        (* Sleep awhile so that other pipelines can get the device lock. *)
        time_sleep run_interval >>
        schedule fuel' cpu_fuel props product_model target_soc i
    end
  else ret tt.

Definition result_path (product_model target_soc : string) : string :=
  output_dir +:+ "/" +:+ product_model +:+ "_" +:+ target_soc +:+ "_"
    +:+ abi +:+ "_" +:+ "result.txt".

Definition adb_run (fuel cpu_fuel : nat) : M string :=
  sh_adb ["-s"; serialno; "shell";
          "rm -rf " +:+ Py.path_join device_bin_path "result.txt"] >>
  let! props := adb_getprop_by_serialno serialno in
  let! product_model := getitem props "ro.product.model" in
  let! target_soc := getitem props "ro.board.platform" in
  schedule fuel cpu_fuel props product_model target_soc 0 >>
  let src_path := device_bin_path +:+ "/result.txt" in
  let dest_path := result_path product_model target_soc in
  adb_pull src_path dest_path serialno >>
  ret dest_path.

End adb_run.

End sh_commands.

(** ** Device pool, builds, models and data sets *)

(** The fields of a model entry that [get_model] reads. *)
Record ModelInfo : Type := mkModelInfo {
  model_path : string;
  model_checksum : string;
  weight_path : string;
  weight_checksum : string
}.

Section provisioning.

Context (X : Externals).

(** [d[key]] for a dictionary with values of any type. *)
Definition getitem_of {V} (d : gmap string V) (key : string) : M V :=
  match d !! key with
  | Some v => ret v
  | None => raise (KeyError key)
  end.

(** [soc_serialnos_map.setdefault(soc, []).append(serialno)] *)
Definition setdefault_append (soc serialno : string)
    (soc_serialnos_map : gmap string (list string))
    : gmap string (list string) :=
  <[soc := default [] (soc_serialnos_map !! soc) ++ [serialno]]> soc_serialnos_map.

(** The loop of [get_soc_serialnos_map]; the platform is looked up before
    the dictionary is touched. *)
Fixpoint group_by_soc (serialnos : list string)
    (soc_serialnos_map : gmap string (list string))
    : M (gmap string (list string)) :=
  match serialnos with
  | [] => ret soc_serialnos_map
  | serialno :: rest =>
      let! props := adb_getprop_by_serialno X serialno in
      let! soc := getitem props "ro.board.platform" in
      group_by_soc rest (setdefault_append soc serialno soc_serialnos_map)
  end.

Definition get_soc_serialnos_map : M (gmap string (list string)) :=
  let! serialnos := adb_devices X in
  group_by_soc serialnos ∅.

(** The loop of [get_target_socs_serialnos]. *)
Fixpoint extend_serialnos (soc_serialnos_map : gmap string (list string))
    (target_socs serialnos : list string) : M (list string) :=
  match target_socs with
  | [] => ret serialnos
  | target_soc :: rest =>
      let! found := getitem_of soc_serialnos_map target_soc in
      extend_serialnos soc_serialnos_map rest (serialnos ++ found)
  end.

(** [dict_keys] is [dict.keys()]: Python 2 lists the keys of a dictionary in
    an order of its own, which the module does not control. *)
Definition get_target_socs_serialnos
    (dict_keys : gmap string (list string) -> list string)
    (target_socs : option (list string)) : M (list string) :=
  let! soc_serialnos_map := get_soc_serialnos_map in
  let target_socs :=
    match target_socs with
    | None => dict_keys soc_serialnos_map
    | Some target_socs => target_socs
    end in
  extend_serialnos soc_serialnos_map target_socs [].

Definition get_tflite (configs : gmap string string) (output_dir : string)
    : M unit :=
  let! file_path := download_file X configs "tensorflow-1.10.1.zip" output_dir in
  sh X "unzip" ["-o"; file_path; "-d"; "third_party/tflite"] false None >>
  ret tt.

(** The [for executor in executors] loop of [bazel_build]. *)
Fixpoint define_executors (executors : list Z) (bazel_args : list string)
    : M (list string) :=
  match executors with
  | [] => ret bazel_args
  | executor :: rest =>
      let! name := enum_name (ExecutorType_Name X) "ExecutorType" executor in
      define_executors rest
        (bazel_args ++ ["--define"; Py.lower name +:+ "=true"])
  end.

Definition bazel_build (serialno target abi : string)
    (executors device_types : list Z) : M unit :=
  print ("* Build " +:+ target +:+ " with ABI " +:+ abi) >>
  let! bazel_args :=
    (if decide (abi = "host") then ret ["build"; target]
     else
       let! ndk := os_environ "ANDROID_NDK_HOME" in
       ret ["build"; target; "--config"; "android"; "--cpu=" +:+ abi;
            "--action_env=ANDROID_NDK_HOME=" +:+ ndk]) in
  let! bazel_args := define_executors executors bazel_args in
  let bazel_args := bazel_args ++ ["--define"; "neon=true"] in
  let bazel_args := bazel_args ++ ["--define"; "openmp=true"] in
  let bazel_args := bazel_args ++ ["--define"; "opencl=true"] in
  let bazel_args := bazel_args ++ ["--define"; "quantize=true"] in
  let! bazel_args :=
    (if bool_decide (DSP X ∈ device_types) && bool_decide (abi = "armeabi-v7a")
     then
       with_device_lock serialno
         (try_except_else
            (sh_adb X ["-s"; serialno; "shell"; "ls /system/lib/libcdsprpc.so"])
            is_ErrorReturnCode_1
            (fun _ =>
               print "/system/lib/libcdsprpc.so does not exists! Skip DSP." >>
               ret bazel_args)
            (fun output =>
               if Py.contains "No such file or directory" output then
                 print "/system/lib/libcdsprpc.so does not exists! Skip DSP." >>
                 ret bazel_args
               else
                 ret (bazel_args ++ ["--define"; "dsp=true"]
                        ++ ["--define"; "hexagon=true"])))
     else ret bazel_args) in
  sh X "bazel" bazel_args true None >>
  print ("Build done!" +:+ Py.nl).

Definition get_model (model_info : ModelInfo) (output_dir : string)
    (push_list : list string) : M (list string) :=
  let! push_list :=
    get_model_file X (model_path model_info) (model_checksum model_info)
      output_dir push_list in
  if decide (weight_path model_info <> "") then
    get_model_file X (weight_path model_info) (weight_checksum model_info)
      output_dir push_list
  else ret push_list.

Definition prepare_datasets (configs : gmap string string)
    (output_dir input_dir : string) : M string :=
  if Py.startswith "http" input_dir then
    let! file_path := download_file X configs "imagenet_less.zip" output_dir in
    sh X "unzip" ["-o"; file_path; "-d"; output_dir] false None >>
    ret (output_dir +:+ "/imagenet_less")
  else ret input_dir.

End provisioning.

(** ** Benchmarks and models *)

(** What the module reads of the messages of [aibench_pb2]: a model entry
    has a name, a flag, devices and the four fields of its files; a benchmark
    has an executor and models. *)
Record ModelEntry : Type := mkModelEntry {
  entry_name : Z;
  entry_quantize : bool;
  entry_devices : list Z;
  entry_files : ModelInfo
}.

Record Benchmark : Type := mkBenchmark {
  bench_executor : Z;
  bench_models : list ModelEntry
}.

(** What the module uses of [protobuf]: the names and values of the three
    enumerations, and [text_format.Parse] followed by [SerializeToString]
    for the two factories.  Parsing fails ([None]) with a [ParseError]; of a
    [BenchFactory] the module reads the benchmarks, of a [ModelFactory]
    nothing. *)
Record Protobuf : Type := mkProtobuf {
  ExecutorType_keys : list string;
  ExecutorType_Value : string -> option Z;
  ModelName_keys : list string;
  ModelName_Value : string -> option Z;
  DeviceType_keys : list string;
  DeviceType_Value : string -> option Z;
  parse_BenchFactory : string -> option (list Benchmark * string);
  parse_ModelFactory : string -> option string
}.

Section models.

Context (X : Externals) (P : Protobuf).

(** [open(path, "rb").read()] *)
Definition read_file (path : string) : M string :=
  fun w =>
    match host_files (host w) !! path with
    | Some c => (Ok c, w)
    | None => (Raise (IOError ("[Errno 2] No such file or directory: '"
                                 +:+ path +:+ "'")), w)
    end.

(** [open(path, "wb").write(content)] *)
Definition write_file (path content : string) : M unit :=
  fun w => (Ok tt, set_host_files (<[path := content]> (host_files (host w))) w).

(** The [ParseError] of [text_format.Parse] is raised again as an
    [IOError] (its second argument, the [ParseError] itself, is left out);
    [push_list.append] is modelled by returning the list. *)
Definition get_proto (push_list : list string) (output_dir : string)
    : M (list Benchmark * list string) :=
  let! file_content := read_file "aibench/proto/benchmark.meta" in
  match parse_BenchFactory P file_content with
  | None => raise (IOError "Cannot parse file.")
  | Some (benchmarks, serialized) =>
      let filepath := output_dir +:+ "/benchmark.pb" in
      write_file filepath serialized >>
      let push_list := push_list ++ [filepath] in
      let! file_content := read_file "aibench/proto/model.meta" in
      match parse_ModelFactory P file_content with
      | None => raise (IOError "Cannot parse file.")
      | Some serialized =>
          let filepath := output_dir +:+ "/model.pb" in
          write_file filepath serialized >>
          let push_list := push_list ++ [filepath] in
          ret (benchmarks, push_list)
      end
  end.

(** [[Enum.Value(e) for e in names]] *)
Fixpoint enum_values (value : string -> option Z) (enum : string)
    (names : list string) : M (list Z) :=
  match names with
  | [] => ret []
  | e :: rest =>
      match value e with
      | Some v => let! vs := enum_values value enum rest in ret (v :: vs)
      | None => raise (ValueError ("Enum " +:+ enum
                                     +:+ " has no value defined for name " +:+ e))
      end
  end.

(** [arg.split(',') if arg != "all" else Enum.keys()] *)
Definition enum_names (keys : list string) (arg : string) : list string :=
  if decide (arg <> "all") then Py.split ","%char arg else keys.

(** The loop over [model.devices]. *)
Fixpoint select_devices (executor : Z) (model : ModelEntry)
    (device_types : list Z) (output_dir : string) (devices : list Z)
    (downloaded : bool) (push_list : list string) (model_infos : list Job)
    : M (list string * list Job) :=
  match devices with
  | [] => ret (push_list, model_infos)
  | device :: rest =>
      if bool_decide (device ∉ device_types) then
        select_devices executor model device_types output_dir rest downloaded
          push_list model_infos
      else
        let! push_list :=
          (if negb downloaded
           then get_model X (entry_files model) output_dir push_list
           else ret push_list) in
        let downloaded := true in
        let info := {| executor := executor; model_name := entry_name model;
                       device_type := device;
                       quantize := entry_quantize model |} in
        select_devices executor model device_types output_dir rest downloaded
          push_list (model_infos ++ [info])
  end.

(** The loop over [benchmark.models]. *)
Fixpoint select_models (executor : Z) (model_names device_types : list Z)
    (output_dir : string) (models : list ModelEntry)
    (push_list : list string) (model_infos : list Job)
    : M (list string * list Job) :=
  match models with
  | [] => ret (push_list, model_infos)
  | model :: rest =>
      if bool_decide (entry_name model ∉ model_names) then
        select_models executor model_names device_types output_dir rest
          push_list model_infos
      else
        let downloaded := false in
        let! (push_list, model_infos) :=
          select_devices executor model device_types output_dir
            (entry_devices model) downloaded push_list model_infos in
        select_models executor model_names device_types output_dir rest
          push_list model_infos
  end.

(** The loop over [bench_factory.benchmarks]. *)
Fixpoint select_benchmarks (executors model_names device_types : list Z)
    (output_dir : string) (benchmarks : list Benchmark)
    (push_list : list string) (model_infos : list Job)
    : M (list string * list Job) :=
  match benchmarks with
  | [] => ret (push_list, model_infos)
  | benchmark :: rest =>
      if bool_decide (bench_executor benchmark ∉ executors) then
        select_benchmarks executors model_names device_types output_dir rest
          push_list model_infos
      else
        let! (push_list, model_infos) :=
          select_models (bench_executor benchmark) model_names device_types
            output_dir (bench_models benchmark) push_list model_infos in
        select_benchmarks executors model_names device_types output_dir rest
          push_list model_infos
  end.

Definition prepare_all_models (executors model_names device_types
    output_dir : string) : M (list Z * list Z * list string * list Job) :=
  let push_list := [] in
  let! (benchmarks, push_list) := get_proto push_list output_dir in
  let! executors :=
    enum_values (ExecutorType_Value P) "ExecutorType"
      (enum_names (ExecutorType_keys P) executors) in
  let! model_names :=
    enum_values (ModelName_Value P) "ModelName"
      (enum_names (ModelName_keys P) model_names) in
  let! device_types :=
    enum_values (DeviceType_Value P) "DeviceType"
      (enum_names (DeviceType_keys P) device_types) in
  let model_infos := [] in
  let! (push_list, model_infos) :=
    select_benchmarks executors model_names device_types output_dir benchmarks
      push_list model_infos in
  ret (executors, device_types, push_list, model_infos).

End models.

(** ** Observing a run *)

(** The arguments of the benchmark invocations among some events: these are
    the calls [sh.adb(..., _fg=True)], which only the batch loop makes. *)
Definition runs_of (es : list event) : list (list string) :=
  omap (fun e =>
          match e with
          | Cmd prog args true => if decide (prog = "adb") then Some args else None
          | _ => None
          end) es.

(** The file transfers to the device among some events. *)
Definition pushes_of (es : list event) : list (list string) :=
  omap (fun e =>
          match e with
          | Cmd prog ("-s" :: serialno :: "push" :: rest) _ =>
              if decide (prog = "adb") then Some (serialno :: rest) else None
          | _ => None
          end) es.

(** A regular file of the host that a list of paths names, or that lies
    directly in a directory the list names. *)
Definition listed_file (h : Host) (push_list : list string) (src : string)
    : Prop :=
  is_Some (host_files h !! src)
  /\ (src ∈ push_list
      \/ exists d entries f,
           d ∈ push_list /\ host_dirs h !! d = Some entries
           /\ f ∈ entries /\ src = Py.path_join d f).

(** The number of times the device lock was taken. *)
Definition lock_holds (es : list event) : nat :=
  length (omap (fun e => match e with Acquire path => Some path | _ => None end) es).

(** A command that is not a benchmark invocation. *)
Definition is_setup (e : event) : Prop :=
  match e with
  | Cmd prog _ fg => fg = false \/ prog <> "adb"
  | _ => False
  end.

(** An event that is not a benchmark invocation. *)
Definition is_quiet (e : event) : Prop :=
  match e with
  | Cmd prog _ fg => fg = false \/ prog <> "adb"
  | _ => True
  end.

(** An event other than taking or releasing the lock, or sleeping. *)
Definition is_command (e : event) : Prop :=
  match e with
  | Cmd _ _ _ | UrlRetrieve _ _ => True
  | _ => False
  end.

(** [w'] is [w] after the events [es]; nothing the program does changes the
    oracle or the number of cores. *)
Definition extends (w w' : World) (es : list event) : Prop :=
  trace w' = trace w ++ es /\ oracle w' = oracle w
  /\ dev_cpufreq (dev w') = dev_cpufreq (dev w).

(** [m] always ends, and its events all satisfy [P]. *)
Definition emits {A} (P : event -> Prop) (m : M A) : Prop :=
  forall w r w', m w = (r, w') ->
    r <> OutOfFuel /\ exists es, extends w w' es /\ Forall P es.

(** The number whose bit [i] is the [i]-th element of a list of bits. *)
Fixpoint mask_value (bits : list bool) : Z :=
  match bits with
  | [] => 0
  | b :: r => 2 * mask_value r + Z.b2z b
  end.

(** The binary digits of a list of bits, highest bit first. *)
Fixpoint bits_str (bits : list bool) : string :=
  match bits with
  | [] => ""
  | b :: r => bits_str r +:+ (if b then "1" else "0")
  end.

(** The transfer, as both branches of [adb_push_file] write it. *)
Definition push_step (X : Externals) (src_file dst_dir serialno : string) : M unit :=
  print ("Push " +:+ src_file +:+ " to " +:+ dst_dir) >>
  sh_adb X ["-s"; serialno; "push"; src_file; dst_dir] >> ret tt.

(** The checksum a successful [md5sum] query reports: the first word of the
    first line of its output. *)
Definition reported_checksum (out : string) : option string :=
  match Py.lines_keepends out !! 0%nat with
  | Some line => Py.split_ws line !! 0%nat
  | None => None
  end.

(** Whether [adb_push_file] transfers, given the local checksum and the
    outcome of the [md5sum] query: the query failed with exit status 1, or it
    reported another checksum. *)
Definition transfer_needed (src_checksum : string) (query : result string) : bool :=
  match query with
  | Raise e => is_ErrorReturnCode_1 e
  | Ok out =>
      match reported_checksum out with
      | Some dst_checksum => bool_decide (src_checksum <> dst_checksum)
      | None => false
      end
  | OutOfFuel => false
  end.

(** The read of a core's frequency did not yield a number: the command
    failed with exit status 1, a [ValueError] was raised, or the output is
    not an integer.  These are the cases in which [get_cpu_mask] stops. *)
Definition read_failed (r : result string) : Prop :=
  match r with
  | Ok out => Py.int out = None
  | Raise e => (exists msg, e = ValueError msg) \/ (exists err, e = ErrorReturnCode 1 err)
  | OutOfFuel => False
  end.

(** The jobs at the indices [i, ..., n - 1]. *)
Definition jobs_between {A} (i n : nat) (l : list A) : list A :=
  take (n - i) (drop i l).

(** [args] are the arguments of the invocation of the job [item], under
    some affinity mask. *)
Definition invokes (serialno : string) (benchmark_option run_interval num_threads : Z)
    (device_bin_path : string) (args : list string) (item : Job) : Prop :=
  exists cpu_mask,
    args = ["-s"; serialno; "shell";
            benchmark_command benchmark_option run_interval num_threads
              device_bin_path cpu_mask item].

(** The flags that tell the benchmark binary which job to run. *)
Definition job_flags (item : Job) : string :=
  "--executor=" +:+ pretty (executor item)
    +:+ " --device_type=" +:+ pretty (device_type item)
    +:+ " --model_name=" +:+ pretty (model_name item)
    +:+ " --quantize=" +:+ (if quantize item then "True" else "False").

(** The shell command that runs the benchmark binary in [device_bin_path]
    for the job [item], pinned to the cores of [cpu_mask], written out. *)
Definition job_command_line (benchmark_option run_interval num_threads : Z)
    (device_bin_path cpu_mask : string) (item : Job) : string :=
  ("cd " +:+ device_bin_path
     +:+ "; ADSP_LIBRARY_PATH='.;/system/lib/rfsa/adsp;/system/vendor/lib/rfsa/adsp;/dsp'; LD_LIBRARY_PATH=. taskset "
     +:+ cpu_mask +:+ " ./model_benchmark --run_interval=" +:+ pretty run_interval
     +:+ " --num_threads=" +:+ pretty num_threads
     +:+ "  --benchmark_option=" +:+ pretty benchmark_option)
    +:+ " " +:+ job_flags item.

(** [args] are the arguments of an [adb] call that runs the job [item] on
    the device [serialno], under some affinity mask. *)
Definition runs_job (serialno : string)
    (benchmark_option run_interval num_threads : Z) (device_bin_path : string)
    (args : list string) (item : Job) : Prop :=
  exists cpu_mask,
    args = ["-s"; serialno; "shell";
            job_command_line benchmark_option run_interval num_threads
              device_bin_path cpu_mask item].


(** ** Lines of the device list *)

(** What the pattern [(\w+)\s+device] accepts at the start of a line, and the
    group it captures: a non-empty word [s], non-empty white space, the text
    [device], anything. *)
Definition all_chars (p : ascii -> bool) (s : string) : Prop :=
  Py.span p s = (s, "").

Definition device_line (line serial : string) : Prop :=
  exists space rest,
    line = serial +:+ space +:+ "device" +:+ rest
    /\ serial <> "" /\ all_chars Py.is_word serial
    /\ space <> "" /\ all_chars Ascii.is_space space.

(** A word: no white space in it, and not empty. *)
Definition is_token (s : string) : Prop :=
  s <> "" /\ all_chars (fun a => negb (Ascii.is_space a)) s.

(** [listed lines serials]: [serials] are the captures of the lines that the
    pattern accepts, in the order of the lines; the other lines are passed
    over. *)
Inductive listed : list string -> list string -> Prop :=
  | listed_nil : listed [] []
  | listed_match line serial lines serials :
      device_line line serial -> listed lines serials ->
      listed (line :: lines) (serial :: serials)
  | listed_skip line lines serials :
      (forall serial, ~ device_line line serial) -> listed lines serials ->
      listed (line :: lines) serials.

(** ** Lines of the property dump *)

(** A line of the dump of [getprop], and the dump of a list of properties:
    one line [[key]: [value]] for each, in order. *)
Definition prop_line (kv : string * string) : string :=
  "[" +:+ kv.1 +:+ "]: [" +:+ kv.2 +:+ "]".

Definition getprop_dump (kvs : list (string * string)) : string :=
  foldr (fun kv rest => prop_line kv +:+ Py.nl +:+ rest) "" kvs.

(** A property whose key and value are not empty and stay on one line, and
    whose value has no closing bracket. *)
Definition plain_prop (kv : string * string) : Prop :=
  kv.1 <> "" /\ kv.2 <> ""
  /\ Py.mem Py.newline kv.1 = false /\ Py.mem Py.newline kv.2 = false
  /\ Py.mem "]" kv.2 = false.

(** ** More observations *)

(** The read of the maximal frequency of core [k]. *)
Definition cat_cpufreq (serialno : string) (k : nat) : event :=
  Cmd "adb" ["-s"; serialno; "shell"; "cat " +:+ cpufreq_path k] false.

(** The lock discipline along some events, starting with the lock held or
    not: the lock at [path] is taken only when it is free and released only
    when it is held, a benchmark is invoked only while it is held, and the
    program sleeps, or gives up waiting for the lock, only while it is free.
    The result is whether the lock is held in the end, [None] when the
    discipline is broken. *)
Fixpoint lock_after (path : string) (held : bool) (es : list event)
    : option bool :=
  match es with
  | [] => Some held
  | Acquire p :: r =>
      if negb held && bool_decide (p = path) then lock_after path true r else None
  | Release p :: r =>
      if held && bool_decide (p = path) then lock_after path false r else None
  | AcquireTimeout _ :: r | Sleep _ :: r =>
      if held then None else lock_after path held r
  | Cmd prog _ true :: r =>
      if bool_decide (prog = "adb") && negb held then None
      else lock_after path held r
  | _ :: r => lock_after path held r
  end.

(** The events of [m] all satisfy [P], however it ends. *)
Definition traces {A} (P : event -> Prop) (m : M A) : Prop :=
  forall w r w', m w = (r, w') -> exists es, extends w w' es /\ Forall P es.

(** Where [get_model_file] keeps a model: a URL is fetched into
    [output_dir] under its last path component, a local file stays where it
    is. *)
Definition local_model_path (file_path output_dir : string) : string :=
  if Py.startswith "http" file_path
  then output_dir +:+ "/" +:+ default "" (last (Py.split "/"%char file_path))
  else file_path.

(** The arguments [bazel_build] has collected before it looks for the DSP
    library: the build command for the ABI, one definition for each executor
    name, and the four fixed definitions. *)
Definition bazel_common_args (target abi ndk : string) (names : list string)
    : list string :=
  (if decide (abi = "host") then ["build"; target]
   else ["build"; target; "--config"; "android"; "--cpu=" +:+ abi;
         "--action_env=ANDROID_NDK_HOME=" +:+ ndk])
  ++ concat ((fun name => ["--define"; Py.lower name +:+ "=true"]) <$> names)
  ++ ["--define"; "neon=true"; "--define"; "openmp=true";
      "--define"; "opencl=true"; "--define"; "quantize=true"].

(** The two definitions added when the device has the DSP library. *)
Definition dsp_args : list string :=
  ["--define"; "dsp=true"; "--define"; "hexagon=true"].

(** The jobs of a model, of a benchmark and of all benchmarks for the chosen
    executors, models and devices: one job for each chosen device of each
    chosen model of each chosen benchmark, in the order of the messages. *)
Definition jobs_of_model (executor : Z) (device_types : list Z)
    (model : ModelEntry) : list Job :=
  (fun device => {| executor := executor; model_name := entry_name model;
                    device_type := device; quantize := entry_quantize model |})
    <$> filter (fun device => device ∈ device_types) (entry_devices model).

Definition chosen_models (model_names : list Z) (benchmark : Benchmark)
    : list ModelEntry :=
  filter (fun model => entry_name model ∈ model_names) (bench_models benchmark).

Definition chosen_benchmarks (executors : list Z) (benchmarks : list Benchmark)
    : list Benchmark :=
  filter (fun benchmark => bench_executor benchmark ∈ executors) benchmarks.

Definition selected_jobs (executors model_names device_types : list Z)
    (benchmarks : list Benchmark) : list Job :=
  benchmark ← chosen_benchmarks executors benchmarks;
  model ← chosen_models model_names benchmark;
  jobs_of_model (bench_executor benchmark) device_types model.

(** The files [get_model] appends for a model entry. *)
Definition model_files (output_dir : string) (model_info : ModelInfo)
    : list string :=
  local_model_path (model_path model_info) output_dir
    :: (if decide (weight_path model_info <> "")
        then [local_model_path (weight_path model_info) output_dir] else []).

(** The files of the chosen models that have a chosen device. *)
Definition selected_files (executors model_names device_types : list Z)
    (output_dir : string) (benchmarks : list Benchmark) : list string :=
  benchmark ← chosen_benchmarks executors benchmarks;
  model ← chosen_models model_names benchmark;
  if bool_decide (Exists (fun device => device ∈ device_types)
                    (entry_devices model))
  then model_files output_dir (entry_files model) else [].

(** All the serial numbers that a dictionary from platforms to serial
    numbers holds. *)
Definition grouped (soc_serialnos_map : gmap string (list string)) : list string :=
  concat (map_to_list soc_serialnos_map).*2.

(** The value of a run that ended normally. *)
Definition value_of {A} (d : A) (r : result A) : A :=
  match r with
  | Ok a => a
  | _ => d
  end.

(** ** A phone on the bench *)

(** A concrete host, device and bridge on which the functions can be run. *)
Module Demo.

(** A stand-in for MD5, good enough to tell the files of the example apart. *)
Fixpoint digest_from (acc : Z) (content : string) : Z :=
  match content with
  | "" => acc
  | String a r => digest_from (acc * 31 + Z.of_N (N_of_ascii a)) r
  end.

Definition digest (content : string) : Z := digest_from 7 content.

Definition externals : Externals :=
  {| md5 := digest;
     iconv_utf8 := fun s => s;
     ExecutorType_Name := fun v =>
       if decide (v = 0) then Some "MACE"
       else if decide (v = 1) then Some "SNPE" else None;
     ModelName_Name := fun v =>
       if decide (v = 0) then Some "MobileNetV1" else None;
     DeviceType_Name := fun v =>
       if decide (v = 0) then Some "CPU"
       else if decide (v = 1) then Some "GPU" else None;
     SNPE := 1; MACE := 0; TFLITE := 3; DSP := 2; Precision := 1;
     sys_maxint := 2 ^ 63 - 1;
     format_f := fun q => pretty (Qnum q) +:+ "/" +:+ pretty (Zpos (Qden q)) |}.

Definition laptop : Host :=
  {| host_files := <["bin/model_benchmark" := "ELF"]> (<["m/model.pb" := "weights"]> ∅);
     host_dirs := ∅;
     environ := ∅;
     internet := <["http://models/net.pb" := "net"]> ∅ |}.

Definition phone : Device :=
  {| dev_serial := "abc123";
     dev_props := "[ro.product.model]: [MI 8]" +:+ Py.nl
                    +:+ "[ro.board.platform]: [sdm845]" +:+ Py.nl;
     dev_cpufreq := ["100"; "200" +:+ Py.nl; "200"; "100"];
     dev_files := <["/data/local/tmp/aibench/result.txt" := "results"]> ∅ |}.

Definition tab : string := String "009"%char "".

(** A bridge that never fails; the [k]-th event happens at second [k]. *)
Definition bridge : Oracle :=
  {| devices_dump := "List of devices attached" +:+ Py.nl
                       +:+ "abc123" +:+ tab +:+ "device" +:+ Py.nl
                       +:+ "emulator-5554" +:+ tab +:+ "device" +:+ Py.nl
                       +:+ "0123456789ABCDEF" +:+ tab +:+ "offline" +:+ Py.nl
                       +:+ "f00d" +:+ tab +:+ "device" +:+ Py.nl +:+ Py.nl;
     faults := fun _ => None;
     dev_effect := fun _ files => files;
     clock := fun k => Z.of_nat k # 1 |}.

Definition world : World :=
  {| host := laptop; dev := phone; oracle := bridge; trace := []; stdout := [] |}.

(** The same, but the first event fails with [e]. *)
Definition failing (e : exn) : World :=
  {| host := laptop; dev := phone;
     oracle := {| devices_dump := devices_dump bridge;
                  faults := fun k => if decide (k = 0%nat) then Some e else None;
                  dev_effect := dev_effect bridge;
                  clock := clock bridge |};
     trace := []; stdout := [] |}.

(** The same, but no core's frequency can be read. *)
Definition coreless : World :=
  {| host := laptop;
     dev := {| dev_serial := "abc123"; dev_props := dev_props phone;
               dev_cpufreq := []; dev_files := dev_files phone |};
     oracle := bridge; trace := []; stdout := [] |}.

Definition jobs : list Job :=
  [ {| executor := 0; model_name := 0; device_type := 0; quantize := false |};
    {| executor := 0; model_name := 0; device_type := 1; quantize := true |} ].

(** [adb_run] for the phone, with 5 rounds for the reading of the cores. *)
Definition run (max_time_per_lock : Q) (benchmark_list : list Job) (fuel : nat)
    : M string :=
  adb_run externals "arm64-v8a" "abc123" "bin" "model_benchmark" 0 "" 1 4
    max_time_per_lock ["m/model.pb"] benchmark_list [0]
    "/data/local/tmp/aibench" "out" fuel 5.

Definition configs : gmap string string :=
  <["net.pb" := "http://models/net.pb"]>
    (<["net.pb_md5_checksum" := hexdigest externals "net"]> ∅).

End Demo.

(** ** A second bench *)

(** A host with a directory of libraries and one of images, a fetched
    model, the NDK, and two archives within reach; a phone that also tells
    its ABIs, with a core that is offline between the others; a bridge to
    which only this phone is attached. *)
Module Lab.

Definition laptop : Host :=
  {| host_files :=
       <["libs/liba.so" := "a"]>
         (<["libs/libb.so" := "b"]>
            (<["out/net.pb" := "net"]> (host_files Demo.laptop)));
     host_dirs :=
       <["libs" := ["liba.so"; "arm"; "libb.so"]]>
         (<["libs/arm" := []]>
            (<["data/images" := []]> (<["data/images/" := []]> ∅)));
     environ := <["ANDROID_NDK_HOME" := "/opt/ndk"]> ∅;
     internet :=
       <["http://data/imagenet_less.zip" := "images"]>
         (<["http://data/tensorflow.zip" := "tensorflow"]> (internet Demo.laptop)) |}.

Definition props : list (string * string) :=
  [("ro.product.model", "MI 8"); ("ro.board.platform", "sdm845");
   ("ro.product.cpu.abilist", "arm64-v8a,armeabi-v7a,armeabi")].

Definition phone : Device :=
  {| dev_serial := "abc123";
     dev_props := getprop_dump props;
     dev_cpufreq := ["1766400"; "1766400"; "offline"; "2803200"];
     dev_files := ∅ |}.

Definition bridge : Oracle :=
  {| devices_dump := "List of devices attached" +:+ Py.nl
                       +:+ "abc123" +:+ Demo.tab +:+ "device" +:+ Py.nl +:+ Py.nl;
     faults := fun _ => None;
     dev_effect := fun _ files => files;
     clock := clock Demo.bridge |}.

Definition world : World :=
  {| host := laptop; dev := phone; oracle := bridge; trace := []; stdout := [] |}.

(** The same, but the phone does not tell its platform. *)
Definition nameless : World :=
  {| host := laptop;
     dev := {| dev_serial := "abc123";
               dev_props := getprop_dump [("ro.product.model", "MI 8")];
               dev_cpufreq := dev_cpufreq phone; dev_files := ∅ |};
     oracle := bridge; trace := []; stdout := [] |}.

Definition configs : gmap string string :=
  <["imagenet_less.zip" := "http://data/imagenet_less.zip"]>
    (<["imagenet_less.zip_md5_checksum" := hexdigest Demo.externals "images"]>
       (<["tensorflow-1.10.1.zip" := "http://data/tensorflow.zip"]>
          (<["tensorflow-1.10.1.zip_md5_checksum"
               := hexdigest Demo.externals "tensorflow"]> ∅))).

(** A model that is kept on the host, with weights that are fetched. *)
Definition model_info : ModelInfo :=
  {| model_path := "m/model.pb";
     model_checksum := hexdigest Demo.externals "weights";
     weight_path := "http://models/net.pb";
     weight_checksum := hexdigest Demo.externals "net" |}.

(** One order in which a dictionary may list its keys. *)
Definition dict_keys (d : gmap string (list string)) : list string :=
  (map_to_list d).*1.

(** A host that also has the two descriptions of the benchmarks, and a
    [protobuf] that reads them. *)
Definition benchmarks : list Benchmark :=
  [ {| bench_executor := 0;
       bench_models :=
         [ {| entry_name := 0; entry_quantize := false;
              entry_devices := [0; 1]; entry_files := model_info |} ] |};
    {| bench_executor := 1;
       bench_models :=
         [ {| entry_name := 0; entry_quantize := true;
              entry_devices := [0]; entry_files := model_info |} ] |} ].

Definition protobuf : Protobuf :=
  {| ExecutorType_keys := ["MACE"; "SNPE"];
     ExecutorType_Value := fun name =>
       if decide (name = "MACE") then Some 0
       else if decide (name = "SNPE") then Some 1 else None;
     ModelName_keys := ["MobileNetV1"];
     ModelName_Value := fun name =>
       if decide (name = "MobileNetV1") then Some 0 else None;
     DeviceType_keys := ["CPU"; "GPU"];
     DeviceType_Value := fun name =>
       if decide (name = "CPU") then Some 0
       else if decide (name = "GPU") then Some 1 else None;
     parse_BenchFactory := fun content =>
       if decide (content = "benchmarks") then Some (benchmarks, "B") else None;
     parse_ModelFactory := fun content =>
       if decide (content = "models") then Some "M" else None |}.

Definition office : World :=
  {| host :=
       {| host_files :=
            <["aibench/proto/benchmark.meta" := "benchmarks"]>
              (<["aibench/proto/model.meta" := "models"]> (host_files laptop));
          host_dirs := host_dirs laptop;
          environ := environ laptop;
          internet := internet laptop |};
     dev := phone; oracle := bridge; trace := []; stdout := [] |}.

End Lab.

(** * Properties *)

(** ** Strings *)

Section string_facts.

Lemma str_app_cons (a : ascii) (p s : string) :
  String a p +:+ s = String a (p +:+ s).
Proof. reflexivity. Qed.

Lemma str_app_nil_l (s : string) : "" +:+ s = s.
Proof. reflexivity. Qed.

Lemma prefix_nil (s : string) : String.prefix "" s = true.
Proof. by destruct s. Qed.

Lemma prefix_app (p s : string) : String.prefix p (p +:+ s) = true.
Proof.
  induction p as [|a p IH]; [by destruct s |].
  rewrite str_app_cons. cbn.
  destruct (Ascii.ascii_dec a a); [exact IH | done].
Qed.

Lemma drop_app (p s : string) : Py.drop (String.length p) (p +:+ s) = s.
Proof. induction p as [|a p IH]; [by destruct s | exact IH]. Qed.

Lemma str_app_nil_r (s : string) : s +:+ "" = s.
Proof. induction s as [|a s IH]; [done | by rewrite str_app_cons, IH]. Qed.

Lemma str_app_assoc (a b c : string) : (a +:+ b) +:+ c = a +:+ b +:+ c.
Proof. induction a as [|x a IH]; [done | by rewrite !str_app_cons, IH]. Qed.

Lemma str_length_app (a b : string) :
  String.length (a +:+ b) = (String.length a + String.length b)%nat.
Proof. induction a as [|x a IH]; [done | rewrite str_app_cons; cbn; by rewrite IH]. Qed.

(** Appending the same suffix is injective. *)
Lemma str_app_inj_r (a b t : string) : a +:+ t = b +:+ t -> a = b.
Proof.
  revert b. induction a as [|x a IH]; intros [|y b] H.
  - done.
  - apply (f_equal String.length) in H.
    rewrite str_app_cons, str_app_nil_l in H. cbn in H. rewrite str_length_app in H. lia.
  - apply (f_equal String.length) in H.
    rewrite str_app_cons, str_app_nil_l in H. cbn in H. rewrite str_length_app in H. lia.
  - rewrite !str_app_cons in H. injection H as -> H. f_equal. by apply IH.
Qed.

Lemma split_no_sep (sep : ascii) (s : string) :
  Py.mem sep s = false -> Py.split sep s = [s].
Proof.
  induction s as [|a s IH]; cbn; [done |].
  destruct (decide (a = sep)); [done |].
  intros H. by rewrite (IH H).
Qed.

Lemma split_app_sep (sep : ascii) (p c : string) :
  Py.mem sep p = false ->
  Py.split sep (p +:+ String sep c) = p :: Py.split sep c.
Proof.
  induction p as [|a p IH].
  - intros _. rewrite str_app_nil_l. cbn. by destruct (decide (sep = sep)).
  - rewrite str_app_cons. cbn. destruct (decide (a = sep)); [done |].
    intros H. by rewrite (IH H).
Qed.

(** A string without an occurrence of [old] is left as it is. *)
Lemma replace_absent (old new s : string) :
  Py.contains old s = false -> Py.replace_go old new 0 s = s.
Proof.
  induction s as [|a s IH]; [done |].
  intros H. change (Py.contains old (String a s))
    with (String.prefix old (String a s) || Py.contains old s) in H.
  apply orb_false_iff in H as [Hp Hc].
  cbn [Py.replace_go]. rewrite Hp. f_equal. by apply IH.
Qed.

Lemma mem_app (c : ascii) (a b : string) :
  Py.mem c (a +:+ b) = Py.mem c a || Py.mem c b.
Proof.
  induction a as [|x a IH]; [done |].
  rewrite str_app_cons. cbn. by destruct (decide (x = c)).
Qed.

End string_facts.

(** ** [bazel_target_to_bin] *)

Example bazel_target_to_bin_example :
  bazel_target_to_bin "//aibench/a/b:c" = Ok ("bazel-bin/aibench/a/b", "c").
Proof. reflexivity. Qed.

(** C5, as stated: the directory is not [built/aibench/a/b]. *)
Lemma bazel_target_to_bin_not_built :
  bazel_target_to_bin "//aibench/a/b:c" <> Ok ("built/aibench/a/b", "c").
Proof. vm_compute. discriminate. Qed.

(** C5, amended: a target [//p:c], where neither the package path [p] nor the
    name [c] contains a colon and [p] has no doubled slash, is mapped to the
    directory [bazel-bin/p] and the binary name [c]. *)
Theorem bazel_target_to_bin_spec (p c : string) :
  Py.mem ":" p = false ->
  Py.mem ":" c = false ->
  Py.contains "//" p = false ->
  bazel_target_to_bin ("//" +:+ p +:+ ":" +:+ c) = Ok ("bazel-bin/" +:+ p, c).
Proof.
  intros Hp Hc Hs. unfold bazel_target_to_bin.
  change ("//" +:+ p +:+ ":" +:+ c) with (("//" +:+ p) +:+ String ":" c).
  rewrite split_app_sep by exact Hp.
  rewrite (split_no_sep _ c Hc).
  assert (Py.replace "//" "/" ("//" +:+ p) = "/" +:+ p) as ->.
  { unfold Py.replace. rewrite !str_app_cons, str_app_nil_l. cbn.
    rewrite prefix_nil, replace_absent by done. by rewrite str_app_cons. }
  rewrite (str_app_cons _ "" p), str_app_nil_l. unfold Py.startswith. cbn.
  by rewrite prefix_nil.
Qed.

Lemma bazel_target_to_bin_spec_witness :
  bazel_target_to_bin ("//" +:+ "aibench/a/b" +:+ ":" +:+ "c")
  = Ok ("bazel-bin/" +:+ "aibench/a/b", "c").
Proof. apply bazel_target_to_bin_spec; reflexivity. Defined.

(** ** Running monadic code *)

Section monad_facts.

Context {A B : Type}.

Lemma bind_run (m : M A) (k : A -> M B) w r w' :
  bind m k w = (r, w') ->
  (exists a w1, m w = (Ok a, w1) /\ k a w1 = (r, w'))
  \/ (exists e, m w = (Raise e, w') /\ r = Raise e)
  \/ (m w = (OutOfFuel, w') /\ r = OutOfFuel).
Proof.
  unfold bind. destruct (m w) as [[a|e|] w1]; intros H.
  - left. eauto.
  - right; left. injection H as <- <-. eauto.
  - right; right. by injection H as <- <-.
Qed.

Lemma bind_ok (m : M A) (k : A -> M B) w a w1 :
  m w = (Ok a, w1) -> bind m k w = k a w1.
Proof. unfold bind. by intros ->. Qed.

Lemma bind_raise (m : M A) (k : A -> M B) w e w1 :
  m w = (Raise e, w1) -> bind m k w = (Raise e, w1).
Proof. unfold bind. by intros ->. Qed.

Lemma try_except_else_run (m : M A) handles (h : exn -> M B) (k : A -> M B)
    w r w' :
  try_except_else m handles h k w = (r, w') ->
  (exists a w1, m w = (Ok a, w1) /\ k a w1 = (r, w'))
  \/ (exists e w1, m w = (Raise e, w1) /\ handles e = true /\ h e w1 = (r, w'))
  \/ (exists e, m w = (Raise e, w') /\ handles e = false /\ r = Raise e)
  \/ (m w = (OutOfFuel, w') /\ r = OutOfFuel).
Proof.
  unfold try_except_else. destruct (m w) as [[a|e|] w1]; intros H.
  - left. eauto.
  - destruct (handles e) eqn:He.
    + right; left. eauto 6.
    + right; right; left. injection H as <- <-. eauto.
  - do 3 right. by injection H as <- <-.
Qed.

Lemma bind_run_ok (m : M A) (k : A -> M B) w b w' :
bind m k w = (Ok b, w') ->
exists a w1, m w = (Ok a, w1) /\ k a w1 = (Ok b, w').
Proof.
intros [H | [(e & _ & [=]) | [_ [=]]]]%bind_run. exact H.
Qed.

End monad_facts.

(** Step through a run of [bind] that ended normally. *)
Ltac run_ok H :=
let a := fresh "a" in let w1 := fresh "w" in let H1 := fresh "Hrun" in
apply bind_run_ok in H as (a & w1 & H1 & H).

(** Use the equation [Hr] on the result of a run: it is absurd, or names a
    variable, or relates two exceptions. *)
Ltac settle_result Hr :=
  first [ discriminate Hr | subst | injection Hr as Hr; subst | idtac ].

(** Split a run of [bind] or of [try] into its cases. *)
Ltac run_cases H :=
  match type of H with
  | bind _ _ _ = _ =>
      let a := fresh "a" in let w1 := fresh "w" in let e := fresh "e" in
      let H1 := fresh "Hrun" in let Hr := fresh "Hr" in
      apply bind_run in H as [(a & w1 & H1 & H) | [(e & H & Hr) | [H Hr]]];
      [ | settle_result Hr | settle_result Hr ]
  | try_except_else _ _ _ _ _ = _ =>
      let a := fresh "a" in let w1 := fresh "w" in let e := fresh "e" in
      let H1 := fresh "Hrun" in let He := fresh "Hcaught" in
      let Hr := fresh "Hr" in
      apply try_except_else_run in H
        as [(a & w1 & H1 & H) | [(e & w1 & H1 & He & H)
                                 | [(e & H & He & Hr) | [H Hr]]]];
      [ | | settle_result Hr | settle_result Hr ]
  end.

(** ** Events and frames *)

Section frames.

Lemma extends_refl w : extends w w [].
Proof. unfold extends. by rewrite app_nil_r. Qed.

Lemma extends_trans w1 w2 w3 es1 es2 :
  extends w1 w2 es1 -> extends w2 w3 es2 -> extends w1 w3 (es1 ++ es2).
Proof.
  intros (Ht1 & Ho1 & Hc1) (Ht2 & Ho2 & Hc2). unfold extends.
  rewrite Ht2, Ht1, Ho2, Ho1, Hc2, Hc1. by rewrite <- app_assoc.
Qed.

Lemma extends_log_event e w : extends w (log_event e w) [e].
Proof. done. Qed.

Lemma extends_log_line l w : extends w (log_line l w) [].
Proof. unfold extends. cbn. by rewrite app_nil_r. Qed.

Lemma extends_set_dev_files f w : extends w (set_dev_files f w) [].
Proof. unfold extends. cbn. by rewrite app_nil_r. Qed.

Lemma extends_set_host_files f w : extends w (set_host_files f w) [].
Proof. unfold extends. cbn. by rewrite app_nil_r. Qed.

Context {A : Type} (P : event -> Prop).

Lemma emits_ret (a : A) : emits P (ret a).
Proof.
  intros w r w' [= <- <-]. split; [done |]. exists []. split; [apply extends_refl | done].
Qed.

Lemma emits_raise (e : exn) : emits P (@raise A e).
Proof.
  intros w r w' [= <- <-]. split; [done |]. exists []. split; [apply extends_refl | done].
Qed.

Lemma emits_weaken (Q : event -> Prop) (m : M A) :
  (forall e, Q e -> P e) -> emits Q m -> emits P m.
Proof.
  intros HQ Hm w r w' Hrun. destruct (Hm _ _ _ Hrun) as (? & es & ? & Hes).
  split; [done |]. exists es. split; [done |]. eapply Forall_impl; eauto.
Qed.

End frames.

Section frames_compose.

Context {A B : Type} (P : event -> Prop).

Lemma emits_bind (m : M A) (k : A -> M B) :
  emits P m -> (forall a, emits P (k a)) -> emits P (bind m k).
Proof.
  intros Hm Hk w r w' Hrun. run_cases Hrun.
  - destruct (Hm _ _ _ Hrun0) as (_ & es1 & He1 & HP1).
    destruct (Hk _ _ _ _ Hrun) as (Hr & es2 & He2 & HP2).
    split; [done |]. exists (es1 ++ es2).
    split; [by eapply extends_trans | by apply Forall_app].
  - destruct (Hm _ _ _ Hrun) as (_ & es1 & He1 & HP1). split; [done |]. eauto.
  - by destruct (Hm _ _ _ Hrun) as (? & _).
Qed.

Lemma emits_try_except_else (m : M A) handles (h : exn -> M B) (k : A -> M B) :
  emits P m -> (forall e, emits P (h e)) -> (forall a, emits P (k a)) ->
  emits P (try_except_else m handles h k).
Proof.
  intros Hm Hh Hk w r w' Hrun. run_cases Hrun.
  - destruct (Hm _ _ _ Hrun0) as (_ & es1 & He1 & HP1).
    destruct (Hk _ _ _ _ Hrun) as (Hr & es2 & He2 & HP2).
    split; [done |]. exists (es1 ++ es2).
    split; [by eapply extends_trans | by apply Forall_app].
  - destruct (Hm _ _ _ Hrun0) as (_ & es1 & He1 & HP1).
    destruct (Hh _ _ _ _ Hrun) as (Hr & es2 & He2 & HP2).
    split; [done |]. exists (es1 ++ es2).
    split; [by eapply extends_trans | by apply Forall_app].
  - destruct (Hm _ _ _ Hrun) as (_ & es1 & He1 & HP1). split; [done |]. eauto.
  - by destruct (Hm _ _ _ Hrun) as (? & _).
Qed.

End frames_compose.

Create HintDb emits discriminated.

#[local] Hint Resolve emits_ret emits_raise : emits.

(** Decompose a goal [emits P m] along the structure of [m]. *)
Ltac emits_structure :=
  repeat first
    [ progress intros
    | match goal with
      | |- emits _ (bind _ _) => apply emits_bind
      | |- emits _ (try_except_else _ _ _ _) => apply emits_try_except_else
      | |- emits _ (if ?c then _ else _) => destruct c
      | |- emits _ (match ?x with _ => _ end) => destruct x
      | |- emits _ (let _ := _ in _) => cbv zeta
      end ].

Section primitives.

Context (X : Externals) (P : event -> Prop).

Lemma adb_sim_extends args w r w' :
  adb_sim X args w = (r, w') -> extends w w' [].
Proof.
  unfold adb_sim, adb_device_sim, md5sum_sim, push_sim, pull_sim, opaque.
  repeat (case_match || case_decide); intros [= <- <-];
    auto using extends_refl, extends_set_dev_files, extends_set_host_files.
Qed.

Lemma sh_extends prog args fg input w r w' :
  sh X prog args fg input w = (r, w') -> extends w w' [Cmd prog args fg].
Proof.
  unfold sh. destruct (faults _ _).
  { intros [= <- <-]. apply extends_log_event. }
  pose proof (extends_log_event (Cmd prog args fg) w) as H0.
  repeat case_decide.
  - intros Hsim%adb_sim_extends.
    apply (extends_trans _ _ _ _ _ H0) in Hsim. by rewrite app_nil_r in Hsim.
  - by intros [= <- <-].
  - unfold opaque. intros [= <- <-].
    apply (extends_trans _ _ _ [_] [] H0). apply extends_set_dev_files.
Qed.

Lemma sh_total prog args fg input w r w' :
  sh X prog args fg input w = (r, w') -> r <> OutOfFuel.
Proof.
  unfold sh, adb_sim, adb_device_sim, md5sum_sim, push_sim, pull_sim,
    dev_cat, opaque.
  repeat (case_match || case_decide); by intros [= <- <-].
Qed.

Lemma emits_sh prog args fg input :
  P (Cmd prog args fg) -> emits P (sh X prog args fg input).
Proof.
  intros HP w r w' Hrun. split; [by eapply sh_total |].
  exists [Cmd prog args fg]. split; [by eapply sh_extends | by constructor].
Qed.

Lemma emits_sh_adb args : P (Cmd "adb" args false) -> emits P (sh_adb X args).
Proof. apply emits_sh. Qed.

Lemma emits_print line : emits P (print line).
Proof.
  intros w r w' [= <- <-]. split; [done |].
  exists []. split; [apply extends_log_line | done].
Qed.

Lemma emits_state {A} (f : World -> result A) :
  (forall w, f w <> OutOfFuel) -> emits P (fun w => (f w, w)).
Proof.
  intros Hf w r w' [= <- <-]. split; [done |].
  exists []. split; [apply extends_refl | done].
Qed.

Lemma emits_getitem d key : emits P (getitem d key).
Proof. unfold getitem. destruct (d !! key); auto with emits. Qed.

Lemma emits_index {A} (l : list A) i : emits P (index l i).
Proof. unfold index. destruct (l !! i); auto with emits. Qed.

Lemma emits_time_time : emits P time_time.
Proof. by apply (emits_state (fun w => Ok _)). Qed.

Lemma emits_os_path_isfile path : emits P (os_path_isfile path).
Proof. by apply (emits_state (fun w => Ok _)). Qed.

Lemma emits_os_path_isdir path : emits P (os_path_isdir path).
Proof. by apply (emits_state (fun w => Ok _)). Qed.

Lemma emits_os_path_exists path : emits P (os_path_exists path).
Proof. by apply (emits_state (fun w => Ok _)). Qed.

Lemma emits_os_listdir path : emits P (os_listdir path).
Proof.
  intros w r w'. unfold os_listdir. case_match; intros [= <- <-];
    (split; [done | exists []; split; [apply extends_refl | done]]).
Qed.

Lemma emits_os_environ key : emits P (os_environ key).
Proof.
  intros w r w'. unfold os_environ. case_match; intros [= <- <-];
    (split; [done | exists []; split; [apply extends_refl | done]]).
Qed.

Lemma emits_file_checksum fname : emits P (file_checksum X fname).
Proof.
  intros w r w'. unfold file_checksum. case_match; intros [= <- <-];
    (split; [done | exists []; split; [apply extends_refl | done]]).
Qed.

Lemma emits_time_sleep secs : P (Sleep secs) -> emits P (time_sleep secs).
Proof.
  intros HP w r w'. unfold time_sleep. case_match; intros [= <- <-].
  - split; [done | exists []; split; [apply extends_refl | done]].
  - split; [done | exists [Sleep secs]; split; [apply extends_log_event | by constructor]].
Qed.

Lemma emits_for_each {A} (l : list A) (body : A -> M unit) :
  (forall x, emits P (body x)) -> emits P (for_each l body).
Proof.
  intros Hbody. induction l as [|x l IH]; cbn; [apply emits_ret |].
  apply emits_bind; auto.
Qed.

End primitives.

#[local] Hint Resolve emits_sh emits_sh_adb emits_print emits_getitem emits_index
  emits_time_time emits_os_path_isfile emits_os_path_isdir emits_os_path_exists
  emits_os_listdir emits_os_environ emits_file_checksum emits_time_sleep
  emits_for_each : emits.

(** A command that is not run in the foreground is not a benchmark run. *)
Lemma is_setup_plain prog args : is_setup (Cmd prog args false).
Proof. by left. Qed.

Lemma is_command_cmd prog args fg : is_command (Cmd prog args fg).
Proof. done. Qed.

Lemma is_command_url url path : is_command (UrlRetrieve url path).
Proof. done. Qed.

#[local] Hint Resolve is_setup_plain is_command_cmd is_command_url : emits.

Section transfer_events.

Context (X : Externals) (P : event -> Prop).
Hypothesis plain : forall prog args, P (Cmd prog args false).

Lemma emits_split_stdout s : emits P (split_stdout X s).
Proof. unfold split_stdout, strip_invalid_utf8. emits_structure; auto with emits. Qed.

Lemma emits_adb_getprop serialno : emits P (adb_getprop_by_serialno X serialno).
Proof.
  unfold adb_getprop_by_serialno. emits_structure;
    auto using emits_split_stdout with emits.
Qed.

Lemma emits_adb_push_file src dst serialno :
  emits P (adb_push_file X src dst serialno).
Proof. unfold adb_push_file. emits_structure; auto with emits. Qed.

Lemma emits_adb_push src dst serialno : emits P (adb_push X src dst serialno).
Proof.
  unfold adb_push. emits_structure; auto using emits_adb_push_file with emits.
Qed.

Lemma emits_adb_pull src dst serialno : emits P (adb_pull X src dst serialno).
Proof.
  unfold adb_pull, try_except, getattr_stderr.
  emits_structure; auto with emits.
Qed.

Lemma emits_prepare_device_env serialno abi device_bin_path executors :
  emits P (prepare_device_env X serialno abi device_bin_path executors).
Proof.
  unfold prepare_device_env. emits_structure; auto using emits_adb_push with emits.
Qed.

Lemma emits_push_all_models serialno device_bin_path push_list :
  emits P (push_all_models X serialno device_bin_path push_list).
Proof. unfold push_all_models. auto using emits_adb_push with emits. Qed.

Lemma emits_push_precision_files serialno device_bin_path input_dir :
  emits P (push_precision_files X serialno device_bin_path input_dir).
Proof.
  unfold push_precision_files. emits_structure;
    auto using emits_adb_push with emits.
Qed.

End transfer_events.

(** ** [adb_pull] *)

Section adb_pull_facts.

Context (X : Externals).

(** What [adb -s serialno pull src dst] does when no failure is injected:
    it fails with an exit status, or copies the file. *)
Lemma adb_sim_pull serialno src dst w :
  (exists c, dev_files (dev w) !! src = Some c
             /\ adb_sim X ["-s"; serialno; "pull"; src; dst] w
                = (Ok "", set_host_files (<[dst := c]> (host_files (host w))) w))
  \/ (exists err, adb_sim X ["-s"; serialno; "pull"; src; dst] w
                  = (Raise (ErrorReturnCode 1 err), w)).
Proof.
  unfold adb_sim. rewrite decide_True by done.
  destruct (decide (serialno = dev_serial (dev w))); [| right; eauto].
  unfold adb_device_sim.
  rewrite decide_False by done. rewrite decide_False by done.
  rewrite decide_True by done. unfold pull_sim.
  destruct (dev_files (dev w) !! src) as [c|]; [left | right]; eauto.
Qed.

(** What holds of exit statuses: for every remote path, local path and
    serial, whatever exit status the pull command fails with (injected by
    the bridge, or because the remote file or the device is missing),
    [adb_pull] returns normally: the failure is caught and its error output
    is printed after the line that announces the pull. *)
Lemma adb_pull_transfer_failure_caught src_path dst_path serialno w :
  (forall e, faults (oracle w) (length (trace w)) = Some e ->
             exists code err, e = ErrorReturnCode code err) ->
  exists w',
    adb_pull X src_path dst_path serialno w = (Ok tt, w')
    /\ trace w' = trace w ++ [Cmd "adb" ["-s"; serialno; "pull"; src_path; dst_path] false]
    /\ (stdout w' = stdout w ++ ["Pull " +:+ src_path +:+ " to " +:+ dst_path]
        \/ exists err,
             stdout w' = stdout w ++ ["Pull " +:+ src_path +:+ " to " +:+ dst_path;
                                      "Error msg: " +:+ err]).
Proof.
  intros Hfault.
  unfold adb_pull, try_except, try_except_else, bind, print, sh_adb, sh.
  cbn [fst snd oracle trace log_line].
  destruct (faults (oracle w) (length (trace w))) as [e|] eqn:Hf.
  - destruct (Hfault e eq_refl) as (code & err & ->). cbn.
    eexists. split; [done |]. split; [done |]. right. exists err.
    cbn. by rewrite <- app_assoc.
  - rewrite decide_True by done.
    destruct (adb_sim_pull serialno src_path dst_path
                (log_event (Cmd "adb" ["-s"; serialno; "pull"; src_path; dst_path] false)
                   (log_line ("Pull " +:+ src_path +:+ " to " +:+ dst_path) w)))
      as [(c & _ & ->) | (err & ->)]; cbn.
    + eexists. split; [done |]. split; [done |]. by left.
    + eexists. split; [done |]. split; [done |]. right. exists err.
      cbn. by rewrite <- app_assoc.
Qed.

(** C3: the handler of [adb_pull] reads [e.stderr].  When the pull command
    raises an exception that [except Exception] catches and that is not an
    exit status ([sh.CommandNotFound] when [adb] is not installed, say), the
    exception has no such attribute and the handler itself raises
    [AttributeError]: after the line that announces the pull nothing is
    printed, and [adb_pull] does not return normally. *)
Theorem adb_pull_handler_raises src_path dst_path serialno w e :
  faults (oracle w) (length (trace w)) = Some e ->
  is_Exception e = true ->
  (forall code err, e <> ErrorReturnCode code err) ->
  exists w',
    adb_pull X src_path dst_path serialno w = (Raise (AttributeError "stderr"), w')
    /\ trace w' = trace w ++ [Cmd "adb" ["-s"; serialno; "pull"; src_path; dst_path] false]
    /\ stdout w' = stdout w ++ ["Pull " +:+ src_path +:+ " to " +:+ dst_path].
Proof.
  intros Hf Hcaught Hstatus.
  unfold adb_pull, try_except, try_except_else, bind, print, sh_adb, sh.
  cbn [fst snd oracle trace log_line]. rewrite Hf, Hcaught.
  destruct e as [code err| | | | | | | | |]; try (by destruct (Hstatus code err));
    try discriminate; cbn; eauto.
Qed.

End adb_pull_facts.

(** ** [adb_devices] *)

Section device_lines.

Lemma span_split (p : ascii -> bool) (s x y : string) :
  Py.span p s = (x, y) -> s = x +:+ y /\ all_chars p x.
Proof.
  unfold all_chars. revert x y. induction s as [|a s IH]; cbn; intros x y.
  - by intros [= <- <-].
  - destruct (p a) eqn:Hp.
    + destruct (Py.span p s) as [x' y'] eqn:Hs. intros [= <- <-].
      destruct (IH _ _ eq_refl) as [-> Hx]. split; [done |].
      cbn. by rewrite Hp, Hx.
    + by intros [= <- <-].
Qed.

(** A run of [p]-characters followed by a character that is not one. *)
Lemma span_app (p : ascii -> bool) (x : string) (a : ascii) (y : string) :
  all_chars p x -> p a = false -> Py.span p (x +:+ String a y) = (x, String a y).
Proof.
  unfold all_chars. intros Hx Ha. induction x as [|b x IH].
  - rewrite str_app_nil_l. cbn. by rewrite Ha.
  - rewrite str_app_cons. cbn in *. destruct (p b); [| done].
    destruct (Py.span p x) as [x' y'] eqn:Hs. injection Hx as -> ->.
    by rewrite IH.
Qed.

Lemma all_chars_head (p : ascii -> bool) (a : ascii) (s : string) :
  all_chars p (String a s) -> p a = true.
Proof. unfold all_chars. cbn. by destruct (p a). Qed.

Lemma prefix_split (p s : string) :
  String.prefix p s = true -> exists r, s = p +:+ r.
Proof.
  revert s. induction p as [|a p IH]; intros s; [by exists s |].
  destruct s as [|b s]; cbn; [done |].
  destruct (Ascii.ascii_dec a b) as [-> |]; [| done].
  intros [r ->]%IH. by exists r.
Qed.

Lemma space_not_word (a : ascii) :
  Ascii.is_space a = true -> Py.is_word a = false.
Proof. destruct a as [[] [] [] [] [] [] [] []]; done. Qed.

(** The matcher decides the pattern. *)
Lemma match_device_sound (line serial : string) :
  match_device line = Some serial -> device_line line serial.
Proof.
  unfold match_device.
  destruct (Py.span Py.is_word line) as [word rest] eqn:Hw.
  destruct (Py.span Ascii.is_space rest) as [space rest'] eqn:Hs.
  destruct (bool_decide (word <> "")) eqn:H1; [| done].
  destruct (bool_decide (space <> "")) eqn:H2; [| done].
  destruct (Py.startswith "device" rest') eqn:H3; [| done].
  intros [= <-]. apply bool_decide_eq_true in H1, H2.
  apply span_split in Hw as [-> Hword], Hs as [-> Hspace].
  apply prefix_split in H3 as [r ->].
  by exists space, r.
Qed.

Lemma match_device_complete (line serial : string) :
  device_line line serial -> match_device line = Some serial.
Proof.
  intros (space & rest & -> & Hne & Hword & Hsne & Hspace).
  unfold match_device.
  destruct space as [|a space]; [done |].
  rewrite (str_app_cons a space), span_app;
    [| done | apply space_not_word; by eapply all_chars_head].
  rewrite <- (str_app_cons a space).
  change ("device" +:+ rest) with (String "d" ("evice" +:+ rest)).
  rewrite span_app by done.
  rewrite !bool_decide_eq_true_2 by done.
  change (String "d" ("evice" +:+ rest)) with ("device" +:+ rest).
  unfold Py.startswith. by rewrite prefix_app.
Qed.

Lemma match_device_iff (line serial : string) :
  match_device line = Some serial <-> device_line line serial.
Proof. split; [apply match_device_sound | apply match_device_complete]. Qed.

(** A line has at most one capture. *)
Lemma device_line_unique (line s1 s2 : string) :
  device_line line s1 -> device_line line s2 -> s1 = s2.
Proof. intros H1%match_device_iff H2%match_device_iff. congruence. Qed.

#[global] Instance device_line_dec (line : string) :
  Decision (exists serial, device_line line serial).
Proof.
  destruct (match_device line) as [s|] eqn:Hm.
  - left. exists s. by apply match_device_iff.
  - right. intros [s Hs%match_device_iff]. congruence.
Defined.

Lemma listed_omap (lines : list string) :
  listed lines (omap match_device lines).
Proof.
  induction lines as [|l lines IH]; cbn; [constructor |].
  destruct (match_device l) as [s|] eqn:Hm.
  - apply listed_match; [by apply match_device_iff | done].
  - apply listed_skip; [| done].
    intros s Hs%match_device_iff. congruence.
Qed.

Lemma listed_unique (lines ss1 ss2 : list string) :
  listed lines ss1 -> listed lines ss2 -> ss1 = ss2.
Proof.
  intros H1. revert ss2.
  induction H1 as [|l s ls ss Hl _ IH|l ls ss Hl _ IH]; intros ss2 H2;
    inversion H2; subst; try done.
  - f_equal; [by eapply device_line_unique | by apply IH].
  - by destruct (H1 s).
  - by destruct (Hl serial).
  - by apply IH.
Qed.

Lemma listed_length (lines serials : list string) :
  listed lines serials ->
  length serials
  = length (filter (fun l => exists serial, device_line l serial) lines).
Proof.
  induction 1 as [|l s ls ss Hl _ IH|l ls ss Hl _ IH]; [done | |].
  - rewrite filter_cons_True by eauto. cbn. by rewrite IH.
  - rewrite filter_cons_False; [done |]. intros [s Hs]. by destruct (Hl s).
Qed.

End device_lines.


(** ** Fetching artifacts *)

Arguments hexdigest : simpl never.

Section fetch_facts.

Context (X : Externals).

Lemma file_checksum_run fname w sum w' :
file_checksum X fname w = (Ok sum, w') ->
w' = w /\ exists c, host_files (host w) !! fname = Some c /\ sum = hexdigest X c.
Proof.
unfold file_checksum. destruct (host_files (host w) !! fname) as [c|]; [| done].
intros [= <- <-]. eauto.
Qed.

Lemma emits_urlretrieve (P : event -> Prop) url path :
P (UrlRetrieve url path) -> emits P (urlretrieve url path).
Proof.
intros HP w r w'. unfold urlretrieve.
repeat case_match; intros [= <- <-]; (split; [done |]);
  exists [UrlRetrieve url path]; by split; [| constructor].
Qed.

Lemma emits_download_file configs filename output_dir :
emits is_command (download_file X configs filename output_dir).
Proof.
unfold download_file. emits_structure;
  auto using emits_urlretrieve with emits.
Qed.

Lemma emits_get_model_file file_path checksum output_dir push_list :
emits is_command (get_model_file X file_path checksum output_dir push_list).
Proof.
unfold get_model_file, aibench_check. emits_structure;
  auto using emits_urlretrieve with emits.
Qed.

(** C8: neither [download_file] nor [get_model_file] hands over a file whose
    digest differs from the expected one.  Whenever [download_file] returns a
    path, the file at that path has the checksum registered for it; whenever
    [get_model_file] returns, it appended exactly one path and the file at
    that path has the expected checksum.  Both always end: in every other
    case they raise. *)
Theorem fetched_artifact_is_verified configs filename file_path checksum
  output_dir push_list w :
(forall p w', download_file X configs filename output_dir w = (Ok p, w') ->
   exists c, host_files (host w') !! p = Some c
             /\ configs !! (filename +:+ "_md5_checksum") = Some (hexdigest X c))
/\ (forall l w',
      get_model_file X file_path checksum output_dir push_list w = (Ok l, w') ->
      exists p c, l = push_list ++ [p]
                  /\ host_files (host w') !! p = Some c
                  /\ hexdigest X c = checksum)
/\ (download_file X configs filename output_dir w).1 <> OutOfFuel
/\ (get_model_file X file_path checksum output_dir push_list w).1 <> OutOfFuel.
Proof.
split_and!.
- intros p w' Hrun. unfold download_file in Hrun.
  run_ok Hrun. run_ok Hrun. run_ok Hrun. run_ok Hrun. run_ok Hrun. run_ok Hrun.
  run_ok Hrun. injection Hrun as <- <-.
  apply file_checksum_run in Hrun5 as (-> & c & Hc & ->).
  destruct (decide (hexdigest X c <> a0)) as [|Heq%dec_stable].
  { unfold bind, print, raise in Hrun6. done. }
  injection Hrun6 as _ <-. exists c. split; [done |].
  unfold getitem in Hrun1. destruct (configs !! _) as [v|]; [| done].
  injection Hrun1 as -> _. by rewrite Heq.
- intros l w' Hrun. unfold get_model_file in Hrun.
  run_ok Hrun. injection Hrun as <- <-. exists a.
  destruct (Py.startswith "http" file_path).
  + run_ok Hrun0. run_ok Hrun0. run_ok Hrun0. run_ok Hrun0. run_ok Hrun0.
    injection Hrun0 as <- <-.
    apply file_checksum_run in Hrun3 as (-> & c & Hc & ->).
    unfold aibench_check in Hrun4. case_bool_decide; [| done].
    injection Hrun4 as _ <-. eauto.
  + run_ok Hrun0. run_ok Hrun0. injection Hrun0 as <- <-.
    apply file_checksum_run in Hrun as (-> & c & Hc & ->).
    unfold aibench_check in Hrun1. case_bool_decide; [| done].
    injection Hrun1 as _ <-. eauto.
- destruct (download_file X configs filename output_dir w) as [r w'] eqn:Hrun.
  by apply emits_download_file in Hrun as [? _].
- destruct (get_model_file X file_path checksum output_dir push_list w)
    as [r w'] eqn:Hrun.
  by apply emits_get_model_file in Hrun as [? _].
Qed.

(** What makes them fail: after the fetch the digest still differs. *)
Lemma download_file_mismatch configs filename output_dir url checksum c w :
configs !! filename = Some url ->
configs !! (filename +:+ "_md5_checksum") = Some checksum ->
host_files (host w) !! (output_dir +:+ "/" +:+ filename) = Some c ->
faults (oracle w) (length (trace w)) = None ->
internet (host w) !! url = Some c ->
hexdigest X c <> checksum ->
exists w', download_file X configs filename output_dir w = (Raise (SystemExit 1), w').
Proof.
intros Hurl Hsum Hfile Hfault Hnet Hne.
unfold download_file, getitem, bind, os_path_exists, file_checksum, ret,
  urlretrieve, print, raise.
rewrite Hurl, Hsum. cbn.
repeat first
  [ rewrite Hfile | rewrite Hfault | rewrite Hnet | rewrite lookup_insert_eq
  | rewrite bool_decide_eq_true_2 by done | rewrite decide_True by done
  | progress cbn ].
eauto.
Qed.

End fetch_facts.

(** ** The CPU affinity mask *)

Section mask_facts.

Lemma bits_value_snoc (acc : Z) (s : string) (b : bool) :
  Py.bits_value acc (s +:+ (if b then "1" else "0"))
  = (fun v => 2 * v + Z.b2z b) <$> Py.bits_value acc s.
Proof.
  revert acc. induction s as [|a s IH]; intros acc.
  - rewrite str_app_nil_l. destruct b; cbn; f_equal; lia.
  - rewrite str_app_cons. cbn.
    destruct a as [[] [] [] [] [] [] [] []]; try done; apply IH.
Qed.

Lemma bits_value_bits_str (bits : list bool) :
  Py.bits_value 0 (bits_str bits) = Some (mask_value bits).
Proof.
  induction bits as [|b bits IH]; [done |].
  cbn [bits_str mask_value]. by rewrite bits_value_snoc, IH.
Qed.

Lemma bits_str_nil (bits : list bool) : bits_str bits = "" -> bits = [].
Proof.
  destruct bits as [|b bits]; [done |]. cbn.
  intros H%(f_equal String.length). rewrite str_length_app in H.
  destruct b; cbn in H; lia.
Qed.

Lemma int2_bits_str (bits : list bool) :
  bits <> [] -> Py.int2 (bits_str bits) = Some (mask_value bits).
Proof.
  intros Hne. unfold Py.int2.
  destruct (bits_str bits) eqn:Hs; [by apply bits_str_nil in Hs |].
  rewrite <- Hs. apply bits_value_bits_str.
Qed.

Lemma mask_value_nonneg (bits : list bool) : 0 <= mask_value bits.
Proof. induction bits as [|[] bits IH]; cbn [mask_value Z.b2z]; lia. Qed.

Lemma mask_value_bound (bits : list bool) :
  mask_value bits <= 2 ^ Z.of_nat (length bits) - 1.
Proof.
  induction bits as [|b bits IH]; [done |].
  cbn [mask_value length]. rewrite Nat2Z.inj_succ, Z.pow_succ_r by lia.
  destruct b; cbn [Z.b2z]; lia.
Qed.

Lemma mask_value_testbit (bits : list bool) (i : nat) :
  Z.testbit (mask_value bits) (Z.of_nat i) = default false (bits !! i).
Proof.
  revert i. induction bits as [|b bits IH]; intros i.
  - cbn. apply Z.testbit_0_l.
  - cbn [mask_value]. destruct i as [|i].
    + apply Z.testbit_0_r.
    + rewrite Nat2Z.inj_succ, Z.testbit_succ_r by lia. apply IH.
Qed.

Lemma mask_value_pos (bits : list bool) : true ∈ bits -> 0 < mask_value bits.
Proof.
  induction bits as [|b bits IH]; [by intros ?%elem_of_nil |].
  pose proof (mask_value_nonneg bits).
  intros [<- | Hin]%elem_of_cons; cbn [mask_value Z.b2z]; [lia |].
  specialize (IH Hin). destruct b; cbn; lia.
Qed.

(** [max] returns an element that bounds all the others. *)
Lemma foldl_max_spec (x : Z) (l : list Z) :
  foldl Z.max x l ∈ x :: l /\ forall y, y ∈ x :: l -> y <= foldl Z.max x l.
Proof.
  revert x. induction l as [|a l IH]; intros x; cbn.
  - split; [by left |]. by intros y ->%list_elem_of_singleton.
  - destruct (IH (Z.max x a)) as [Hin Hle]. split.
    + apply elem_of_cons in Hin as [-> | Hin].
      * destruct (Z.max_spec x a) as [[_ ->] | [_ ->]];
          [right; left | left].
      * by do 2 right.
    + intros y Hy. assert (y <= Z.max x a \/ y ∈ l) as [Hy' | Hy'].
      { apply elem_of_cons in Hy as [-> | Hy]; [left; lia |].
        apply elem_of_cons in Hy as [-> | Hy]; [left; lia | by right]. }
      * pose proof (Hle (Z.max x a) ltac:(by left)). lia.
      * apply Hle. by right.
Qed.

Lemma py_max_spec (l : list Z) :
  l <> [] ->
  exists top, Py.max l = Some top /\ top ∈ l /\ forall y, y ∈ l -> y <= top.
Proof.
  destruct l as [|x l]; [done |]. intros _.
  exists (foldl Z.max x l). split; [done |]. apply foldl_max_spec.
Qed.

(** The loop over [freq_list] writes the bits of the cores, highest core
    first. *)
Lemma cpu_mask_fold (top : option Z) (l : list Z) (acc : string) :
  foldl (fun cpu_mask freq =>
           if decide (Some freq = top)
           then "1" +:+ cpu_mask else "0" +:+ cpu_mask) acc l
  = bits_str ((fun freq => bool_decide (Some freq = top)) <$> l) +:+ acc.
Proof.
  revert acc. induction l as [|f l IH]; intros acc; [done |].
  cbn [foldl fmap list_fmap bits_str]. rewrite str_app_assoc.
  destruct (decide (Some f = top)).
  - rewrite bool_decide_eq_true_2 by done. apply IH.
  - rewrite bool_decide_eq_false_2 by done. apply IH.
Qed.

Lemma cpu_mask_string_bits (freq_list : list Z) :
  cpu_mask_string freq_list
  = bits_str ((fun freq => bool_decide (Some freq = Py.max freq_list)) <$> freq_list).
Proof. unfold cpu_mask_string. by rewrite cpu_mask_fold, str_app_nil_r. Qed.

Lemma hex_digit_value_digit (d : Z) :
  0 <= d < 16 -> Py.hex_digit_value (Py.hex_digit d) = Some d.
Proof.
  intros Hd.
  assert (d = 0 \/ d = 1 \/ d = 2 \/ d = 3 \/ d = 4 \/ d = 5 \/ d = 6 \/ d = 7
          \/ d = 8 \/ d = 9 \/ d = 10 \/ d = 11 \/ d = 12 \/ d = 13 \/ d = 14
          \/ d = 15) as H by lia.
  repeat (destruct H as [-> | H]; [done |]). by subst.
Qed.

(** Reading back what [hex_go] wrote. *)
Lemma hex_value_hex_go (fuel : nat) (n : Z) (t : string) :
  0 <= n < 16 ^ Z.of_nat fuel ->
  Py.hex_value 0 (Py.hex_go fuel n t) = Py.hex_value n t.
Proof.
  revert n t. induction fuel as [|fuel IH]; intros n t Hn.
  - cbn in *. by replace n with 0 by lia.
  - rewrite Nat2Z.inj_succ, Z.pow_succ_r in Hn by lia.
    cbn [Py.hex_go]. destruct (Z.ltb_spec n 16).
    + rewrite Z.mod_small by lia. cbn [Py.hex_value].
      rewrite hex_digit_value_digit by lia. f_equal.
    + rewrite IH by (split; [apply Z.div_pos; lia | apply Z.div_lt_upper_bound; lia]).
      cbn [Py.hex_value].
      rewrite hex_digit_value_digit by (apply Z.mod_pos_bound; lia).
      f_equal. pose proof (Z.div_mod n 16). lia.
Qed.

Lemma hex_go_nonempty (fuel : nat) (n : Z) : Py.hex_go (S fuel) n "" <> "".
Proof.
  assert (forall f m t, t <> "" -> Py.hex_go f m t <> "") as H.
  { induction f as [|f IH]; intros m t Ht; cbn; [done |].
    destruct (m <? 16); [done | by apply IH]. }
  cbn. destruct (n <? 16); [done | by apply H].
Qed.

(** The rendering denotes the number. *)
Lemma int16_hex_digits (n : Z) : 0 <= n -> Py.int16 (Py.hex_digits n) = Some n.
Proof.
  intros Hn. unfold Py.int16, Py.hex_digits.
  pose proof (hex_go_nonempty (Z.to_nat (Z.log2 n)) n) as Hne.
  destruct (Py.hex_go _ n "") eqn:Hs; [done |]. rewrite <- Hs.
  rewrite hex_value_hex_go; [done |]. split; [done |].
  rewrite Nat2Z.inj_succ, Z2Nat.id by apply Z.log2_nonneg.
  destruct (decide (n = 0)) as [-> | Hz]; [done |].
  pose proof (Z.log2_spec n ltac:(lia)) as [_ Hlt].
  eapply Z.lt_le_trans; [exact Hlt |].
  apply Z.pow_le_mono_l. lia.
Qed.

End mask_facts.

Section get_cpu_mask_facts.

Context (X : Externals).

Lemma render_cpu_mask_empty w :
  render_cpu_mask X "" w
  = (Raise (ValueError "invalid literal for int() with base 2: ''"), w).
Proof. reflexivity. Qed.

(** C6, amended: when the cores' frequencies could be read ([freq_list] is
    not empty) and there are fewer cores than a plain integer has bits,
    [get_cpu_mask] returns the hexadecimal digits of the number [mask] whose
    bit [i], counted from the lowest, is set exactly when the frequency of
    core [i] is the maximum [top] of the list. *)
Theorem get_cpu_mask_spec fuel serialno w freq_list w1 :
  read_cpu_freqs X fuel serialno 0 [] w = (Ok freq_list, w1) ->
  freq_list <> [] ->
  2 ^ Z.of_nat (length freq_list) - 1 <= sys_maxint X ->
  exists top mask,
    top ∈ freq_list
    /\ (forall f, f ∈ freq_list -> f <= top)
    /\ (forall i : nat,
          Z.testbit mask (Z.of_nat i) = true <-> freq_list !! i = Some top)
    /\ get_cpu_mask X fuel serialno w = (Ok (Py.hex_digits mask), w1)
    /\ Py.int16 (Py.hex_digits mask) = Some mask.
Proof.
  intros Hread Hne Hfit.
  destruct (py_max_spec freq_list Hne) as (top & Hmax & Hin & Hle).
  set (bits := (fun freq => bool_decide (Some freq = Py.max freq_list)) <$> freq_list).
  exists top, (mask_value bits). split_and!; [done | done | | |].
  - intros i. rewrite mask_value_testbit. unfold bits.
    rewrite list_lookup_fmap, Hmax.
    destruct (freq_list !! i) as [f|]; cbn; [| done].
    rewrite bool_decide_eq_true. split; congruence.
  - unfold get_cpu_mask. rewrite (bind_ok _ _ _ _ _ Hread).
    unfold render_cpu_mask. rewrite cpu_mask_string_bits. fold bits.
    rewrite int2_bits_str by (unfold bits; by destruct freq_list).
    unfold Py.hex, ret.
    pose proof (mask_value_bound bits) as Hb.
    unfold bits in Hb at 2. rewrite length_fmap in Hb.
    destruct (Z.ltb_spec (sys_maxint X) (mask_value bits)); [lia |].
    rewrite str_app_nil_r. reflexivity.
  - apply int16_hex_digits, mask_value_nonneg.
Qed.

(** A mask above [sys.maxint] is a [long], which [hex] marks with an [L]. *)
Lemma get_cpu_mask_long fuel serialno w freq_list w1 :
  read_cpu_freqs X fuel serialno 0 [] w = (Ok freq_list, w1) ->
  freq_list <> [] ->
  exists mask,
    get_cpu_mask X fuel serialno w
    = (Ok (Py.hex_digits mask +:+ (if sys_maxint X <? mask then "L" else "")), w1).
Proof.
  intros Hread Hne.
  set (bits := (fun freq => bool_decide (Some freq = Py.max freq_list)) <$> freq_list).
  exists (mask_value bits).
  unfold get_cpu_mask. rewrite (bind_ok _ _ _ _ _ Hread).
  unfold render_cpu_mask. rewrite cpu_mask_string_bits. fold bits.
  rewrite int2_bits_str by (unfold bits; by destruct freq_list).
  reflexivity.
Qed.

(** One round of the reading loop that fails ends the loop. *)
Lemma read_cpu_freqs_stop fuel serialno cpu_id freq_list w r w1 :
  sh_adb X ["-s"; serialno; "shell"; "cat " +:+ cpufreq_path cpu_id] w = (r, w1) ->
  read_failed r ->
  read_cpu_freqs X (S fuel) serialno cpu_id freq_list w = (Ok freq_list, w1).
Proof.
  intros Hsh Hfail. cbn [read_cpu_freqs].
  unfold try_except_else, bind. rewrite Hsh.
  destruct r as [out|e|]; cbn in Hfail; [| | done].
  - by rewrite Hfail.
  - by destruct Hfail as [[msg ->] | [err ->]].
Qed.

(** C10: when the read of the very first core fails, the list of
    frequencies is empty, the mask string is empty, its conversion to an
    integer fails, and [get_cpu_mask] raises [ValueError] instead of returning
    a mask. *)
Theorem get_cpu_mask_without_core_raises fuel serialno w r w1 :
  sh_adb X ["-s"; serialno; "shell"; "cat " +:+ cpufreq_path 0] w = (r, w1) ->
  read_failed r ->
  read_cpu_freqs X (S fuel) serialno 0 [] w = (Ok [], w1)
  /\ cpu_mask_string [] = ""
  /\ Py.int2 "" = None
  /\ get_cpu_mask X (S fuel) serialno w
     = (Raise (ValueError "invalid literal for int() with base 2: ''"), w1).
Proof.
  intros Hsh Hfail.
  pose proof (read_cpu_freqs_stop fuel serialno 0 [] w r w1 Hsh Hfail) as Hread.
  split_and!; [done | done | done |].
  unfold get_cpu_mask. by rewrite (bind_ok _ _ _ _ _ Hread).
Qed.

(** Whatever the device answers, an empty list never yields a mask. *)
Lemma get_cpu_mask_ok_nonempty fuel serialno w s w1 :
  get_cpu_mask X fuel serialno w = (Ok s, w1) ->
  exists freq_list,
    read_cpu_freqs X fuel serialno 0 [] w = (Ok freq_list, w1) /\ freq_list <> [].
Proof.
  unfold get_cpu_mask. intros Hrun. run_ok Hrun.
  destruct a as [|f l]; [done |].
  exists (f :: l). split; [| done].
  unfold render_cpu_mask in Hrun. destruct (Py.int2 _); [| done].
  by injection Hrun as _ <-.
Qed.

End get_cpu_mask_facts.

(** ** [adb_push_file] *)

Section push_facts.

Context (X : Externals).

Lemma hex_digit_not_space (d : Z) :
  0 <= d < 16 -> Ascii.is_space (Py.hex_digit d) = false.
Proof.
  intros Hd.
  assert (d = 0 \/ d = 1 \/ d = 2 \/ d = 3 \/ d = 4 \/ d = 5 \/ d = 6 \/ d = 7
          \/ d = 8 \/ d = 9 \/ d = 10 \/ d = 11 \/ d = 12 \/ d = 13 \/ d = 14
          \/ d = 15) as H by lia.
  repeat (destruct H as [-> | H]; [done |]). by subst.
Qed.

Lemma all_chars_app (p : ascii -> bool) (a b : string) :
  all_chars p a -> all_chars p b -> all_chars p (a +:+ b).
Proof.
  unfold all_chars. intros Ha Hb. induction a as [|x a IH]; [done |].
  rewrite str_app_cons. cbn in *. destruct (p x); [| done].
  destruct (Py.span p a) as [a1 a2]. injection Ha as -> ->.
  by rewrite IH.
Qed.

Lemma hex_fixed_all_chars (width : nat) (n : Z) :
  all_chars (fun a => negb (Ascii.is_space a)) (Py.hex_fixed width n).
Proof.
  revert n. induction width as [|k IH]; intros n; [done |].
  cbn [Py.hex_fixed]. apply all_chars_app; [apply IH |].
  unfold all_chars. cbn.
  by rewrite hex_digit_not_space by (apply Z.mod_pos_bound; lia).
Qed.

Lemma hexdigest_is_token (c : string) : is_token (hexdigest X c).
Proof.
  split; [| apply hex_fixed_all_chars].
  unfold hexdigest. intros H%(f_equal String.length).
  cbn [Py.hex_fixed] in H. rewrite str_length_app in H. cbn in H. lia.
Qed.

Lemma lines_keepends_token (h t : string) :
  all_chars (fun a => negb (Ascii.is_space a)) h ->
  exists l ls,
    Py.lines_keepends (h +:+ String " " t) = (h +:+ String " " l) :: ls.
Proof.
  intros Hh. induction h as [|a h IH].
  - rewrite str_app_nil_l. cbn. rewrite decide_False by done.
    destruct (Py.lines_keepends t) as [|l ls]; eauto.
  - pose proof (all_chars_head _ _ _ Hh) as Ha.
    assert (all_chars (fun a => negb (Ascii.is_space a)) h) as Hh'.
    { unfold all_chars in *. cbn in Hh. rewrite Ha in Hh.
      destruct (Py.span _ h) as [h1 h2]. by injection Hh as -> ->. }
    destruct (IH Hh') as (l & ls & Hl).
    rewrite str_app_cons. cbn [Py.lines_keepends]. rewrite Hl.
    rewrite decide_False; [eauto |].
    intros ->. by cbn in Ha.
Qed.

Lemma split_ws_token (h t : string) :
  is_token h -> Py.split_ws (h +:+ String " " t) = h :: Py.split_ws t.
Proof.
  intros [Hne Hh]. induction h as [|a h IH]; [done |].
  pose proof (all_chars_head _ _ _ Hh) as Ha.
  apply negb_true_iff in Ha.
  assert (all_chars (fun a => negb (Ascii.is_space a)) h) as Hh'.
  { unfold all_chars in *. cbn in Hh. rewrite Ha in Hh. cbn in Hh.
    destruct (Py.span _ h) as [h1 h2]. by injection Hh as -> ->. }
  rewrite str_app_cons. destruct h as [|b h].
  - rewrite str_app_nil_l. cbn. by rewrite Ha.
  - pose proof (all_chars_head _ _ _ Hh') as Hb. apply negb_true_iff in Hb.
    specialize (IH ltac:(done) Hh'). rewrite str_app_cons in *.
    remember (String b (h +:+ String " " t)) as s eqn:Hs.
    cbn [Py.split_ws]. rewrite Ha, IH, Hs. by rewrite Hb.
Qed.

(** The query's answer for an existing file reports that file's digest. *)
Lemma reported_checksum_md5sum (c f : string) :
  reported_checksum (hexdigest X c +:+ "  " +:+ f +:+ Py.nl) = Some (hexdigest X c).
Proof.
  unfold reported_checksum.
  destruct (hexdigest_is_token c) as [Hne Hall].
  change ("  " +:+ f +:+ Py.nl) with (String " " (String " " (f +:+ Py.nl))).
  destruct (lines_keepends_token (hexdigest X c) (String " " (f +:+ Py.nl)) Hall)
    as (l & ls & ->).
  cbn [lookup list_lookup]. by rewrite split_ws_token.
Qed.

(** What the bridge answers to the query and to the transfer. *)
Lemma sh_adb_md5sum serialno f w :
  sh_adb X ["-s"; serialno; "shell"; "md5sum"; f] w
  = (match faults (oracle w) (length (trace w)) with
     | Some e => Raise e
     | None =>
         if decide (serialno = dev_serial (dev w)) then
           match dev_files (dev w) !! f with
           | Some c => Ok (hexdigest X c +:+ "  " +:+ f +:+ Py.nl)
           | None => Raise (no_such_file "md5sum: " f)
           end
         else Raise (ErrorReturnCode 1
                       ("error: device '" +:+ serialno +:+ "' not found"))
     end,
     log_event (Cmd "adb" ["-s"; serialno; "shell"; "md5sum"; f] false) w).
Proof.
  unfold sh_adb, sh. destruct (faults _ _); [done |].
  rewrite decide_True by done. unfold adb_sim. rewrite decide_True by done.
  cbn [dev log_event].
  destruct (decide (serialno = dev_serial (dev w))); [| done].
  unfold adb_device_sim. rewrite !decide_True by done.
  unfold md5sum_sim. cbn [dev log_event].
  by destruct (dev_files (dev w) !! f).
Qed.

Lemma sh_adb_push serialno src dst w c :
  host_files (host w) !! src = Some c ->
  let w1 := log_event (Cmd "adb" ["-s"; serialno; "push"; src; dst] false) w in
  sh_adb X ["-s"; serialno; "push"; src; dst] w
  = match faults (oracle w) (length (trace w)) with
    | Some e => (Raise e, w1)
    | None =>
        if decide (serialno = dev_serial (dev w)) then
          (Ok "", set_dev_files
                    (<[Py.path_join dst (Py.basename src) := c]> (dev_files (dev w))) w1)
        else (Raise (ErrorReturnCode 1
                       ("error: device '" +:+ serialno +:+ "' not found")), w1)
    end.
Proof.
  intros Hc w1. unfold sh_adb, sh. fold w1. destruct (faults _ _); [done |].
  rewrite decide_True by done. unfold adb_sim. rewrite decide_True by done.
  cbn [dev log_event w1].
  destruct (decide (serialno = dev_serial (dev w))); [| done].
  unfold adb_device_sim. rewrite decide_False by done.
  rewrite decide_True by done. unfold push_sim. cbn [host dev log_event w1].
  by rewrite Hc.
Qed.

Lemma push_step_trace src_file dst_dir serialno w r w' :
  push_step X src_file dst_dir serialno w = (r, w') ->
  trace w' = trace w ++ [Cmd "adb" ["-s"; serialno; "push"; src_file; dst_dir] false].
Proof.
  unfold push_step, bind, print, ret.
  destruct (sh_adb X _ _) as [q wq] eqn:Hq.
  apply sh_extends in Hq as [Ht _]. cbn in Ht.
  destruct q; intros [= <- <-]; done.
Qed.

(** [adb_push_file] on a regular file, in terms of the query's outcome. *)
Lemma adb_push_file_run src_file dst_dir serialno w c query wq :
  host_files (host w) !! src_file = Some c ->
  sh_adb X ["-s"; serialno; "shell"; "md5sum";
            Py.path_join dst_dir (Py.basename src_file)] w = (query, wq) ->
  adb_push_file X src_file dst_dir serialno w
  = match query with
    | Ok out =>
        match reported_checksum out with
        | Some dst_checksum =>
            if decide (hexdigest X c = dst_checksum)
            then print ("Equal checksum with " +:+ src_file +:+ " and "
                          +:+ Py.path_join dst_dir (Py.basename src_file)) wq
            else push_step X src_file dst_dir serialno wq
        | None => (Raise (IndexError "list index out of range"), wq)
        end
    | Raise e =>
        if is_ErrorReturnCode_1 e then push_step X src_file dst_dir serialno wq
        else (Raise e, wq)
    | OutOfFuel => (OutOfFuel, wq)
    end.
Proof.
  intros Hc Hq.
  unfold adb_push_file, bind at 1, os_path_isfile.
  rewrite bool_decide_eq_true_2 by (rewrite Hc; eauto). cbn [negb].
  unfold bind at 1, file_checksum. rewrite Hc.
  unfold try_except_else, bind at 1. rewrite Hq.
  destruct query as [out|e|]; [| done | done].
  unfold ret at 1, reported_checksum, index, bind at 1.
  destruct (Py.lines_keepends out !! 0%nat) as [line|]; [| done].
  unfold ret at 1, bind at 1.
  destruct (Py.split_ws line !! 0%nat) as [h|]; [| done].
  unfold ret at 1. by destruct (decide (hexdigest X c = h)).
Qed.

Lemma pushes_of_app es1 es2 : pushes_of (es1 ++ es2) = pushes_of es1 ++ pushes_of es2.
Proof. apply omap_app. Qed.

(** The transfer rule: what is pushed, given the outcome of the query. *)
Lemma adb_push_file_decision src_file dst_dir serialno w c query wq r w' :
  host_files (host w) !! src_file = Some c ->
  sh_adb X ["-s"; serialno; "shell"; "md5sum";
            Py.path_join dst_dir (Py.basename src_file)] w = (query, wq) ->
  adb_push_file X src_file dst_dir serialno w = (r, w') ->
  exists es,
    trace w' = trace w ++ es
    /\ pushes_of es
       = if transfer_needed (hexdigest X c) query
         then [[serialno; src_file; dst_dir]] else [].
Proof.
  intros Hc Hq Hrun. rewrite (adb_push_file_run _ _ _ _ _ _ _ Hc Hq) in Hrun.
  pose proof (sh_extends _ _ _ _ _ _ _ _ Hq) as [Hwq _].
  set (query_cmd := Cmd "adb" _ false) in Hwq.
  assert (pushes_of [query_cmd] = []) as Hquiet by done.
  assert (forall r w', push_step X src_file dst_dir serialno wq = (r, w') ->
            exists es, trace w' = trace w ++ es
                       /\ pushes_of es = [[serialno; src_file; dst_dir]]) as Hpush.
  { intros r0 w0 Ht%push_step_trace. rewrite Hwq, <- app_assoc in Ht.
    eexists. split; [exact Ht |]. by rewrite pushes_of_app, Hquiet. }
  assert (forall w', trace w' = trace wq ->
            exists es, trace w' = trace w ++ es /\ pushes_of es = []) as Hskip.
  { intros w0 ->. eauto. }
  unfold transfer_needed. destruct query as [out|e|].
  - destruct (reported_checksum out) as [h|].
    + destruct (decide (hexdigest X c = h)).
      * rewrite bool_decide_eq_false_2 by tauto.
        injection Hrun as _ <-. by apply Hskip.
      * rewrite bool_decide_eq_true_2 by done. eauto.
    + injection Hrun as _ <-. by apply Hskip.
  - destruct (is_ErrorReturnCode_1 e); [eauto |].
    injection Hrun as _ <-. by apply Hskip.
  - injection Hrun as _ <-. by apply Hskip.
Qed.

(** After a call that returned normally, the file on the device has the
    digest of the local file. *)
Lemma adb_push_file_done src_file dst_dir serialno w c w1 :
  host_files (host w) !! src_file = Some c ->
  adb_push_file X src_file dst_dir serialno w = (Ok tt, w1) ->
  host_files (host w1) !! src_file = Some c
  /\ serialno = dev_serial (dev w1)
  /\ exists c', dev_files (dev w1) !! Py.path_join dst_dir (Py.basename src_file)
                = Some c'
                /\ hexdigest X c' = hexdigest X c.
Proof.
  intros Hc Hrun.
  set (dst_file := Py.path_join dst_dir (Py.basename src_file)) in *.
  destruct (sh_adb X ["-s"; serialno; "shell"; "md5sum"; dst_file] w)
    as [query wq] eqn:Hq.
  rewrite (adb_push_file_run _ _ _ _ _ _ _ Hc Hq) in Hrun.
  rewrite sh_adb_md5sum in Hq. injection Hq as Hquery <-.
  assert (forall w0, host_files (host w0) !! src_file = Some c ->
            push_step X src_file dst_dir serialno w0 = (Ok tt, w1) ->
            host_files (host w1) !! src_file = Some c
            /\ serialno = dev_serial (dev w1)
            /\ exists c', dev_files (dev w1) !! dst_file = Some c'
                          /\ hexdigest X c' = hexdigest X c) as Hpush.
  { intros w0 Hc0 Hp. unfold push_step, bind at 1, print in Hp.
    unfold bind at 1 in Hp. rewrite (sh_adb_push _ _ _ _ c) in Hp by done.
    cbn [oracle trace dev log_line] in Hp.
    destruct (faults (oracle w0) _); [done |].
    destruct (decide (serialno = dev_serial (dev w0))) as [Hs|]; [| done].
    unfold ret in Hp. injection Hp as <-. split_and!; [done | done |].
    exists c. split; [| done]. cbn. apply lookup_insert_eq. }
  destruct query as [out|e|]; [| | done].
  - destruct (faults _ _); [done |].
    destruct (decide (serialno = dev_serial (dev w))) as [Hs|]; [| done].
    destruct (dev_files (dev w) !! dst_file) as [c'|] eqn:Hc'; [| done].
    injection Hquery as <-. rewrite reported_checksum_md5sum in Hrun.
    destruct (decide (hexdigest X c = hexdigest X c')) as [Heq|].
    + injection Hrun as <-. split_and!; [done | done |]. by exists c'.
    + by apply Hpush in Hrun.
  - destruct (is_ErrorReturnCode_1 e); [| done]. by apply Hpush in Hrun.
Qed.

(** C4, amended: [adb_push_file] transfers exactly when the remote [md5sum]
    query fails with exit status 1, or succeeds and reports a checksum that
    differs from the local one; it skips when the reported checksum equals
    the local one, and any other failure of the query is passed on without a
    transfer.  So after a call that returned normally, a second call on the
    unchanged host and device, with a query that is not disturbed, pushes
    nothing. *)
Theorem adb_push_file_idempotent src_file dst_dir serialno w :
  (forall c query wq r w',
     host_files (host w) !! src_file = Some c ->
     sh_adb X ["-s"; serialno; "shell"; "md5sum";
               Py.path_join dst_dir (Py.basename src_file)] w = (query, wq) ->
     adb_push_file X src_file dst_dir serialno w = (r, w') ->
     exists es,
       trace w' = trace w ++ es
       /\ pushes_of es
          = if transfer_needed (hexdigest X c) query
            then [[serialno; src_file; dst_dir]] else [])
  /\ (forall w1,
        adb_push_file X src_file dst_dir serialno w = (Ok tt, w1) ->
        faults (oracle w1) (length (trace w1)) = None ->
        exists w2 es,
          adb_push_file X src_file dst_dir serialno w1 = (Ok tt, w2)
          /\ trace w2 = trace w1 ++ es
          /\ pushes_of es = []).
Proof.
  split; [intros; by eapply adb_push_file_decision |].
  intros w1 Hrun Hquiet.
  destruct (host_files (host w) !! src_file) as [c|] eqn:Hc.
  - destruct (adb_push_file_done _ _ _ _ _ _ Hc Hrun) as (Hc1 & Hs & c' & Hc' & Hd).
    set (dst_file := Py.path_join dst_dir (Py.basename src_file)) in *.
    destruct (sh_adb X ["-s"; serialno; "shell"; "md5sum"; dst_file] w1)
      as [query wq] eqn:Hq.
    rewrite (adb_push_file_run _ _ _ _ _ _ _ Hc1 Hq).
    rewrite sh_adb_md5sum, Hquiet, decide_True, Hc' in Hq by done.
    injection Hq as <- <-.
    rewrite reported_checksum_md5sum, decide_True by done.
    eexists _, [_]. split; [reflexivity |]. by split.
  - unfold adb_push_file, bind, os_path_isfile, print in *.
    rewrite Hc in Hrun. rewrite bool_decide_eq_false_2 in Hrun by (by intros [? ?]).
    injection Hrun as <-. cbn [host log_line]. rewrite Hc.
    rewrite bool_decide_eq_false_2 by (by intros [? ?]).
    eexists _, []. cbn. by rewrite app_nil_r.
Qed.

End push_facts.

(** ** Reading the cores of the device *)

Section cpufreq_facts.

Context (X : Externals).

Lemma cpufreq_path_inj (a b : nat) : cpufreq_path a = cpufreq_path b -> a = b.
Proof.
  unfold cpufreq_path. intros H%(inj (String.app _)).
  apply str_app_inj_r in H. by apply (inj pretty) in H.
Qed.

Lemma cpufreq_path_sys (k : nat) : Py.startswith "/sys/" (cpufreq_path k) = true.
Proof.
  unfold cpufreq_path, Py.startswith.
  change ("/sys/devices/system/cpu/cpu" +:+ pretty k +:+ "/cpufreq/cpuinfo_max_freq")
    with ("/sys/" +:+ "devices/system/cpu/cpu" +:+ pretty k +:+ "/cpufreq/cpuinfo_max_freq").
  apply prefix_app.
Qed.

(** Only the cores the device has can be read. *)
Lemma dev_cat_cpufreq (k : nat) (d : Device) (out : string) :
  dev_cat (cpufreq_path k) d = Ok out -> dev_cpufreq d !! k = Some out.
Proof.
  unfold dev_cat. rewrite cpufreq_path_sys.
  destruct (list_find _ _) as [[i k']|] eqn:Hfind; [| done].
  apply list_find_Some in Hfind as (_ & <-%cpufreq_path_inj & _).
  by destruct (dev_cpufreq d !! k); intros [= <-].
Qed.

Lemma sh_adb_cat_cpufreq serialno (k : nat) w out w1 :
  sh_adb X ["-s"; serialno; "shell"; "cat " +:+ cpufreq_path k] w = (Ok out, w1) ->
  dev_cpufreq (dev w) !! k = Some out.
Proof.
  unfold sh_adb, sh. destruct (faults _ _); [done |].
  rewrite decide_True by done. unfold adb_sim. rewrite decide_True by done.
  destruct (decide (serialno = _)); [| done].
  unfold adb_device_sim. rewrite decide_True by done.
  rewrite decide_False by (by rewrite str_app_cons).
  unfold Py.startswith. rewrite prefix_app.
  change 4%nat with (String.length "cat "). rewrite drop_app.
  intros [= H _]. by apply dev_cat_cpufreq in H.
Qed.

Lemma dev_cat_cpufreq_eq (k : nat) (d : Device) :
  dev_cat (cpufreq_path k) d
  = match dev_cpufreq d !! k with
    | Some c => Ok c
    | None => Raise (ErrorReturnCode 1 (cpufreq_path k +:+ ": No such file or directory"))
    end.
Proof.
  unfold dev_cat. rewrite cpufreq_path_sys.
  destruct (list_find _ _) as [[i k']|] eqn:Hfind.
  - by apply list_find_Some in Hfind as (_ & <-%cpufreq_path_inj & _).
  - apply list_find_None in Hfind.
    destruct (dev_cpufreq d !! k) as [c|] eqn:Hc; [| done].
    apply lookup_lt_Some in Hc.
    rewrite Forall_forall in Hfind. destruct (Hfind k); [| done].
    apply elem_of_seq. lia.
Qed.

(** The read of core [k] of the attached device, when nothing disturbs it. *)
Lemma sh_adb_cat_cpufreq_eq (k : nat) w :
  faults (oracle w) (length (trace w)) = None ->
  sh_adb X ["-s"; dev_serial (dev w); "shell"; "cat " +:+ cpufreq_path k] w
  = (match dev_cpufreq (dev w) !! k with
     | Some c => Ok c
     | None => Raise (ErrorReturnCode 1
                        (cpufreq_path k +:+ ": No such file or directory"))
     end,
     log_event (Cmd "adb" ["-s"; dev_serial (dev w); "shell";
                           "cat " +:+ cpufreq_path k] false) w).
Proof.
  intros Hquiet. unfold sh_adb, sh. rewrite Hquiet.
  rewrite decide_True by done. unfold adb_sim. rewrite decide_True by done.
  cbn [dev log_event]. rewrite decide_True by done.
  unfold adb_device_sim. rewrite decide_True by done.
  rewrite decide_False by (by rewrite str_app_cons).
  unfold Py.startswith. rewrite prefix_app.
  change 4%nat with (String.length "cat "). rewrite drop_app.
  cbn [dev log_event]. by rewrite dev_cat_cpufreq_eq.
Qed.

(** On a device that answers, the loop collects the frequencies of all its
    cores: the list [get_cpu_mask] works on is the device's table. *)
Lemma read_cpu_freqs_device (rest : list Z) fuel cpu_id freq_list w :
  Forall2 (fun s f => Py.int s = Some f) (drop cpu_id (dev_cpufreq (dev w))) rest ->
  (cpu_id <= length (dev_cpufreq (dev w)))%nat ->
  (forall k, (k <= length rest)%nat ->
             faults (oracle w) (length (trace w) + k) = None) ->
  (length rest < fuel)%nat ->
  exists w',
    read_cpu_freqs X fuel (dev_serial (dev w)) cpu_id freq_list w
    = (Ok (freq_list ++ rest), w').
Proof.
  revert fuel cpu_id freq_list w.
  induction rest as [|f rest IH]; intros fuel cpu_id freq_list w Hcores Hid Hquiet Hfuel;
    (destruct fuel as [|fuel]; [cbn in Hfuel; lia |]);
    cbn [read_cpu_freqs]; unfold try_except_else, bind;
    rewrite sh_adb_cat_cpufreq_eq
      by (rewrite <- (Nat.add_0_r (length (trace w))); apply Hquiet; lia).
  - apply Forall2_nil_inv_r in Hcores.
    apply (f_equal length) in Hcores. rewrite length_drop in Hcores. cbn in Hcores.
    rewrite lookup_ge_None_2 by lia. cbn. rewrite app_nil_r. eauto.
  - apply Forall2_cons_inv_r in Hcores as (s & strs & Hs & Hrest & Hdrop).
    assert (dev_cpufreq (dev w) !! cpu_id = Some s) as Hcore.
    { rewrite <- (Nat.add_0_r cpu_id), <- lookup_drop. by rewrite Hdrop. }
    rewrite Hcore, Hs. unfold ret.
    set (w1 := log_event _ w).
    destruct (IH fuel (S cpu_id) (freq_list ++ [f]) w1) as [w' Hrun].
    + cbn [dev w1 log_event]. replace (S cpu_id) with (cpu_id + 1)%nat by lia.
      by rewrite <- drop_drop, Hdrop.
    + cbn [dev w1 log_event]. by apply lookup_lt_Some in Hcore.
    + intros k Hk. cbn [oracle trace w1 log_event].
      rewrite length_app. cbn [length]. rewrite <- Nat.add_assoc. apply Hquiet.
      cbn. lia.
    + cbn in Hfuel. lia.
    + exists w'. cbn [dev w1 log_event] in Hrun. rewrite Hrun.
      by rewrite <- app_assoc.
Qed.

(** One read: a plain command, and it ends. *)
Lemma read_one_run serialno cpu_id w (r : result Z) w' :
  (let! out := sh_adb X ["-s"; serialno; "shell"; "cat " +:+ cpufreq_path cpu_id] in
   match Py.int out with
   | Some freq => ret freq
   | None => raise (ValueError ("invalid literal for int() with base 10: '"
                                  +:+ Py.strip out +:+ "'"))
   end) w = (r, w') ->
  r <> OutOfFuel /\ exists es, extends w w' es /\ Forall is_setup es.
Proof.
  intros Hrun. run_cases Hrun.
  - pose proof (sh_extends _ _ _ _ _ _ _ _ Hrun0) as Hsh.
    destruct (Py.int a); injection Hrun as <- <-;
      (split; [done |]; eexists; split; [exact Hsh | by repeat constructor]).
  - pose proof (sh_extends _ _ _ _ _ _ _ _ Hrun) as Hsh.
    split; [done |]. eexists. split; [exact Hsh | by repeat constructor].
  - by apply sh_total in Hrun.
Qed.

(** The reading loop: its events are plain commands, and it can only run
    out of rounds when it was given no more rounds than there are cores
    left. *)
Lemma read_cpu_freqs_run fuel serialno cpu_id freq_list w r w' :
  read_cpu_freqs X fuel serialno cpu_id freq_list w = (r, w') ->
  exists es,
    extends w w' es /\ Forall is_setup es
    /\ (r = OutOfFuel -> (fuel <= length (dev_cpufreq (dev w)) - cpu_id)%nat).
Proof.
  revert cpu_id freq_list w.
  induction fuel as [|fuel IH]; intros cpu_id freq_list w.
  { intros [= <- <-]. exists []. split_and!; [apply extends_refl | done | lia]. }
  cbn [read_cpu_freqs]. intros Hrun. run_cases Hrun.
  - run_cases Hrun0.
    pose proof (sh_adb_cat_cpufreq _ _ _ _ _ Hrun1) as Hcore%lookup_lt_Some.
    pose proof (sh_extends _ _ _ _ _ _ _ _ Hrun1) as Hsh.
    assert (w0 = w1) as ->.
    { destruct (Py.int a0); [by injection Hrun0 | done]. }
    destruct (IH _ _ _ Hrun) as (es & Hes & Hsetup & Hfuel).
    exists ([Cmd "adb" ["-s"; serialno; "shell"; "cat " +:+ cpufreq_path cpu_id] false] ++ es).
    split_and!.
    + by eapply extends_trans.
    + constructor; [by left | done].
    + intros Hr. specialize (Hfuel Hr).
      destruct Hsh as (_ & _ & Hcpus). rewrite Hcpus in Hfuel. lia.
  - injection Hrun as <- <-.
    destruct (read_one_run _ _ _ _ _ Hrun0) as (_ & es & ? & ?).
    exists es. by split_and!.
  - destruct (read_one_run _ _ _ _ _ Hrun) as (_ & es & ? & ?).
    exists es. by split_and!.
  - by destruct (read_one_run _ _ _ _ _ Hrun) as (? & _).
Qed.

Lemma get_cpu_mask_run cpu_fuel serialno w r w' :
  get_cpu_mask X cpu_fuel serialno w = (r, w') ->
  exists es,
    extends w w' es /\ Forall is_setup es
    /\ (r = OutOfFuel -> (cpu_fuel <= length (dev_cpufreq (dev w)))%nat).
Proof.
  unfold get_cpu_mask. intros Hrun. run_cases Hrun.
  - destruct (read_cpu_freqs_run _ _ _ _ _ _ _ Hrun0) as (es & Hes & Hsetup & _).
    exists es. split_and!; [| done |].
    + unfold render_cpu_mask in Hrun.
      destruct (Py.int2 _); by injection Hrun as _ <-.
    + intros ->. unfold render_cpu_mask in Hrun. destruct (Py.int2 _); done.
  - destruct (read_cpu_freqs_run _ _ _ _ _ _ _ Hrun) as (es & Hes & Hsetup & _).
    exists es. by split_and!.
  - destruct (read_cpu_freqs_run _ _ _ _ _ _ _ Hrun) as (es & Hes & Hsetup & Hfuel).
    exists es. split_and!; [done | done |]. intros _. specialize (Hfuel eq_refl). lia.
Qed.

End cpufreq_facts.

(** ** The scheduler *)

Section trace_facts.

Lemma runs_of_app es1 es2 : runs_of (es1 ++ es2) = runs_of es1 ++ runs_of es2.
Proof. apply omap_app. Qed.

Lemma lock_holds_app es1 es2 :
  lock_holds (es1 ++ es2) = (lock_holds es1 + lock_holds es2)%nat.
Proof. unfold lock_holds. by rewrite omap_app, length_app. Qed.

Lemma runs_of_quiet es : Forall is_quiet es -> runs_of es = [].
Proof.
  unfold runs_of. induction 1 as [|e es He _ IH]; [done |].
  cbn. rewrite IH. destruct e as [prog args fg| | | | |]; try done.
  destruct fg; [| done]. destruct He as [|He]; [done |].
  by rewrite decide_False.
Qed.

Lemma is_setup_quiet e : is_setup e -> is_quiet e.
Proof. by destruct e. Qed.

Lemma runs_of_setup es : Forall is_setup es -> runs_of es = [].
Proof.
  intros H. apply runs_of_quiet. eapply Forall_impl; [exact H |].
  apply is_setup_quiet.
Qed.

Lemma lock_holds_setup es : Forall is_setup es -> lock_holds es = 0%nat.
Proof.
  unfold lock_holds. induction 1 as [|e es He _ IH]; [done |].
  cbn. by destruct e.
Qed.

Lemma take_plus {A} (a b : nat) (l : list A) :
  take (a + b) l = take a l ++ take b (drop a l).
Proof.
  revert l. induction a as [|a IH]; intros l; [done |].
  destruct l as [|x l]; cbn; [by destruct b |]. by rewrite IH.
Qed.

Lemma jobs_between_same {A} (i : nat) (l : list A) : jobs_between i i l = [].
Proof. unfold jobs_between. by rewrite Nat.sub_diag. Qed.

Lemma jobs_between_app {A} (i n m : nat) (l : list A) :
  (i <= n)%nat -> (n <= m)%nat ->
  jobs_between i m l = jobs_between i n l ++ jobs_between n m l.
Proof.
  intros Hin Hnm. unfold jobs_between.
  replace (m - i)%nat with ((n - i) + (m - n))%nat by lia.
  rewrite take_plus, drop_drop. do 3 f_equal. lia.
Qed.

Lemma jobs_between_one {A} (i : nat) (l : list A) (x : A) :
  l !! i = Some x -> jobs_between i (S i) l = [x].
Proof.
  intros Hx. unfold jobs_between. replace (S i - i)%nat with 1%nat by lia.
  by rewrite (drop_S _ _ _ Hx).
Qed.


Lemma Qltb_lt (a b : Q) : Qltb a b = true <-> (a < b)%Q.
Proof. unfold Qltb, Qlt. apply Z.ltb_lt. Qed.

End trace_facts.

Section silent_steps.

Context {A B : Type}.

(** A computation without events. *)
Lemma silent_run (m : M A) w r w' :
  emits (fun _ => False) m -> m w = (r, w') -> r <> OutOfFuel /\ extends w w' [].
Proof.
  intros Hm Hrun. destruct (Hm _ _ _ Hrun) as (Hr & es & Hes & Hnone).
  split; [done |]. by destruct Hnone as [|[] ? ?].
Qed.

Lemma bind_silent_run (m : M A) (k : A -> M B) w r w' :
  emits (fun _ => False) m ->
  bind m k w = (r, w') ->
  (exists a w1, extends w w1 [] /\ k a w1 = (r, w'))
  \/ ((exists e, r = Raise e) /\ extends w w' []).
Proof.
  intros Hm Hrun. apply bind_run in Hrun as [(a & w1 & Hrun & Hk) | [(e & Hrun & ->) | [Hrun ->]]].
  - left. exists a, w1. split; [| done]. by eapply silent_run.
  - right. split; [eauto |]. by eapply silent_run.
  - by destruct (silent_run _ _ _ _ Hm Hrun).
Qed.

End silent_steps.

Lemma emits_enum_name (P : event -> Prop) table enum v :
  emits P (enum_name table enum v).
Proof. unfold enum_name. destruct (table v); auto with emits. Qed.

Lemma is_setup_bash args fg : is_setup (Cmd "bash" args fg).
Proof. by right. Qed.

#[local] Hint Resolve emits_enum_name is_setup_bash : emits.

Lemma extends_nil_l w w1 w2 es : extends w w1 [] -> extends w1 w2 es -> extends w w2 es.
Proof. intros H1 H2. exact (extends_trans _ _ _ [] es H1 H2). Qed.

Lemma extends_nil_r w w1 w2 es : extends w w1 es -> extends w1 w2 [] -> extends w w2 es.
Proof.
  intros H1 H2. pose proof (extends_trans _ _ _ es [] H1 H2) as H.
  by rewrite app_nil_r in H.
Qed.

(** Chain steps without events. *)
Ltac silent_chain :=
  repeat first
    [ assumption | apply extends_refl | eapply extends_nil_l; [eassumption |] ].

(** ** The command line of a job *)

Section job_flags_facts.









(** The command the module builds is that command line. *)
Lemma benchmark_command_line benchmark_option run_interval num_threads
    device_bin_path cpu_mask item :
  benchmark_command benchmark_option run_interval num_threads device_bin_path
    cpu_mask item
  = job_command_line benchmark_option run_interval num_threads device_bin_path
      cpu_mask item.
Proof.
  unfold benchmark_command, job_command_line, job_flags, str_bool.
  cbn [Py.join]. by rewrite !str_app_assoc.
Qed.

Lemma invokes_runs_job serialno benchmark_option run_interval num_threads
    device_bin_path args item :
  invokes serialno benchmark_option run_interval num_threads device_bin_path
    args item ->
  runs_job serialno benchmark_option run_interval num_threads device_bin_path
    args item.
Proof. intros [mask ->]. exists mask. by rewrite benchmark_command_line. Qed.

End job_flags_facts.

Section scheduler_facts.

Context (X : Externals)
        (abi serialno host_bin_path bin_name : string)
        (benchmark_option : Z)
        (input_dir : string)
        (run_interval num_threads : Z)
        (max_time_per_lock : Q)
        (push_list : list string)
        (benchmark_list : list Job)
        (executors : list Z)
        (device_bin_path output_dir : string).

#[local] Abbreviation batch :=
  (run_batch X serialno benchmark_option run_interval num_threads
     max_time_per_lock benchmark_list device_bin_path).
#[local] Abbreviation stage :=
  (stage_device X abi serialno host_bin_path bin_name benchmark_option
     input_dir push_list executors device_bin_path).
#[local] Abbreviation hold :=
  (lock_hold X abi serialno host_bin_path bin_name benchmark_option input_dir
     run_interval num_threads max_time_per_lock push_list benchmark_list
     executors device_bin_path).
#[local] Abbreviation sched :=
  (schedule X abi serialno host_bin_path bin_name benchmark_option input_dir
     run_interval num_threads max_time_per_lock push_list benchmark_list
     executors device_bin_path).
#[local] Abbreviation run :=
  (adb_run X abi serialno host_bin_path bin_name benchmark_option input_dir
     run_interval num_threads max_time_per_lock push_list benchmark_list
     executors device_bin_path output_dir).
#[local] Abbreviation job_run :=
  (invokes serialno benchmark_option run_interval num_threads device_bin_path).
#[local] Abbreviation job_line :=
  (runs_job serialno benchmark_option run_interval num_threads device_bin_path).

Lemma emits_stage_device props product_model target_soc :
  emits is_setup (stage props product_model target_soc).
Proof.
  unfold stage_device, try_except. emits_structure;
    auto using emits_adb_push, emits_prepare_device_env, emits_push_all_models,
      emits_push_precision_files, is_setup_plain with emits.
Qed.

(** The loop is left when the time is used up or no job is pending. *)
Lemma run_batch_exit rounds cpu_mask start_time elapse_minutes i :
  Qltb elapse_minutes max_time_per_lock
    && bool_decide (i < length benchmark_list)%nat = false ->
  batch rounds cpu_mask start_time elapse_minutes i = ret (elapse_minutes, i).
Proof. intros H. destruct rounds; cbn [run_batch]; by rewrite H. Qed.

(** The batch loop: it invokes the jobs from [i] up to some [n], one after
    the other; when it was entered with time left and a pending job, it
    invokes at least one. *)
Lemma run_batch_run rounds cpu_mask start_time elapse_minutes i w r w' :
  batch rounds cpu_mask start_time elapse_minutes i w = (r, w') ->
  exists es n,
    extends w w' es /\ (i <= n)%nat
    /\ Forall2 job_run (runs_of es) (jobs_between i n benchmark_list)
    /\ lock_holds es = 0%nat
    /\ (Qltb elapse_minutes max_time_per_lock = false -> n = i)
    /\ match r with
       | Ok (_, i') =>
           i' = n
           /\ (Qltb elapse_minutes max_time_per_lock = true ->
               (i < length benchmark_list)%nat -> (i < n)%nat)
       | Raise _ => True
       | OutOfFuel => (rounds + i < length benchmark_list)%nat
       end.
Proof.
  revert elapse_minutes i w.
  induction rounds as [|rounds IH]; intros elapse_minutes i w Hrun;
    (destruct (Qltb elapse_minutes max_time_per_lock
               && bool_decide (i < length benchmark_list)%nat) eqn:Hcond;
     [ apply andb_true_iff in Hcond as [Htime Hpending%bool_decide_eq_true]
     | rewrite run_batch_exit in Hrun by done; injection Hrun as <- <-;
       exists [], i; rewrite jobs_between_same;
       split_and!; [apply extends_refl | done | constructor | done | done | done |];
       intros Htime Hpending;
       rewrite Htime, bool_decide_eq_true_2 in Hcond by done; done ]).
  { cbn [run_batch] in Hrun.
    rewrite Htime, bool_decide_eq_true_2 in Hrun by done. cbn [andb] in Hrun.
    injection Hrun as <- <-. exists [], i. rewrite jobs_between_same.
    split_and!; [apply extends_refl | done | constructor | done | done | lia]. }
  cbn [run_batch] in Hrun.
  rewrite Htime, bool_decide_eq_true_2 in Hrun by done. cbn [andb] in Hrun.
  assert (forall r w0, extends w w0 [] -> (exists e, r = Raise e) ->
            exists es n,
              extends w w0 es /\ (i <= n)%nat
              /\ Forall2 job_run (runs_of es) (jobs_between i n benchmark_list)
              /\ lock_holds es = 0%nat
              /\ (Qltb elapse_minutes max_time_per_lock = false -> n = i)
              /\ match r : result (Q * nat) with
                 | Ok (_, i') =>
                     i' = n
                     /\ (Qltb elapse_minutes max_time_per_lock = true ->
                         (i < length benchmark_list)%nat -> (i < n)%nat)
                 | Raise _ => True
                 | OutOfFuel => (S rounds + i < length benchmark_list)%nat
                 end) as Hearly.
  { intros r0 w0 Hw0 [e ->]. exists [], i. rewrite jobs_between_same.
    split_and!; [done | done | constructor | done | done | done]. }
  destruct (lookup_lt_is_Some_2 benchmark_list i Hpending) as [item Hitem].
  unfold index in Hrun. rewrite Hitem in Hrun.
  unfold bind at 1, ret at 1 in Hrun.
  apply bind_silent_run in Hrun as [(e & w2 & Hw2 & Hrun) | [Hr Hw]];
    [| by apply Hearly | by apply emits_enum_name].
  apply bind_silent_run in Hrun as [(m & w3 & Hw3 & Hrun) | [Hr Hw]];
    [| apply Hearly; [| done]; silent_chain
     | by apply emits_enum_name].
  apply bind_silent_run in Hrun as [(d & w4 & Hw4 & Hrun) | [Hr Hw]];
    [| apply Hearly; [| done]; silent_chain
     | by apply emits_enum_name].
  apply bind_silent_run in Hrun as [(u & w5 & Hw5 & Hrun) | [Hr Hw]];
    [| apply Hearly; [| done]; silent_chain
     | by apply emits_print].
  assert (extends w w5 []) as Hpre by silent_chain.
  clear Hw2 Hw3 Hw4 Hw5 Hearly.
  set (args := ["-s"; serialno; "shell";
                benchmark_command benchmark_option run_interval num_threads
                  device_bin_path cpu_mask item]) in *.
  assert (runs_of [Cmd "adb" args true] = [args]) as Hone by done.
  assert (job_run args item) as Hinv by (by exists cpu_mask).
  run_cases Hrun.
  - pose proof (sh_extends _ _ _ _ _ _ _ _ Hrun0) as Hsh.
    unfold bind at 1, time_time in Hrun.
    destruct (IH _ _ _ Hrun) as (es & n & Hes & Hn & Hjobs & Hlocks & _ & Hres).
    exists ([Cmd "adb" args true] ++ es), n. split_and!.
    + eapply extends_nil_l; [exact Hpre |]. by eapply extends_trans.
    + lia.
    + rewrite runs_of_app, Hone.
      rewrite (jobs_between_app i (S i) n) by lia.
      rewrite (jobs_between_one _ _ _ Hitem). by constructor.
    + by rewrite lock_holds_app, Hlocks.
    + congruence.
    + destruct r as [[el i']| |]; [| done | lia].
      destruct Hres as [-> _]. split; [done | lia].
  - pose proof (sh_extends _ _ _ _ _ _ _ _ Hrun) as Hsh.
    exists [Cmd "adb" args true], (S i). split_and!.
    + by eapply extends_nil_l.
    + lia.
    + rewrite Hone, (jobs_between_one _ _ _ Hitem). by repeat constructor.
    + done.
    + congruence.
    + done.
  - by apply sh_total in Hrun.
Qed.

(** One lock hold: after the setup, whose commands are no benchmark runs,
    the jobs from [i] up to some [n] are invoked in order. *)
Lemma lock_hold_run cpu_fuel props product_model target_soc i w r w' :
  hold cpu_fuel props product_model target_soc i w = (r, w') ->
  exists es n,
    extends w w' es /\ (i <= n)%nat
    /\ Forall2 job_run (runs_of es) (jobs_between i n benchmark_list)
    /\ lock_holds es = 0%nat
    /\ (~ (0 < max_time_per_lock)%Q -> n = i)
    /\ match r with
       | Ok i' =>
           i' = n
           /\ ((0 < max_time_per_lock)%Q ->
               (i < length benchmark_list)%nat -> (i < n)%nat)
       | Raise _ => True
       | OutOfFuel => (cpu_fuel <= length (dev_cpufreq (dev w)))%nat
       end.
Proof.
  intros Hrun. unfold lock_hold in Hrun.
  assert (forall es (r : result nat) w0,
            extends w w0 es -> Forall is_setup es ->
            match r with
            | Ok _ => False
            | Raise _ => True
            | OutOfFuel => (cpu_fuel <= length (dev_cpufreq (dev w)))%nat
            end ->
            exists es n,
              extends w w0 es /\ (i <= n)%nat
              /\ Forall2 job_run (runs_of es) (jobs_between i n benchmark_list)
              /\ lock_holds es = 0%nat
              /\ (~ (0 < max_time_per_lock)%Q -> n = i)
              /\ match r with
                 | Ok i' =>
                     i' = n
                     /\ ((0 < max_time_per_lock)%Q ->
                         (i < length benchmark_list)%nat -> (i < n)%nat)
                 | Raise _ => True
                 | OutOfFuel => (cpu_fuel <= length (dev_cpufreq (dev w)))%nat
                 end) as Hearly.
  { intros es r0 w0 Hes Hsetup Hr. exists es, i.
    rewrite jobs_between_same, runs_of_setup, lock_holds_setup by done.
    split_and!; [done | done | constructor | done | done |]. by destruct r0. }
  apply bind_silent_run in Hrun as [(start_time & w1 & Hw1 & Hrun) | [[e ->] Hw]];
    [| by apply (Hearly [] (Raise e)) | by apply emits_time_time].
  run_cases Hrun.
  2: { destruct (emits_stage_device _ _ _ _ _ _ Hrun) as (_ & es & Hes & Hsetup).
       apply (Hearly es (Raise e)); [by eapply extends_nil_l | done | done]. }
  2: { by destruct (emits_stage_device _ _ _ _ _ _ Hrun) as (? & _). }
  destruct (emits_stage_device _ _ _ _ _ _ Hrun0) as (_ & es1 & Hes1 & Hsetup1).
  assert (extends w w0 es1) as Hw0 by (by eapply extends_nil_l).
  clear Hrun0 Hes1 Hw1.
  run_cases Hrun.
  2: { destruct (get_cpu_mask_run _ _ _ _ _ _ Hrun) as (es2 & Hes2 & Hsetup2 & _).
       apply (Hearly (es1 ++ es2) (Raise e));
         [by eapply extends_trans | by apply Forall_app | done]. }
  2: { destruct (get_cpu_mask_run _ _ _ _ _ _ Hrun) as (es2 & Hes2 & Hsetup2 & Hfuel).
       apply (Hearly (es1 ++ es2) OutOfFuel);
         [by eapply extends_trans | by apply Forall_app |].
       destruct Hw0 as (_ & _ & <-). by apply Hfuel. }
  destruct (get_cpu_mask_run _ _ _ _ _ _ Hrun0) as (es2 & Hes2 & Hsetup2 & _).
  assert (extends w w2 (es1 ++ es2)) as Hw2 by (by eapply extends_trans).
  assert (Forall is_setup (es1 ++ es2)) as Hsetup by (by apply Forall_app).
  clear Hrun0 Hes2 Hw0 Hsetup1 Hsetup2.
  assert (forall (r0 : result (Q * nat)) w3,
            batch (length benchmark_list) a0 start_time 0%Q i w2 = (r0, w3) ->
            exists es n,
              extends w w3 es /\ (i <= n)%nat
              /\ Forall2 job_run (runs_of es) (jobs_between i n benchmark_list)
              /\ lock_holds es = 0%nat
              /\ (~ (0 < max_time_per_lock)%Q -> n = i)
              /\ match r0 with
                 | Ok (_, i') =>
                     i' = n
                     /\ ((0 < max_time_per_lock)%Q ->
                         (i < length benchmark_list)%nat -> (i < n)%nat)
                 | Raise _ => True
                 | OutOfFuel => False
                 end) as Hbatch.
  { intros r0 w3 Hb.
    destruct (run_batch_run _ _ _ _ _ _ _ _ Hb)
      as (es3 & n & Hes3 & Hn & Hjobs & Hlocks & Hzero & Hres).
    exists ((es1 ++ es2) ++ es3), n. split_and!.
    - by eapply extends_trans.
    - done.
    - by rewrite runs_of_app, runs_of_setup.
    - by rewrite lock_holds_app, lock_holds_setup.
    - intros Hmax. apply Hzero. destruct (Qltb 0 max_time_per_lock) eqn:Hlt; [| done].
      by apply Qltb_lt in Hlt.
    - destruct r0 as [[el i']| |]; [| done | lia].
      destruct Hres as [-> Hprogress]. split; [done |].
      intros Hmax%Qltb_lt. by apply Hprogress. }
  run_cases Hrun.
  - destruct a1 as [el i'].
    destruct (Hbatch _ _ Hrun0)
      as (es & n & Hes & Hn & Hjobs & Hlocks & Hzero & -> & Hprogress).
    unfold bind, print, ret in Hrun. injection Hrun as <- <-.
    exists es, n. by split_and!.
  - destruct (Hbatch _ _ Hrun) as (es & n & Hes & Hn & Hjobs & Hlocks & Hzero & _).
    exists es, n. by split_and!.
  - by destruct (Hbatch _ _ Hrun) as (es & n & _ & _ & _ & _ & _ & ?).
Qed.

(** Taking the lock adds the events [Acquire] and [Release] around the
    events of its body; when it cannot be taken, the body does not run. *)
Lemma with_device_lock_run {A} (body : M A) w r w' :
  with_device_lock serialno body w = (r, w') ->
  (exists e, r = Raise e /\ extends w w' [AcquireTimeout (device_lock_path serialno)])
  \/ (exists r0 w1 w2,
        extends w w1 [Acquire (device_lock_path serialno)]
        /\ body w1 = (r0, w2) /\ r = r0
        /\ ((r0 = OutOfFuel /\ w' = w2)
            \/ (r0 <> OutOfFuel
                /\ extends w2 w' [Release (device_lock_path serialno)]))).
Proof.
  unfold with_device_lock, bind, finally.
  destruct (faults _ _) as [e|].
  - intros [= <- <-]. left. exists e. split; [done | apply extends_log_event].
  - cbv zeta. set (w1 := log_event _ w).
    destruct (body w1) as [r0 w2] eqn:Hbody. intros Hrun. right.
    exists r0, w1, w2. split; [done |]. split; [done |].
    destruct r0; injection Hrun as <- <-;
      (split; [done |]); [right | right | left]; done.
Qed.

(** One round of the scheduler: the lock is taken, held and released. *)
Lemma locked_hold_run cpu_fuel props product_model target_soc i w r w' :
  with_device_lock serialno (hold cpu_fuel props product_model target_soc i) w
  = (r, w') ->
  exists es n,
    extends w w' es /\ (i <= n)%nat
    /\ Forall2 job_run (runs_of es) (jobs_between i n benchmark_list)
    /\ (~ (0 < max_time_per_lock)%Q -> n = i)
    /\ match r with
       | Ok i' =>
           i' = n /\ lock_holds es = 1%nat
           /\ ((0 < max_time_per_lock)%Q ->
               (i < length benchmark_list)%nat -> (i < n)%nat)
       | Raise _ => True
       | OutOfFuel => (cpu_fuel <= length (dev_cpufreq (dev w)))%nat
       end.
Proof.
  intros [(e & -> & Hw) | (r0 & w1 & w2 & Hacq & Hbody & -> & Hend)]%with_device_lock_run.
  { exists [AcquireTimeout (device_lock_path serialno)], i.
    rewrite jobs_between_same. split_and!; [done | done | constructor | done | done]. }
  destruct (lock_hold_run _ _ _ _ _ _ _ _ Hbody)
    as (es & n & Hes & Hn & Hjobs & Hlocks & Hzero & Hres).
  pose proof (extends_trans _ _ _ [_] _ Hacq Hes) as Hw2.
  destruct Hend as [[-> ->] | [Hr0 Hrel]].
  - eexists _, n. split_and!; [exact Hw2 | done | | done |].
    + by rewrite runs_of_app.
    + destruct Hacq as (_ & _ & <-). done.
  - pose proof (extends_trans _ _ _ _ [_] Hw2 Hrel) as Hw'.
    eexists _, n. split_and!; [exact Hw' | done | | done |].
    + rewrite !runs_of_app. cbn. by rewrite app_nil_r.
    + destruct r0 as [i'| |]; [| done | done].
      destruct Hres as [-> Hprogress]. split_and!; [done | | done].
      rewrite !lock_holds_app, Hlocks. done.
Qed.


(** The scheduling loop, when a lock hold has no time at all: no job is
    ever invoked, and while a job is pending the loop does not end
    normally. *)
Lemma schedule_starves fuel cpu_fuel props product_model target_soc i w r w' :
  ~ (0 < max_time_per_lock)%Q ->
  (i < length benchmark_list)%nat ->
  sched fuel cpu_fuel props product_model target_soc i w = (r, w') ->
  (forall u, r <> Ok u)
  /\ exists es, extends w w' es /\ runs_of es = []
                /\ (r = OutOfFuel -> (fuel <= lock_holds es)%nat
                                     \/ (cpu_fuel <= length (dev_cpufreq (dev w)))%nat).
Proof.
  intros Hmax Hpending. revert w.
  induction fuel as [|fuel IH]; intros w Hrun; cbn [schedule] in Hrun;
    rewrite bool_decide_eq_true_2 in Hrun by done.
  { injection Hrun as <- <-. split; [done |]. exists [].
    split_and!; [apply extends_refl | done |]. intros _. left. cbn. lia. }
  unfold bind at 1 2, print at 1 2 in Hrun.
  set (w0 := log_line _ (log_line _ w)) in Hrun.
  assert (extends w w0 []) as Hw0.
  { eapply extends_nil_l; apply extends_log_line. }
  run_cases Hrun.
  - destruct (locked_hold_run _ _ _ _ _ _ _ _ Hrun0)
      as (es1 & n1 & Hes1 & _ & Hjobs1 & Hzero & -> & Hlocks & _).
    rewrite (Hzero Hmax), jobs_between_same in Hjobs1.
    apply Forall2_nil_inv_r in Hjobs1. rewrite (Hzero Hmax) in Hrun.
    pose proof (extends_nil_l _ _ _ _ Hw0 Hes1) as Hw1.
    clear Hes1 Hrun0.
    run_cases Hrun.
    + destruct (emits_time_sleep is_quiet run_interval I _ _ _ Hrun0)
        as (_ & es2 & Hes2 & Hquiet).
      destruct (IH _ Hrun) as (Hr & es3 & Hes3 & Hruns3 & Hfuel).
      split; [done |]. exists ((es1 ++ es2) ++ es3). split_and!.
      * eapply extends_trans; [| exact Hes3]. by eapply extends_trans.
      * by rewrite !runs_of_app, Hjobs1, Hruns3, (runs_of_quiet es2).
      * intros Hr'. destruct (Hfuel Hr') as [Hf | Hcpu].
        -- left. rewrite !lock_holds_app, Hlocks. lia.
        -- right. destruct Hw1 as (_ & _ & Hc1), Hes2 as (_ & _ & Hc2).
           by rewrite <- Hc1, <- Hc2.
    + destruct (emits_time_sleep is_quiet run_interval I _ _ _ Hrun)
        as (_ & es2 & Hes2 & Hquiet).
      split; [done |]. exists (es1 ++ es2).
      split_and!; [by eapply extends_trans | | done].
      by rewrite runs_of_app, Hjobs1, (runs_of_quiet es2).
    + by destruct (emits_time_sleep is_quiet run_interval I _ _ _ Hrun) as (? & _).
  - destruct (locked_hold_run _ _ _ _ _ _ _ _ Hrun)
      as (es1 & n1 & Hes1 & _ & Hjobs1 & Hzero & _).
    rewrite (Hzero Hmax), jobs_between_same in Hjobs1.
    apply Forall2_nil_inv_r in Hjobs1.
    split; [done |]. exists es1. split_and!; [by eapply extends_nil_l | done | done].
  - destruct (locked_hold_run _ _ _ _ _ _ _ _ Hrun)
      as (es1 & n1 & Hes1 & _ & Hjobs1 & Hzero & Hcpu).
    rewrite (Hzero Hmax), jobs_between_same in Hjobs1.
    apply Forall2_nil_inv_r in Hjobs1.
    split; [done |]. exists es1. split_and!; [by eapply extends_nil_l | done |].
    intros _. right. by destruct Hw0 as (_ & _ & <-).
Qed.


(** C1 fails at [max_time_per_lock = 0] (or below): with a pending job,
    [adb_run] never invokes a benchmark and never returns normally; when it
    runs out of rounds it has taken the lock in each of them, unless the
    reading of the cores ran out of rounds first. *)
Theorem adb_run_zero_budget_starves fuel cpu_fuel w r w' :
  (max_time_per_lock <= 0)%Q ->
  benchmark_list <> [] ->
  run fuel cpu_fuel w = (r, w') ->
  (forall path, r <> Ok path)
  /\ exists es,
       trace w' = trace w ++ es /\ runs_of es = []
       /\ (r = OutOfFuel ->
           (fuel <= lock_holds es)%nat
           \/ (cpu_fuel <= length (dev_cpufreq (dev w)))%nat).
Proof.
  intros Hmax%Qle_not_lt Hjobs Hrun. unfold adb_run in Hrun.
  assert (0 < length benchmark_list)%nat as Hpending.
  { destruct benchmark_list; [done | cbn; lia]. }
  assert (forall es (r : result string) w0,
            extends w w0 es -> Forall is_setup es ->
            (forall path, r <> Ok path) -> r <> OutOfFuel ->
            (forall path, r <> Ok path)
            /\ exists es,
                 trace w0 = trace w ++ es /\ runs_of es = []
                 /\ (r = OutOfFuel ->
                     (fuel <= lock_holds es)%nat
                     \/ (cpu_fuel <= length (dev_cpufreq (dev w)))%nat)) as Hearly.
  { intros es r0 w0 Hes Hsetup Hok Hfuel. split; [done |]. exists es.
    split_and!; [by destruct Hes | by apply runs_of_setup | done]. }
  run_cases Hrun.
  2: { eapply (Hearly [_]); [by eapply sh_extends | by repeat constructor | done | done]. }
  2: { by apply sh_total in Hrun. }
  pose proof (sh_extends _ _ _ _ _ _ _ _ Hrun0) as Hw0. clear Hrun0.
  set (c1 := Cmd "adb" _ false) in Hw0.
  assert (forall es, Forall is_setup es -> Forall is_setup ([c1] ++ es)) as Hc1.
  { intros es Hes. apply Forall_cons. split; [by left | done]. }
  run_cases Hrun.
  2: { destruct (emits_adb_getprop X is_setup is_setup_plain _ _ _ _ Hrun)
         as (_ & es & Hes & Hsetup).
       apply (Hearly ([c1] ++ es));
         [by eapply extends_trans | by apply Hc1 | done | done]. }
  2: { by destruct (emits_adb_getprop X is_setup is_setup_plain _ _ _ _ Hrun)
         as (? & _). }
  destruct (emits_adb_getprop X is_setup is_setup_plain _ _ _ _ Hrun0)
    as (_ & es1 & Hes1 & Hsetup1).
  pose proof (extends_trans _ _ _ _ _ Hw0 Hes1) as Hw1.
  assert (Forall is_setup ([c1] ++ es1)) as Hsetup by (by apply Hc1).
  clear Hrun0 Hw0 Hes1 Hsetup1.
  apply bind_silent_run in Hrun as [(product_model & w2 & Hw2 & Hrun) | [[e ->] Hw]];
    [| apply (Hearly ([c1] ++ es1)); [by eapply extends_nil_r | done | done | done]
     | apply emits_getitem].
  apply bind_silent_run in Hrun as [(target_soc & w3 & Hw3 & Hrun) | [[e ->] Hw]];
    [| apply (Hearly ([c1] ++ es1));
       [eapply extends_nil_r; [| exact Hw]; by eapply extends_nil_r | done | done | done]
     | apply emits_getitem].
  assert (extends w w3 ([c1] ++ es1)) as Hpre.
  { eapply extends_nil_r; [| exact Hw3]. by eapply extends_nil_r. }
  clear Hw1 Hw2 Hw3 Hc1 Hearly. set (pre := [c1] ++ es1) in *. clearbody pre.
  run_cases Hrun.
  - destruct (schedule_starves _ _ _ _ _ _ _ _ _ Hmax Hpending Hrun0) as [Hnever _].
    by destruct (Hnever _ eq_refl).
  - destruct (schedule_starves _ _ _ _ _ _ _ _ _ Hmax Hpending Hrun)
      as (_ & es2 & Hes2 & Hruns & _).
    split; [done |]. exists (pre ++ es2). split_and!.
    + by destruct (extends_trans _ _ _ _ _ Hpre Hes2).
    + by rewrite runs_of_app, (runs_of_setup _ Hsetup), Hruns.
    + done.
  - destruct (schedule_starves _ _ _ _ _ _ _ _ _ Hmax Hpending Hrun)
      as (_ & es2 & Hes2 & Hruns & Hfuel).
    split; [done |]. exists (pre ++ es2). split_and!.
    + by destruct (extends_trans _ _ _ _ _ Hpre Hes2).
    + by rewrite runs_of_app, (runs_of_setup _ Hsetup), Hruns.
    + intros _. destruct (Hfuel eq_refl) as [Hf | Hc].
      * left. rewrite lock_holds_app. lia.
      * right. by destruct Hpre as (_ & _ & <-).
Qed.

(** With no job the scheduling loop is not entered. *)
Lemma schedule_no_jobs fuel cpu_fuel props product_model target_soc :
  benchmark_list = [] ->
  sched fuel cpu_fuel props product_model target_soc 0 = ret tt.
Proof. intros ->. by destruct fuel. Qed.

Lemma adb_getprop_trace w r w' :
  adb_getprop_by_serialno X serialno w = (r, w') ->
  r <> OutOfFuel
  /\ exists es,
       extends w w' es /\ lock_holds es = 0%nat /\ runs_of es = []
       /\ pushes_of es = []
       /\ (forall props, r = Ok props ->
             es = [Cmd "adb" ["-s"; serialno; "shell"; "getprop"] false;
                   Cmd "iconv" ["-c"; "-t"; "UTF-8"] false]).
Proof.
  intros Hrun.
  destruct (emits_adb_getprop X is_setup is_setup_plain _ _ _ _ Hrun) as (Hr & _).
  split; [done |].
  unfold adb_getprop_by_serialno, split_stdout, strip_invalid_utf8 in Hrun.
  run_cases Hrun; [| | done].
  - pose proof (sh_extends _ _ _ _ _ _ _ _ Hrun0) as H1.
    run_cases Hrun; [| | done].
    + run_cases Hrun1.
      pose proof (sh_extends _ _ _ _ _ _ _ _ Hrun2) as H2.
      injection Hrun1 as <- <-. injection Hrun as <- <-.
      eexists. split; [by eapply extends_trans |]. by split_and!.
    + run_cases Hrun; [done |].
      pose proof (sh_extends _ _ _ _ _ _ _ _ Hrun) as H2.
      eexists. split; [by eapply extends_trans |]. by split_and!.
  - pose proof (sh_extends _ _ _ _ _ _ _ _ Hrun) as H1.
    eexists. split; [exact H1 |]. by split_and!.
Qed.

Lemma adb_pull_trace src_path dst_path w r w' :
  adb_pull X src_path dst_path serialno w = (r, w') ->
  r <> OutOfFuel
  /\ extends w w' [Cmd "adb" ["-s"; serialno; "pull"; src_path; dst_path] false].
Proof.
  intros Hrun.
  destruct (emits_adb_pull X is_setup is_setup_plain _ _ _ _ _ _ Hrun) as (Hr & _).
  split; [done |]. unfold adb_pull, try_except in Hrun.
  unfold bind at 1, print at 1 in Hrun.
  set (w1 := log_line _ w) in Hrun.
  assert (extends w w1 []) as Hw1 by apply extends_log_line.
  assert (forall r0 w2, (sh_adb X ["-s"; serialno; "pull"; src_path; dst_path] >> ret tt) w1
                        = (r0, w2) ->
            extends w w2 [Cmd "adb" ["-s"; serialno; "pull"; src_path; dst_path] false])
    as Hcmd.
  { intros r0 w2 Hc. eapply extends_nil_l; [exact Hw1 |].
    run_cases Hc; [injection Hc as <- <- | ..];
      exact (sh_extends _ _ _ _ _ _ _ _ ltac:(eassumption)). }
  run_cases Hrun.
  - injection Hrun as <- <-. exact (Hcmd _ _ Hrun0).
  - apply Hcmd in Hrun0. eapply extends_nil_r; [exact Hrun0 |].
    destruct e; cbn in Hrun; injection Hrun as <- <-;
      first [ apply extends_refl | apply extends_log_line ].
  - exact (Hcmd _ _ Hrun).
  - exact (Hcmd _ _ Hrun).
Qed.


(** The events of [adb_run] when the job list is empty. *)
Lemma adb_run_without_jobs_trace fuel cpu_fuel w r w' :
  benchmark_list = [] ->
  run fuel cpu_fuel w = (r, w') ->
  r <> OutOfFuel
  /\ exists es,
       trace w' = trace w ++ es
       /\ lock_holds es = 0%nat /\ runs_of es = [] /\ pushes_of es = []
       /\ (forall path, r = Ok path ->
             exists product_model target_soc,
               path = result_path abi output_dir product_model target_soc
               /\ es = [Cmd "adb" ["-s"; serialno; "shell";
                                   "rm -rf " +:+ Py.path_join device_bin_path "result.txt"]
                          false;
                        Cmd "adb" ["-s"; serialno; "shell"; "getprop"] false;
                        Cmd "iconv" ["-c"; "-t"; "UTF-8"] false;
                        Cmd "adb" ["-s"; serialno; "pull";
                                   device_bin_path +:+ "/result.txt"; path]
                          false]).
Proof.
  intros Hnone Hrun. unfold adb_run in Hrun.
  run_cases Hrun.
  2: { split; [done |]. pose proof (sh_extends _ _ _ _ _ _ _ _ Hrun) as [Ht _].
       eexists. split; [exact Ht |]. by split_and!. }
  2: { by apply sh_total in Hrun. }
  pose proof (sh_extends _ _ _ _ _ _ _ _ Hrun0) as Hw0. clear Hrun0.
  set (c1 := Cmd "adb" _ false) in Hw0.
  assert (lock_holds [c1] = 0%nat /\ runs_of [c1] = [] /\ pushes_of [c1] = [])
    as (Hl1 & Hr1 & Hp1) by done.
  assert (forall es (r : result string) wx,
            extends w wx ([c1] ++ es) ->
            lock_holds es = 0%nat -> runs_of es = [] -> pushes_of es = [] ->
            (forall path, r <> Ok path) -> r <> OutOfFuel ->
            r <> OutOfFuel
            /\ exists es,
                 trace wx = trace w ++ es
                 /\ lock_holds es = 0%nat /\ runs_of es = [] /\ pushes_of es = []
                 /\ (forall path, r = Ok path ->
                       exists product_model target_soc,
                         path = result_path abi output_dir product_model target_soc
                         /\ es = [c1;
                                  Cmd "adb" ["-s"; serialno; "shell"; "getprop"] false;
                                  Cmd "iconv" ["-c"; "-t"; "UTF-8"] false;
                                  Cmd "adb" ["-s"; serialno; "pull";
                                             device_bin_path +:+ "/result.txt"; path]
                                    false])) as Hearly.
  { intros es r0 wx [Ht _] Hl Hr Hp Hok Hfuel. split; [done |].
    exists ([c1] ++ es). rewrite lock_holds_app, runs_of_app, pushes_of_app.
    rewrite Hl, Hr, Hp, Hl1, Hr1, Hp1. split_and!; [done | done | done | done |].
    intros path ->. by destruct (Hok path). }
  run_cases Hrun.
  2: { destruct (adb_getprop_trace _ _ _ Hrun) as (_ & es & Hes & Hl & Hr & Hp & _).
       apply (Hearly es); [by eapply extends_trans | done | done | done | done | done]. }
  2: { by destruct (adb_getprop_trace _ _ _ Hrun) as (? & _). }
  destruct (adb_getprop_trace _ _ _ Hrun0) as (_ & es & Hes & Hl & Hr & Hp & Hexact).
  specialize (Hexact _ eq_refl). subst es.
  pose proof (extends_trans _ _ _ _ _ Hw0 Hes) as Hw1. clear Hrun0 Hw0 Hes.
  apply bind_silent_run in Hrun as [(product_model & w2 & Hw2 & Hrun) | [[e ->] Hw]];
    [| eapply Hearly; [by eapply extends_nil_r | done | done | done | done | done]
     | apply emits_getitem].
  apply bind_silent_run in Hrun as [(target_soc & w3 & Hw3 & Hrun) | [[e ->] Hw]];
    [| eapply Hearly;
       [eapply extends_nil_r; [| exact Hw]; by eapply extends_nil_r
       | done | done | done | done | done]
     | apply emits_getitem].
  rewrite schedule_no_jobs in Hrun by done. unfold bind at 1, ret at 1 in Hrun.
  assert (extends w w3 ([c1] ++ [Cmd "adb" ["-s"; serialno; "shell"; "getprop"] false;
                                 Cmd "iconv" ["-c"; "-t"; "UTF-8"] false])) as Hpre.
  { eapply extends_nil_r; [| exact Hw3]. by eapply extends_nil_r. }
  clear Hw1 Hw2 Hw3 Hearly.
  run_cases Hrun.
  - destruct (adb_pull_trace _ _ _ _ _ Hrun0) as (_ & Hpull).
    injection Hrun as <- <-. split; [done |].
    destruct (extends_trans _ _ _ _ _ Hpre Hpull) as [Ht _].
    eexists. split; [exact Ht |]. split_and!; [done | done | done |].
    intros path [= <-]. by exists product_model, target_soc.
  - destruct (adb_pull_trace _ _ _ _ _ Hrun) as (_ & Hpull). split; [done |].
    destruct (extends_trans _ _ _ _ _ Hpre Hpull) as [Ht _].
    eexists. split; [exact Ht |]. by split_and!.
  - by destruct (adb_pull_trace _ _ _ _ _ Hrun) as (? & _).
Qed.

(** The path [adb_run] returns is made of the model and the platform that
    the device reported after the old result file was removed. *)
Lemma adb_run_returns_path fuel cpu_fuel w path w' :
  run fuel cpu_fuel w = (Ok path, w') ->
  exists out w0 props w1 product_model target_soc,
    sh_adb X ["-s"; serialno; "shell";
              "rm -rf " +:+ Py.path_join device_bin_path "result.txt"] w
    = (Ok out, w0)
    /\ adb_getprop_by_serialno X serialno w0 = (Ok props, w1)
    /\ props !! "ro.product.model" = Some product_model
    /\ props !! "ro.board.platform" = Some target_soc
    /\ path = output_dir +:+ "/" +:+ product_model +:+ "_" +:+ target_soc
                +:+ "_" +:+ abi +:+ "_result.txt".
Proof.
  intros Hrun. unfold adb_run in Hrun.
  apply bind_run_ok in Hrun as (out & w0 & Hrm & Hrun).
  apply bind_run_ok in Hrun as (props & w1 & Hprops & Hrun).
  apply bind_run_ok in Hrun as (product_model & w2 & Hpm & Hrun).
  apply bind_run_ok in Hrun as (target_soc & w3 & Hsoc & Hrun).
  apply bind_run_ok in Hrun as (u & w4 & _ & Hrun).
  apply bind_run_ok in Hrun as (u' & w5 & _ & Hrun).
  injection Hrun as <- _.
  exists out, w0, props, w1, product_model, target_soc.
  unfold getitem in Hpm, Hsoc.
  destruct (props !! "ro.product.model") as [pm|]; [| done].
  destruct (props !! "ro.board.platform") as [soc|]; [| done].
  injection Hpm as -> _. injection Hsoc as -> _.
  by split_and!.
Qed.

(** C2, amended: when the job list is empty, [adb_run] does not take the
    device lock, stages nothing and runs no benchmark.  It always ends; when
    it returns, it has issued exactly four commands (removing the old result
    file, reading the properties, cleaning their text, pulling the result
    file) and returns the local path it pulled to, which is
    [<output_dir>/<model>_<platform>_<abi>_result.txt] for the properties
    [ro.product.model] and [ro.board.platform] that the device reported. *)
Theorem adb_run_without_jobs fuel cpu_fuel w r w' :
  benchmark_list = [] ->
  run fuel cpu_fuel w = (r, w') ->
  r <> OutOfFuel
  /\ exists es,
       trace w' = trace w ++ es
       /\ lock_holds es = 0%nat /\ runs_of es = [] /\ pushes_of es = []
       /\ (forall path, r = Ok path ->
             exists out w0 props w1 product_model target_soc,
               sh_adb X ["-s"; serialno; "shell";
                         "rm -rf " +:+ Py.path_join device_bin_path "result.txt"] w
               = (Ok out, w0)
               /\ adb_getprop_by_serialno X serialno w0 = (Ok props, w1)
               /\ props !! "ro.product.model" = Some product_model
               /\ props !! "ro.board.platform" = Some target_soc
               /\ path = output_dir +:+ "/" +:+ product_model +:+ "_"
                           +:+ target_soc +:+ "_" +:+ abi +:+ "_result.txt"
               /\ es = [Cmd "adb" ["-s"; serialno; "shell";
                                   "rm -rf " +:+ Py.path_join device_bin_path "result.txt"]
                          false;
                        Cmd "adb" ["-s"; serialno; "shell"; "getprop"] false;
                        Cmd "iconv" ["-c"; "-t"; "UTF-8"] false;
                        Cmd "adb" ["-s"; serialno; "pull";
                                   device_bin_path +:+ "/result.txt"; path]
                          false]).
Proof.
  intros Hnone Hrun.
  destruct (adb_run_without_jobs_trace _ _ _ _ _ Hnone Hrun)
    as (Hfuel & es & Htrace & Hlocks & Hruns & Hpushes & Hpath).
  split; [done |]. exists es. split_and!; [done | done | done | done |].
  intros path ->. destruct (Hpath path eq_refl) as (_ & _ & _ & Hes).
  apply adb_run_returns_path in Hrun
    as (out & w0 & props & w1 & product_model & target_soc & Hrest).
  exists out, w0, props, w1, product_model, target_soc.
  by destruct Hrest as (? & ? & ? & ? & ?).
Qed.

End scheduler_facts.

(** ** The phone on the bench *)

(** A run, from its evaluated result. *)
Lemma run_pair {A} (m : M A) (w : World) (r : result A) :
  (m w).1 = r -> m w = (r, (m w).2).
Proof. intros <-. apply surjective_pairing. Qed.

Example adb_run_example :
  (Demo.run 5 Demo.jobs 3 Demo.world).1 = Ok "out/MI 8_sdm845_arm64-v8a_result.txt"
  /\ lock_holds (trace (Demo.run 5 Demo.jobs 3 Demo.world).2) = 1%nat
  /\ length (runs_of (trace (Demo.run 5 Demo.jobs 3 Demo.world).2)) = 2%nat.
Proof. by vm_compute. Qed.

(** With no time per lock hold the two jobs are never run: three rounds take
    the lock three times and invoke nothing. *)
Example adb_run_zero_budget_example :
  (Demo.run 0 Demo.jobs 3 Demo.world).1 = OutOfFuel
  /\ lock_holds (trace (Demo.run 0 Demo.jobs 3 Demo.world).2) = 3%nat
  /\ runs_of (trace (Demo.run 0 Demo.jobs 3 Demo.world).2) = [].
Proof. by vm_compute. Qed.

Lemma adb_run_zero_budget_starves_witness :
  (forall path, (Demo.run 0 Demo.jobs 3 Demo.world).1 <> Ok path)
  /\ exists es,
       trace (Demo.run 0 Demo.jobs 3 Demo.world).2 = trace Demo.world ++ es
       /\ runs_of es = []
       /\ ((Demo.run 0 Demo.jobs 3 Demo.world).1 = OutOfFuel ->
           (3 <= lock_holds es)%nat
           \/ (5 <= length (dev_cpufreq (dev Demo.world)))%nat).
Proof.
  apply (adb_run_zero_budget_starves Demo.externals "arm64-v8a" "abc123" "bin"
           "model_benchmark" 0 "" 1 4 0 ["m/model.pb"] Demo.jobs [0]
           "/data/local/tmp/aibench" "out" 3 5 Demo.world).
  - vm_compute. discriminate.
  - discriminate.
  - apply surjective_pairing.
Defined.

(** C2, as stated: with an empty job list the lock is not taken once, but
    not at all. *)
Lemma adb_run_without_jobs_takes_no_lock :
  (Demo.run 5 [] 3 Demo.world).1 = Ok "out/MI 8_sdm845_arm64-v8a_result.txt"
  /\ lock_holds (trace (Demo.run 5 [] 3 Demo.world).2) <> 1%nat.
Proof. split; [by vm_compute | vm_compute; discriminate]. Qed.

Lemma adb_run_without_jobs_witness :
  (Demo.run 5 [] 3 Demo.world).1 <> OutOfFuel
  /\ exists es,
       trace (Demo.run 5 [] 3 Demo.world).2 = trace Demo.world ++ es
       /\ lock_holds es = 0%nat /\ runs_of es = [] /\ pushes_of es = []
       /\ (forall path, (Demo.run 5 [] 3 Demo.world).1 = Ok path ->
             exists out w0 props w1 product_model target_soc,
               sh_adb Demo.externals
                 ["-s"; "abc123"; "shell";
                  "rm -rf " +:+ Py.path_join "/data/local/tmp/aibench" "result.txt"]
                 Demo.world
               = (Ok out, w0)
               /\ adb_getprop_by_serialno Demo.externals "abc123" w0 = (Ok props, w1)
               /\ props !! "ro.product.model" = Some product_model
               /\ props !! "ro.board.platform" = Some target_soc
               /\ path = "out" +:+ "/" +:+ product_model +:+ "_"
                           +:+ target_soc +:+ "_" +:+ "arm64-v8a" +:+ "_result.txt"
               /\ es = [Cmd "adb" ["-s"; "abc123"; "shell";
                                   "rm -rf " +:+ Py.path_join "/data/local/tmp/aibench"
                                                   "result.txt"]
                          false;
                        Cmd "adb" ["-s"; "abc123"; "shell"; "getprop"] false;
                        Cmd "iconv" ["-c"; "-t"; "UTF-8"] false;
                        Cmd "adb" ["-s"; "abc123"; "pull";
                                   "/data/local/tmp/aibench" +:+ "/result.txt"; path]
                          false]).
Proof.
  apply (adb_run_without_jobs Demo.externals "arm64-v8a" "abc123" "bin"
           "model_benchmark" 0 "" 1 4 5 ["m/model.pb"] [] [0]
           "/data/local/tmp/aibench" "out" 3 5 Demo.world).
  - reflexivity.
  - apply surjective_pairing.
Defined.

(** The pull of a file the device does not have fails with exit status 1;
    [adb_pull] prints the error and returns. *)
Example adb_pull_example :
  (adb_pull Demo.externals "/data/local/tmp/aibench/nothing.txt" "out/r.txt"
     "abc123" Demo.world).1 = Ok tt.
Proof. by vm_compute. Qed.

Lemma adb_pull_transfer_failure_caught_witness :
  exists w',
    adb_pull Demo.externals "/sdcard/result.txt" "out/r.txt" "abc123"
      (Demo.failing (ErrorReturnCode 255 "error: device offline")) = (Ok tt, w')
    /\ trace w' = trace (Demo.failing (ErrorReturnCode 255 "error: device offline"))
                    ++ [Cmd "adb" ["-s"; "abc123"; "pull"; "/sdcard/result.txt"; "out/r.txt"]
                          false]
    /\ (stdout w' = stdout (Demo.failing (ErrorReturnCode 255 "error: device offline"))
                      ++ ["Pull " +:+ "/sdcard/result.txt" +:+ " to " +:+ "out/r.txt"]
        \/ exists err,
             stdout w' = stdout (Demo.failing (ErrorReturnCode 255 "error: device offline"))
                           ++ ["Pull " +:+ "/sdcard/result.txt" +:+ " to " +:+ "out/r.txt";
                               "Error msg: " +:+ err]).
Proof.
  apply adb_pull_transfer_failure_caught.
  intros e. vm_compute. intros [= <-]. eauto.
Defined.

(** Without [adb] on the host the pull is not a failed transfer that gets
    logged: [adb_pull] raises. *)
Example adb_pull_without_adb :
  (adb_pull Demo.externals "/sdcard/result.txt" "out/r.txt" "abc123"
     (Demo.failing (CommandNotFound "adb"))).1
  = Raise (AttributeError "stderr").
Proof. by vm_compute. Qed.

Lemma adb_pull_handler_raises_witness :
  exists w',
    adb_pull Demo.externals "/sdcard/result.txt" "out/r.txt" "abc123"
      (Demo.failing (CommandNotFound "adb"))
    = (Raise (AttributeError "stderr"), w')
    /\ trace w' = trace (Demo.failing (CommandNotFound "adb"))
                    ++ [Cmd "adb" ["-s"; "abc123"; "pull"; "/sdcard/result.txt"; "out/r.txt"]
                          false]
    /\ stdout w' = stdout (Demo.failing (CommandNotFound "adb"))
                     ++ ["Pull " +:+ "/sdcard/result.txt" +:+ " to " +:+ "out/r.txt"].
Proof.
  apply (adb_pull_handler_raises Demo.externals "/sdcard/result.txt" "out/r.txt"
           "abc123" (Demo.failing (CommandNotFound "adb")) (CommandNotFound "adb")).
  - reflexivity.
  - reflexivity.
  - discriminate.
Defined.

(** C4, as stated: a query that fails with another status than 1 is a
    failed query, yet nothing is transferred: the failure is passed on. *)
Lemma adb_push_file_other_status_not_pushed :
  (sh_adb Demo.externals
     ["-s"; "abc123"; "shell"; "md5sum"; "/data/local/tmp/aibench/model.pb"]
     (Demo.failing (ErrorReturnCode 2 "closed"))).1
  = Raise (ErrorReturnCode 2 "closed")
  /\ (adb_push_file Demo.externals "m/model.pb" "/data/local/tmp/aibench" "abc123"
        (Demo.failing (ErrorReturnCode 2 "closed"))).1
     = Raise (ErrorReturnCode 2 "closed")
  /\ pushes_of
       (trace (adb_push_file Demo.externals "m/model.pb" "/data/local/tmp/aibench"
                 "abc123" (Demo.failing (ErrorReturnCode 2 "closed"))).2)
     = [].
Proof. by vm_compute. Qed.

(** The first call pushes the model, the second finds the checksums equal. *)
Example adb_push_file_example :
  pushes_of
    (trace (adb_push_file Demo.externals "m/model.pb" "/data/local/tmp/aibench"
              "abc123" Demo.world).2)
  = [["abc123"; "m/model.pb"; "/data/local/tmp/aibench"]].
Proof. by vm_compute. Qed.

Lemma adb_push_file_idempotent_witness :
  exists w2 es,
    adb_push_file Demo.externals "m/model.pb" "/data/local/tmp/aibench" "abc123"
      (adb_push_file Demo.externals "m/model.pb" "/data/local/tmp/aibench" "abc123"
         Demo.world).2
    = (Ok tt, w2)
    /\ trace w2
       = trace (adb_push_file Demo.externals "m/model.pb" "/data/local/tmp/aibench"
                  "abc123" Demo.world).2 ++ es
    /\ pushes_of es = [].
Proof.
  apply (proj2 (adb_push_file_idempotent Demo.externals "m/model.pb"
                  "/data/local/tmp/aibench" "abc123" Demo.world)).
  - apply run_pair. by vm_compute.
  - reflexivity.
Defined.

(** C6, as stated: for the empty list of frequencies there is no mask. *)
Lemma get_cpu_mask_empty_list_no_mask :
  (read_cpu_freqs Demo.externals 5 "abc123" 0 [] Demo.coreless).1 = Ok []
  /\ (get_cpu_mask Demo.externals 5 "abc123" Demo.coreless).1
     = Raise (ValueError "invalid literal for int() with base 2: ''").
Proof. by vm_compute. Qed.

(** The frequencies 100, 200, 200, 100 give the mask 6. *)
Example get_cpu_mask_example :
  (read_cpu_freqs Demo.externals 5 "abc123" 0 [] Demo.world).1 = Ok [100; 200; 200; 100]
  /\ (get_cpu_mask Demo.externals 5 "abc123" Demo.world).1 = Ok "6".
Proof. by vm_compute. Qed.

Lemma get_cpu_mask_spec_witness :
  exists top mask,
    top ∈ [100; 200; 200; 100]
    /\ (forall f, f ∈ [100; 200; 200; 100] -> f <= top)
    /\ (forall i : nat,
          Z.testbit mask (Z.of_nat i) = true
          <-> [100; 200; 200; 100] !! i = Some top)
    /\ get_cpu_mask Demo.externals 5 "abc123" Demo.world
       = (Ok (Py.hex_digits mask),
          (read_cpu_freqs Demo.externals 5 "abc123" 0 [] Demo.world).2)
    /\ Py.int16 (Py.hex_digits mask) = Some mask.
Proof.
  apply get_cpu_mask_spec.
  - apply run_pair. by vm_compute.
  - discriminate.
  - vm_compute. discriminate.
Defined.

(** With 64 cores of one frequency the mask is a [long]. *)
Example get_cpu_mask_long_example :
  render_cpu_mask Demo.externals (cpu_mask_string (replicate 64 1000)) Demo.world
  = (Ok "ffffffffffffffffL", Demo.world).
Proof. by vm_compute. Qed.

Lemma get_cpu_mask_without_core_raises_witness :
  read_cpu_freqs Demo.externals 5 "abc123" 0 [] Demo.coreless
  = (Ok [],
     (sh_adb Demo.externals ["-s"; "abc123"; "shell"; "cat " +:+ cpufreq_path 0]
        Demo.coreless).2)
  /\ cpu_mask_string [] = ""
  /\ Py.int2 "" = None
  /\ get_cpu_mask Demo.externals 5 "abc123" Demo.coreless
     = (Raise (ValueError "invalid literal for int() with base 2: ''"),
        (sh_adb Demo.externals ["-s"; "abc123"; "shell"; "cat " +:+ cpufreq_path 0]
           Demo.coreless).2).
Proof.
  apply (get_cpu_mask_without_core_raises Demo.externals 4 "abc123" Demo.coreless
           (sh_adb Demo.externals ["-s"; "abc123"; "shell"; "cat " +:+ cpufreq_path 0]
              Demo.coreless).1).
  - apply surjective_pairing.
  - vm_compute. right. eauto.
Defined.

(** The dump of the bench lists two devices; the header, the emulator (its
    name is not a word), the offline device and the empty line are passed
    over. *)
Example adb_devices_example :
  (adb_devices Demo.externals Demo.world).1 = Ok ["abc123"; "f00d"].
Proof. by vm_compute. Qed.


(** The file is fetched, verified and handed over; with a wrong checksum it
    is not. *)
Example get_model_file_example :
  (get_model_file Demo.externals "http://models/net.pb"
     (hexdigest Demo.externals "net") "cache" [] Demo.world).1 = Ok ["cache/net.pb"]
  /\ (get_model_file Demo.externals "http://models/net.pb" "0123" "cache" []
        Demo.world).1
     = Raise (CheckFailed "file net.pb md5 checksum not match")
  /\ (download_file Demo.externals
        (<["net.pb_md5_checksum" := "0123"]> Demo.configs) "net.pb" "cache"
        Demo.world).1
     = Raise (SystemExit 1).
Proof. by vm_compute. Qed.

Lemma fetched_artifact_is_verified_witness :
  exists c,
    host_files
      (host (download_file Demo.externals Demo.configs "net.pb" "cache" Demo.world).2)
      !! "cache/net.pb" = Some c
    /\ Demo.configs !! ("net.pb" +:+ "_md5_checksum") = Some (hexdigest Demo.externals c).
Proof.
  apply (proj1 (fetched_artifact_is_verified Demo.externals Demo.configs "net.pb"
                  "" "" "cache" [] Demo.world)).
  apply run_pair. by vm_compute.
Defined.


(** * More properties *)

(** ** More on strings *)

Section split_facts.

Lemma split_length (sep : ascii) (s : string) :
  length (Py.split sep s) = S (Py.count sep s).
Proof.
  induction s as [|a s IH]; [done |].
  cbn. destruct (decide (a = sep)); cbn; [by rewrite IH |].
  destruct (Py.split sep s); cbn in *; [done | done].
Qed.

Lemma split_join (sep : ascii) (s : string) :
  Py.join (String sep "") (Py.split sep s) = s.
Proof.
  induction s as [|a s IH]; [done |].
  cbn [Py.split]. destruct (decide (a = sep)) as [->|].
  - destruct (Py.split sep s) as [|p ps] eqn:Hs.
    + pose proof (split_length sep s) as H. by rewrite Hs in H.
    + change (Py.join (String sep "") ("" :: p :: ps))
        with ("" +:+ String sep "" +:+ Py.join (String sep "") (p :: ps)).
      by rewrite IH.
  - destruct (Py.split sep s) as [|p ps] eqn:Hs.
    + pose proof (split_length sep s) as H. by rewrite Hs in H.
    + destruct ps as [|q ps].
      * cbn in *. by rewrite IH.
      * change (Py.join (String sep "") (String a p :: q :: ps))
          with (String a p +:+ String sep "" +:+ Py.join (String sep "") (q :: ps)).
        change (Py.join (String sep "") (p :: q :: ps))
          with (p +:+ String sep "" +:+ Py.join (String sep "") (q :: ps)) in IH.
        by rewrite str_app_cons, IH.
Qed.

Lemma split_pieces (sep : ascii) (s : string) :
  Forall (fun p => Py.mem sep p = false) (Py.split sep s).
Proof.
  induction s as [|a s IH]; [by repeat constructor |].
  cbn [Py.split]. destruct (decide (a = sep)).
  - by constructor.
  - destruct (Py.split sep s) as [|p ps]; [repeat constructor; cbn; by rewrite decide_False |].
    apply Forall_cons in IH as [Hp Hps]. constructor; [| done].
    cbn. by rewrite decide_False.
Qed.

End split_facts.

(** X12: [bazel_target_to_bin] needs exactly one colon in the target.  With
    one colon it returns a directory under [bazel-bin/] and the text after
    the colon as the name; with none, or with more than one, the unpacking of
    [target.split(':')] raises [ValueError]. *)
Theorem bazel_target_to_bin_colons (target : string) :
  match bazel_target_to_bin target with
  | Ok (host_bin_path, bin_name) =>
      Py.count ":" target = 1%nat
      /\ Py.mem ":" bin_name = false
      /\ exists prefix,
           target = prefix +:+ ":" +:+ bin_name
           /\ Py.mem ":" prefix = false
           /\ Py.startswith "bazel-bin/" host_bin_path = true
  | Raise e =>
      Py.count ":" target <> 1%nat
      /\ e = ValueError (if decide (Py.count ":" target = 0%nat)
                         then "need more than 1 value to unpack"
                         else "too many values to unpack")
  | OutOfFuel => False
  end.
Proof.
  unfold bazel_target_to_bin.
  pose proof (split_length ":" target) as Hlen.
  pose proof (split_join ":" target) as Hjoin.
  pose proof (split_pieces ":" target) as Hpieces.
  destruct (Py.split ":" target) as [|prefix [|bin_name [|x rest]]]; cbn in Hlen.
  - done.
  - injection Hlen as <-. split; [done |]. by rewrite decide_True.
  - injection Hlen as Hlen.
    apply Forall_cons in Hpieces as (Hp & (Hb & _)%Forall_cons).
    split; [done |]. split; [done |]. exists prefix.
    split; [done |]. split; [done |]. apply prefix_app.
  - injection Hlen as Hlen. split; [lia |]. rewrite decide_False by lia. done.
Qed.

Section strip_facts.

Lemma lstrip_head (a : ascii) (s : string) :
  Ascii.is_space a = false -> Py.lstrip (String a s) = String a s.
Proof. cbn. by intros ->. Qed.

Lemma lstrip_idemp (s : string) : Py.lstrip (Py.lstrip s) = Py.lstrip s.
Proof.
  induction s as [|a s IH]; [done |].
  cbn. destruct (Ascii.is_space a) eqn:Ha; [done |]. cbn. by rewrite Ha.
Qed.

Lemma rstrip_cons (a : ascii) (s : string) :
  Py.rstrip (String a s)
  = match Py.rstrip s with
    | "" => if Ascii.is_space a then "" else String a ""
    | r => String a r
    end.
Proof. reflexivity. Qed.

Lemma rstrip_idemp (s : string) : Py.rstrip (Py.rstrip s) = Py.rstrip s.
Proof.
  induction s as [|a s IH]; [done |].
  rewrite rstrip_cons. destruct (Py.rstrip s) as [|b r] eqn:Hr.
  - destruct (Ascii.is_space a) eqn:Ha; [done |]. cbn. by rewrite Ha.
  - rewrite rstrip_cons, IH. done.
Qed.

Lemma rstrip_head (a : ascii) (s : string) :
  Ascii.is_space a = false -> exists r, Py.rstrip (String a s) = String a r.
Proof.
  intros Ha. rewrite rstrip_cons. destruct (Py.rstrip s); [rewrite Ha |]; eauto.
Qed.

Lemma lstrip_cases (s : string) :
  Py.lstrip s = "" \/ exists a r, Py.lstrip s = String a r /\ Ascii.is_space a = false.
Proof.
  induction s as [|a s IH]; [by left |].
  cbn. destruct (Ascii.is_space a) eqn:Ha; [done |]. right. eauto.
Qed.

Lemma strip_idemp (s : string) : Py.strip (Py.strip s) = Py.strip s.
Proof.
  unfold Py.strip.
  destruct (lstrip_cases s) as [-> | (a & r & -> & Ha)]; [done |].
  destruct (rstrip_head a r Ha) as [r' Hr]. rewrite Hr.
  rewrite lstrip_head by done. rewrite <- Hr. apply rstrip_idemp.
Qed.

Lemma mem_rstrip (c : ascii) (s : string) :
  Py.mem c s = false -> Py.mem c (Py.rstrip s) = false.
Proof.
  induction s as [|a s IH]; [done |].
  rewrite rstrip_cons. cbn [Py.mem].
  destruct (decide (a = c)); [done |]. intros H. specialize (IH H).
  destruct (Py.rstrip s).
  - destruct (Ascii.is_space a); cbn; [done | by rewrite decide_False].
  - cbn [Py.mem]. by rewrite decide_False.
Qed.

Lemma mem_lstrip (c : ascii) (s : string) :
  Py.mem c s = false -> Py.mem c (Py.lstrip s) = false.
Proof.
  induction s as [|a s IH]; [done |].
  cbn. destruct (decide (a = c)); [done |]. intros H.
  destruct (Ascii.is_space a); [by apply IH |]. cbn. by rewrite decide_False.
Qed.

Lemma mem_strip (c : ascii) (s : string) :
  Py.mem c s = false -> Py.mem c (Py.strip s) = false.
Proof. intros H. by apply mem_rstrip, mem_lstrip. Qed.

End strip_facts.

(** ** [split_stdout] *)

Section stdout_facts.

Context (X : Externals).

Lemma stdout_lines_clean (s : string) :
  Forall (fun l => l <> "" /\ Py.strip l = l /\ Py.mem Py.newline l = false)
    (stdout_lines s).
Proof.
  unfold stdout_lines. apply Forall_fmap, Forall_forall.
  intros l [Hl Hin]%list_elem_of_filter. cbn.
  split; [done |]. split; [apply strip_idemp |].
  apply mem_strip.
  pose proof (split_pieces Py.newline s) as Hp.
  rewrite Forall_forall in Hp. by apply Hp.
Qed.

Lemma split_stdout_run s w r w' :
  split_stdout X s w = (r, w') ->
  (exists out, r = Ok (stdout_lines out)) \/ (exists e, r = Raise e).
Proof.
  unfold split_stdout. intros Hrun. run_cases Hrun.
  - injection Hrun as <- <-. eauto.
  - eauto.
  - by apply sh_total in Hrun.
Qed.

(** X1: every line that [split_stdout] returns is not empty, has no white
    space at either end and holds no newline. *)
Theorem split_stdout_lines_clean (stdout_str : string) w lines w' :
  split_stdout X stdout_str w = (Ok lines, w') ->
  Forall (fun l => l <> "" /\ Py.strip l = l /\ Py.mem Py.newline l = false) lines.
Proof.
  intros [(out & [= ->]) | (e & [=])]%split_stdout_run.
  apply stdout_lines_clean.
Qed.

End stdout_facts.

(** ** [adb_getprop_by_serialno] and [adb_supported_abis] *)

Section getprop_lines.

Lemma prefix_head_neq (a b : ascii) (p s : string) :
  b <> a -> String.prefix (String a p) (String b s) = false.
Proof.
  intros Hab. change (String.prefix (String a p) (String b s))
    with (if Ascii.ascii_dec a b then String.prefix p s else false).
  by destruct (Ascii.ascii_dec a b) as [->|].
Qed.

Lemma match_val_cons (a : ascii) (r : string) :
  match_val (String a r)
  = if decide (a = Py.newline) then None
    else match match_val r with
         | Some v => Some (String a v)
         | None => if Py.startswith "]" r then Some (String a "") else None
         end.
Proof. reflexivity. Qed.

Lemma match_key_cons (a : ascii) (r : string) :
  match_key (String a r)
  = if decide (a = Py.newline) then None
    else match match_key r with
         | Some (k, v) => Some (String a k, v)
         | None =>
             if Py.startswith "]: [" r
             then (fun v => (String a "", v)) <$> match_val (Py.drop 4 r)
             else None
         end.
Proof. reflexivity. Qed.

Lemma match_val_closing (v : string) :
  v <> "" -> Py.mem Py.newline v = false -> match_val (v +:+ "]") = Some v.
Proof.
  induction v as [|a v IH]; [done |]. intros _ Hnl.
  cbn [Py.mem] in Hnl. destruct (decide (a = Py.newline)) as [|Ha]; [done |].
  rewrite str_app_cons, match_val_cons, decide_False by done.
  destruct v as [|b v].
  - by rewrite str_app_nil_l.
  - by rewrite IH.
Qed.

Lemma match_key_none (a : ascii) (t : string) :
  Py.mem "]" t = false -> match_key (String a (t +:+ "]")) = None.
Proof.
  revert a. induction t as [|b t IH]; intros a Ht.
  - rewrite str_app_nil_l, match_key_cons. by destruct (decide _).
  - cbn [Py.mem] in Ht. destruct (decide (b = "]"%char)) as [|Hb]; [done |].
    rewrite str_app_cons, match_key_cons, IH by done.
    destruct (decide _); [done |].
    unfold Py.startswith. by rewrite prefix_head_neq.
Qed.

Lemma match_key_line (k v : string) :
  k <> "" -> Py.mem Py.newline k = false ->
  v <> "" -> Py.mem Py.newline v = false -> Py.mem "]" v = false ->
  match_key (k +:+ "]: [" +:+ v +:+ "]") = Some (k, v).
Proof.
  intros Hk Hknl Hv Hvnl Hvb.
  induction k as [|a k IH]; [done |].
  cbn [Py.mem] in Hknl. destruct (decide (a = Py.newline)) as [|Ha]; [done |].
  rewrite str_app_cons, match_key_cons, decide_False by done.
  destruct k as [|b k].
  - rewrite str_app_nil_l.
    change ("]: [" +:+ v +:+ "]") with (String "]" ((": [" +:+ v) +:+ "]")) at 1.
    rewrite match_key_none by (by rewrite mem_app, Hvb).
    unfold Py.startswith. rewrite prefix_app.
    change 4%nat with (String.length "]: ["). rewrite drop_app.
    by rewrite match_val_closing.
  - by rewrite IH.
Qed.

Lemma match_prop_line (kv : string * string) :
  plain_prop kv -> match_prop (prop_line kv) = Some kv.
Proof.
  destruct kv as [k v]. intros (Hk & Hv & Hknl & Hvnl & Hvb). cbn in *.
  unfold prop_line, match_prop. cbn [fst snd].
  rewrite str_app_cons, str_app_nil_l. by apply match_key_line.
Qed.

Lemma rstrip_closing (s : string) (a : ascii) :
  Ascii.is_space a = false -> Py.rstrip (s +:+ String a "") = s +:+ String a "".
Proof.
  intros Ha. induction s as [|b s IH].
  - rewrite str_app_nil_l. cbn. by rewrite Ha.
  - rewrite str_app_cons, rstrip_cons, IH.
    destruct s; by rewrite ?str_app_nil_l, ?str_app_cons.
Qed.

Lemma strip_prop_line (kv : string * string) :
  Py.strip (prop_line kv) = prop_line kv.
Proof.
  unfold prop_line, Py.strip. rewrite str_app_cons, str_app_nil_l.
  rewrite lstrip_head by done.
  change (String "[" (kv.1 +:+ "]: [" +:+ kv.2 +:+ "]"))
    with ("[" +:+ kv.1 +:+ "]: [" +:+ kv.2 +:+ "]").
  rewrite <- !str_app_assoc. by apply rstrip_closing.
Qed.

Lemma prop_line_no_newline (kv : string * string) :
  plain_prop kv -> Py.mem Py.newline (prop_line kv) = false.
Proof.
  intros (_ & _ & Hk & Hv & _). unfold prop_line.
  by rewrite !mem_app, Hk, Hv.
Qed.

Lemma split_getprop_dump (kvs : list (string * string)) :
  Forall plain_prop kvs ->
  Py.split Py.newline (getprop_dump kvs) = (prop_line <$> kvs) ++ [""].
Proof.
  induction 1 as [|kv kvs Hkv _ IH]; [done |].
  cbn [getprop_dump foldr]. fold (getprop_dump kvs).
  change (Py.nl +:+ getprop_dump kvs) with (String Py.newline (getprop_dump kvs)).
  rewrite split_app_sep by (by apply prop_line_no_newline).
  by rewrite IH.
Qed.

Lemma prop_line_nonempty (kv : string * string) : prop_line kv <> "".
Proof. unfold prop_line. by rewrite str_app_cons. Qed.

Lemma stdout_lines_getprop_dump (kvs : list (string * string)) :
  Forall plain_prop kvs -> stdout_lines (getprop_dump kvs) = prop_line <$> kvs.
Proof.
  intros Hkvs. unfold stdout_lines. rewrite split_getprop_dump by done.
  clear Hkvs. induction kvs as [|kv kvs IH]; [done |].
  cbn [fmap list_fmap app]. rewrite filter_cons_True.
  - cbn [fmap list_fmap]. rewrite strip_prop_line. f_equal. exact IH.
  - rewrite strip_prop_line. apply prop_line_nonempty.
Qed.

Lemma fold_props (kvs : list (string * string)) :
  Forall plain_prop kvs ->
  foldl (fun props raw_prop =>
           match match_prop raw_prop with
           | Some (k, v) => <[k := v]> props
           | None => props
           end) (∅ : gmap string string) (prop_line <$> kvs)
  = list_to_map (reverse kvs).
Proof.
  induction kvs as [|kv kvs IH] using rev_ind; [done |].
  intros [Hkvs [Hkv _]%Forall_cons]%Forall_app.
  rewrite fmap_app, foldl_app, reverse_app. cbn [fmap list_fmap foldl].
  rewrite match_prop_line by done. destruct kv as [k v].
  rewrite IH by done. done.
Qed.

End getprop_lines.

Section getprop_facts.

Context (X : Externals).

Lemma sh_adb_getprop w :
  faults (oracle w) (length (trace w)) = None ->
  sh_adb X ["-s"; dev_serial (dev w); "shell"; "getprop"] w
  = (Ok (dev_props (dev w)),
     log_event (Cmd "adb" ["-s"; dev_serial (dev w); "shell"; "getprop"] false) w).
Proof.
  intros Hq. unfold sh_adb, sh. rewrite Hq.
  rewrite decide_True by done. unfold adb_sim. rewrite decide_True by done.
  cbn [dev log_event]. rewrite decide_True by done.
  unfold adb_device_sim. by rewrite !decide_True by done.
Qed.

Lemma split_stdout_quiet s w :
  faults (oracle w) (length (trace w)) = None ->
  split_stdout X s w
  = (Ok (stdout_lines (iconv_utf8 X s)),
     log_event (Cmd "iconv" ["-c"; "-t"; "UTF-8"] false) w).
Proof.
  intros Hq. unfold split_stdout, strip_invalid_utf8, bind, sh. rewrite Hq.
  rewrite decide_False by done. by rewrite decide_True by done.
Qed.

(** X2: the dump of [getprop] is read back.  When the device prints one line
    [[key]: [value]] for each property of a list, keys and values not empty,
    on one line, the values without a closing bracket, and [iconv] leaves the
    dump as it is, then [adb_getprop_by_serialno] returns the dictionary of
    the list, a later line overriding an earlier one with the same key. *)
Theorem adb_getprop_reads_back (kvs : list (string * string)) w :
  Forall plain_prop kvs ->
  dev_props (dev w) = getprop_dump kvs ->
  iconv_utf8 X (getprop_dump kvs) = getprop_dump kvs ->
  faults (oracle w) (length (trace w)) = None ->
  faults (oracle w) (S (length (trace w))) = None ->
  exists w',
    adb_getprop_by_serialno X (dev_serial (dev w)) w
    = (Ok (list_to_map (reverse kvs)), w').
Proof.
  intros Hkvs Hdump Hutf Hq0 Hq1.
  unfold adb_getprop_by_serialno, bind.
  rewrite sh_adb_getprop by done.
  rewrite split_stdout_quiet
    by (cbn [oracle trace log_event]; rewrite length_app, Nat.add_1_r; exact Hq1).
  rewrite Hdump, Hutf, stdout_lines_getprop_dump, fold_props by done.
  unfold ret. eauto.
Qed.

End getprop_facts.

Section abis_facts.

Context (X : Externals).

Lemma join_cons (sep x y : string) (l : list string) :
  Py.join sep (x :: y :: l) = x +:+ sep +:+ Py.join sep (y :: l).
Proof. reflexivity. Qed.

(** Splitting what was joined gives the pieces back. *)
Lemma split_of_join (sep : ascii) (l : list string) :
  l <> [] -> Forall (fun p => Py.mem sep p = false) l ->
  Py.split sep (Py.join (String sep "") l) = l.
Proof.
  induction l as [|x l IH]; [done |]. intros _ [Hx Hl]%Forall_cons.
  destruct l as [|y l]; [by apply split_no_sep |].
  rewrite join_cons.
  change (String sep "" +:+ Py.join (String sep "") (y :: l))
    with (String sep (Py.join (String sep "") (y :: l))).
  rewrite split_app_sep by done. f_equal. by apply IH.
Qed.

(** X3: [adb_supported_abis] raises [KeyError] when the device has no
    property [ro.product.cpu.abilist]; otherwise it returns a list that is
    not empty, of entries without surrounding white space and without a
    comma, and when the property is [l] joined by commas (the entries of [l]
    being such entries) it returns [l]. *)
Theorem adb_supported_abis_spec serialno w (props : gmap string string) w1 :
  adb_getprop_by_serialno X serialno w = (Ok props, w1) ->
  match props !! "ro.product.cpu.abilist" with
  | None =>
      adb_supported_abis X serialno w
      = (Raise (KeyError "ro.product.cpu.abilist"), w1)
  | Some abilist_str =>
      exists abis,
        adb_supported_abis X serialno w = (Ok abis, w1)
        /\ abis <> []
        /\ Forall (fun abi => Py.strip abi = abi /\ Py.mem "," abi = false) abis
        /\ (forall l, l <> [] ->
              Forall (fun abi => Py.strip abi = abi /\ Py.mem "," abi = false) l ->
              abilist_str = Py.join "," l -> abis = l)
  end.
Proof.
  intros Hprops. unfold adb_supported_abis.
  rewrite (bind_ok _ _ _ _ _ Hprops). unfold getitem, bind.
  destruct (props !! "ro.product.cpu.abilist") as [abilist_str|]; [| done].
  unfold ret. eexists. split; [done |]. split_and!.
  - pose proof (split_length "," abilist_str) as Hlen.
    by destruct (Py.split _ _).
  - apply Forall_fmap, Forall_forall. intros p Hp. cbn.
    split; [apply strip_idemp |]. apply mem_strip.
    pose proof (split_pieces "," abilist_str) as Hpieces.
    rewrite Forall_forall in Hpieces. by apply Hpieces.
  - intros l Hne Hl ->. rewrite split_of_join.
    + clear Hne. induction Hl as [|x l [Hx _] _ IH]; [done |].
      cbn [fmap list_fmap]. by rewrite Hx, IH.
    + done.
    + eapply Forall_impl; [exact Hl |]. by intros p [_ ?].
Qed.

End abis_facts.

(** ** [adb_devices] and the lines of the dump *)

Section device_dump.

Context (X : Externals).

Lemma rstrip_rest (l : string) : exists t, l = Py.rstrip l +:+ t.
Proof.
  induction l as [|a r [t IH]]; [by exists "" |].
  rewrite rstrip_cons. destruct (Py.rstrip r) as [|b r'] eqn:Hr.
  - destruct (Ascii.is_space a); [by exists (String a r) | by exists r].
  - exists t. rewrite str_app_cons. by rewrite <- IH.
Qed.

Lemma rstrip_app_keep (a b : string) :
  Py.rstrip b <> "" -> Py.rstrip (a +:+ b) = a +:+ Py.rstrip b.
Proof.
  intros Hb. induction a as [|x a IH]; [done |].
  rewrite !str_app_cons, rstrip_cons, IH.
  destruct (a +:+ Py.rstrip b) as [|y r] eqn:Hr; [| done].
  destruct a; [| done]. by rewrite str_app_nil_l in Hr.
Qed.

(** White space at the end of a line makes no difference to the pattern. *)
Lemma device_line_rstrip (line serial : string) :
  device_line (Py.rstrip line) serial <-> device_line line serial.
Proof.
  split.
  - intros (space & rest & Hl & Hrest). destruct (rstrip_rest line) as [t Ht].
    exists space, (rest +:+ t). split; [| done].
    rewrite Ht, Hl. by rewrite !str_app_assoc.
  - intros (space & rest & -> & Hrest).
    destruct (rstrip_head "e" rest eq_refl) as [r Hr].
    exists space, r. split; [| done].
    change ("device" +:+ rest) with ("devic" +:+ String "e" rest).
    rewrite <- !str_app_assoc. rewrite rstrip_app_keep by (by rewrite Hr).
    rewrite Hr. by rewrite !str_app_assoc.
Qed.

Lemma listed_rstrip (lines serials : list string) :
  Forall (fun l => Py.lstrip l = l) lines ->
  listed (Py.strip <$> lines) serials -> listed lines serials.
Proof.
  intros Hl. revert serials.
  induction Hl as [|l lines Hhead _ IH]; intros serials H; [done |].
  rewrite fmap_cons in H. unfold Py.strip at 1 in H. rewrite Hhead in H.
  inversion H as [|? s ? ss Hm Hrest|? ? ? Hno Hrest]; subst.
  - apply listed_match; [by apply device_line_rstrip | by apply IH].
  - apply listed_skip; [| by apply IH].
    intros s Hs. apply (Hno s). by apply device_line_rstrip.
Qed.

Lemma match_device_empty : match_device "" = None.
Proof. reflexivity. Qed.

Lemma omap_match_device_cons (l : string) (lines : list string) :
  omap match_device (l :: lines)
  = match match_device l with
    | Some serial => serial :: omap match_device lines
    | None => omap match_device lines
    end.
Proof. reflexivity. Qed.

Lemma omap_match_device_filter (lines : list string) :
  omap match_device (Py.strip <$> filter (fun l => Py.strip l <> "") lines)
  = omap match_device (Py.strip <$> lines).
Proof.
  induction lines as [|l lines IH]; [done |].
  rewrite filter_cons. destruct (decide (Py.strip l <> "")) as [Hl | Hl].
  - by rewrite !fmap_cons, !omap_match_device_cons, IH.
  - apply dec_stable in Hl.
    by rewrite fmap_cons, omap_match_device_cons, Hl, match_device_empty.
Qed.

Lemma stdout_lines_join (lines : list string) :
  Forall (fun l => Py.mem Py.newline l = false) lines ->
  omap match_device (stdout_lines (Py.join Py.nl lines))
  = omap match_device (Py.strip <$> lines).
Proof.
  intros Hl. unfold stdout_lines. destruct lines as [|l lines]; [done |].
  unfold Py.nl. rewrite split_of_join by done.
  apply omap_match_device_filter.
Qed.

(** C7: for every dump of [adb devices] and its lines, when the two
    commands [adb devices] and [iconv] run and the dump is text that [iconv]
    leaves as it is, [adb_devices] returns the captures of exactly those
    lines that match [<serial> device] once the white space around them is
    removed, in the order of the lines, and passes over every other line; so
    a dump with [k] matching lines yields [k] serials.  When no line begins
    with white space, these are the lines that match as they stand. *)
Theorem adb_devices_lists_matching_lines w (lines : list string) :
  faults (oracle w) (length (trace w)) = None ->
  faults (oracle w) (S (length (trace w))) = None ->
  devices_dump (oracle w) = Py.join Py.nl lines ->
  Forall (fun l => Py.mem Py.newline l = false) lines ->
  iconv_utf8 X (devices_dump (oracle w)) = devices_dump (oracle w) ->
  exists serials w',
    adb_devices X w = (Ok serials, w')
    /\ listed (Py.strip <$> lines) serials
    /\ length serials
       = length (filter (fun l => exists serial, device_line l serial)
                   (Py.strip <$> lines))
    /\ (Forall (fun l => Py.lstrip l = l) lines -> listed lines serials).
Proof.
  intros Hf1 Hf2 Hdump Hlines Hutf8.
  exists (omap match_device (Py.strip <$> lines)). eexists. split.
  - unfold adb_devices, split_stdout, strip_invalid_utf8, bind, sh_adb, sh.
    rewrite Hf1. rewrite decide_True by done.
    unfold adb_sim. rewrite decide_True by done.
    cbn [oracle trace log_event].
    rewrite length_app, Nat.add_1_r, Hf2.
    rewrite decide_False by done. rewrite decide_True by done.
    cbn [from_option id oracle log_event]. rewrite Hutf8, Hdump. unfold ret.
    by rewrite stdout_lines_join.
  - split; [apply listed_omap |]. split; [apply listed_length, listed_omap |].
    intros Hl. apply listed_rstrip; [done | apply listed_omap].
Qed.

End device_dump.

(** ** [get_cpu_mask] on a device *)

Section cpu_mask_device.

Context (X : Externals).

(** X17: whenever [get_cpu_mask] returns, at least one core was read, the
    mask is positive and below [2 ^ cores], its bit [i] is set exactly when
    core [i] has the greatest frequency, and the result is the mask in
    hexadecimal digits, followed by [L] when the mask is above
    [sys.maxint]. *)
Theorem get_cpu_mask_selects_a_core fuel serialno w (s : string) w1 :
  get_cpu_mask X fuel serialno w = (Ok s, w1) ->
  exists freq_list top mask,
    read_cpu_freqs X fuel serialno 0 [] w = (Ok freq_list, w1)
    /\ Py.max freq_list = Some top
    /\ 0 < mask < 2 ^ Z.of_nat (length freq_list)
    /\ (forall i : nat,
          Z.testbit mask (Z.of_nat i) = true <-> freq_list !! i = Some top)
    /\ s = Py.hex_digits mask +:+ (if sys_maxint X <? mask then "L" else "").
Proof.
  unfold get_cpu_mask. intros Hrun. run_ok Hrun.
  rename a into freq_list. exists freq_list.
  assert (w0 = w1 /\ freq_list <> []) as [-> Hne].
  { unfold render_cpu_mask in Hrun. destruct freq_list; [done |].
    destruct (Py.int2 _); [| done]. by injection Hrun as _ <-. }
  destruct (py_max_spec freq_list Hne) as (top & Hmax & Hin & Hle).
  set (bits := (fun freq => bool_decide (Some freq = Py.max freq_list)) <$> freq_list).
  exists top, (mask_value bits). split; [done |]. split; [done |]. split_and!.
  - apply mask_value_pos. unfold bits. apply list_elem_of_fmap.
    exists top. split; [| done]. by rewrite bool_decide_eq_true_2.
  - pose proof (mask_value_bound bits) as Hb. unfold bits in Hb at 2.
    rewrite length_fmap in Hb. lia.
  - intros i. rewrite mask_value_testbit. unfold bits.
    rewrite list_lookup_fmap, Hmax.
    destruct (freq_list !! i) as [f|]; cbn; [| done].
    rewrite bool_decide_eq_true. split; congruence.
  - unfold render_cpu_mask in Hrun. rewrite cpu_mask_string_bits in Hrun.
    fold bits in Hrun.
    rewrite int2_bits_str in Hrun by (unfold bits; by destruct freq_list).
    by injection Hrun as <-.
Qed.

Lemma read_cpu_freqs_leading (rest : list Z) fuel cpu_id freq_list w :
  Forall2 (fun s f => Py.int s = Some f)
    (take (length rest) (drop cpu_id (dev_cpufreq (dev w)))) rest ->
  (forall s, dev_cpufreq (dev w) !! (cpu_id + length rest)%nat = Some s ->
             Py.int s = None) ->
  (forall k, (k <= length rest)%nat ->
             faults (oracle w) (length (trace w) + k) = None) ->
  (length rest < fuel)%nat ->
  exists w',
    read_cpu_freqs X fuel (dev_serial (dev w)) cpu_id freq_list w
    = (Ok (freq_list ++ rest), w')
    /\ trace w' = trace w ++ (cat_cpufreq (dev_serial (dev w))
                                <$> seq cpu_id (S (length rest))).
Proof.
  revert fuel cpu_id freq_list w.
  induction rest as [|f rest IH]; intros fuel cpu_id freq_list w Hcores Hstop Hquiet Hfuel;
    (destruct fuel as [|fuel]; [cbn in Hfuel; lia |]);
    cbn [read_cpu_freqs]; unfold try_except_else, bind;
    rewrite sh_adb_cat_cpufreq_eq
      by (rewrite <- (Nat.add_0_r (length (trace w))); apply Hquiet; lia).
  - cbn [length] in Hstop. rewrite Nat.add_0_r in Hstop.
    rewrite app_nil_r.
    destruct (dev_cpufreq (dev w) !! cpu_id) as [s|] eqn:Hs.
    + rewrite (Hstop s eq_refl). unfold raise. cbn. eauto.
    + cbn. eauto.
  - apply Forall2_cons_inv_r in Hcores as (s & strs & Hs & Hrest & Htake).
    assert (dev_cpufreq (dev w) !! cpu_id = Some s) as Hcore.
    { rewrite <- (Nat.add_0_r cpu_id), <- lookup_drop.
      rewrite <- (lookup_take_lt _ (length (f :: rest))) by (cbn; lia).
      by rewrite Htake. }
    rewrite Hcore, Hs. unfold ret.
    set (w1 := log_event _ w).
    destruct (IH fuel (S cpu_id) (freq_list ++ [f]) w1) as (w' & Hrun & Htrace).
    + cbn [dev w1 log_event].
      assert (drop cpu_id (dev_cpufreq (dev w))
              = s :: drop (S cpu_id) (dev_cpufreq (dev w))) as Hd.
      { by apply drop_S. }
      rewrite Hd in Htake. cbn in Htake. injection Htake as Htake.
      by rewrite Htake.
    + cbn [dev w1 log_event]. intros s' Hs'. apply Hstop.
      rewrite <- Hs'. f_equal. cbn. lia.
    + intros k Hk. cbn [oracle trace w1 log_event].
      rewrite length_app. cbn [length]. rewrite <- Nat.add_assoc. apply Hquiet.
      cbn. lia.
    + cbn in Hfuel. lia.
    + exists w'. cbn [dev w1 log_event] in Hrun, Htrace. rewrite Hrun.
      split; [by rewrite <- app_assoc |].
      rewrite Htrace. cbn [trace w1 log_event]. by rewrite <- app_assoc.
Qed.

(** X18: [get_cpu_mask] reads the cores in order and stops at the first one
    whose file is missing or holds no number: when the first [n] cores of
    the device are readable and core [n] is not, exactly the [n + 1] reads of
    the cores [0] to [n] are issued, the frequencies are those of the first
    [n] cores, and a core behind the gap is never looked at. *)
Theorem get_cpu_mask_stops_at_first_gap (freqs : list Z) fuel w :
  Forall2 (fun s f => Py.int s = Some f)
    (take (length freqs) (dev_cpufreq (dev w))) freqs ->
  (forall s, dev_cpufreq (dev w) !! length freqs = Some s -> Py.int s = None) ->
  (forall k, (k <= length freqs)%nat ->
             faults (oracle w) (length (trace w) + k) = None) ->
  (length freqs < fuel)%nat ->
  exists w',
    read_cpu_freqs X fuel (dev_serial (dev w)) 0 [] w = (Ok freqs, w')
    /\ trace w' = trace w ++ (cat_cpufreq (dev_serial (dev w))
                                <$> seq 0 (S (length freqs)))
    /\ get_cpu_mask X fuel (dev_serial (dev w)) w
       = render_cpu_mask X (cpu_mask_string freqs) w'.
Proof.
  intros Hcores Hstop Hquiet Hfuel.
  destruct (read_cpu_freqs_leading freqs fuel 0 [] w) as (w' & Hrun & Htrace);
    [by rewrite drop_0 | done | done | done |].
  exists w'. split; [done |]. split; [done |].
  unfold get_cpu_mask. by rewrite (bind_ok _ _ _ _ _ Hrun).
Qed.

End cpu_mask_device.

(** ** The lock discipline *)

Section traces_facts.

Context {A B : Type} (P : event -> Prop).

Lemma emits_traces (m : M A) : emits P m -> traces P m.
Proof. intros Hm w r w' Hrun. by destruct (Hm _ _ _ Hrun) as (_ & ?). Qed.

Lemma traces_bind (m : M A) (k : A -> M B) :
  traces P m -> (forall a, traces P (k a)) -> traces P (bind m k).
Proof.
  intros Hm Hk w r w' Hrun. run_cases Hrun; [| by eapply Hm | by eapply Hm].
  destruct (Hm _ _ _ Hrun0) as (es1 & He1 & HP1).
  destruct (Hk _ _ _ _ Hrun) as (es2 & He2 & HP2).
  exists (es1 ++ es2). split; [by eapply extends_trans | by apply Forall_app].
Qed.

Lemma traces_weaken (Q : event -> Prop) (m : M A) :
  (forall e, Q e -> P e) -> traces Q m -> traces P m.
Proof.
  intros HQ Hm w r w' Hrun. destruct (Hm _ _ _ Hrun) as (es & ? & Hes).
  exists es. split; [done |]. eapply Forall_impl; eauto.
Qed.

End traces_facts.

Section lock_after_facts.

Context (path : string).

Lemma lock_after_app held es1 es2 :
  lock_after path held (es1 ++ es2)
  = lock_after path held es1 ≫= fun h => lock_after path h es2.
Proof.
  revert held. induction es1 as [|e es1 IH]; intros held; [done |].
  destruct e as [prog args [|]| p | p | p | secs | url file]; cbn;
    repeat case_match; auto.
Qed.

Lemma lock_after_held es :
  Forall is_command es -> lock_after path true es = Some true.
Proof.
  induction 1 as [|e es He _ IH]; [done |].
  destruct e as [prog args [|]| | | | |]; try done; cbn.
  by rewrite andb_false_r.
Qed.

Lemma lock_after_free es :
  Forall is_setup es -> lock_after path false es = Some false.
Proof.
  induction 1 as [|e es He _ IH]; [done |].
  destruct e as [prog args [|]| | | | |]; try done; cbn.
  destruct He as [|He]; [done |]. by rewrite bool_decide_eq_false_2.
Qed.

End lock_after_facts.

Section lock_discipline.

Context (X : Externals)
        (abi serialno host_bin_path bin_name : string)
        (benchmark_option : Z)
        (input_dir : string)
        (run_interval num_threads : Z)
        (max_time_per_lock : Q)
        (push_list : list string)
        (benchmark_list : list Job)
        (executors : list Z)
        (device_bin_path output_dir : string).

#[local] Abbreviation batch :=
  (run_batch X serialno benchmark_option run_interval num_threads
     max_time_per_lock benchmark_list device_bin_path).
#[local] Abbreviation stage :=
  (stage_device X abi serialno host_bin_path bin_name benchmark_option
     input_dir push_list executors device_bin_path).
#[local] Abbreviation hold :=
  (lock_hold X abi serialno host_bin_path bin_name benchmark_option input_dir
     run_interval num_threads max_time_per_lock push_list benchmark_list
     executors device_bin_path).
#[local] Abbreviation sched :=
  (schedule X abi serialno host_bin_path bin_name benchmark_option input_dir
     run_interval num_threads max_time_per_lock push_list benchmark_list
     executors device_bin_path).
#[local] Abbreviation run :=
  (adb_run X abi serialno host_bin_path bin_name benchmark_option input_dir
     run_interval num_threads max_time_per_lock push_list benchmark_list
     executors device_bin_path output_dir).
#[local] Abbreviation job_run :=
  (invokes serialno benchmark_option run_interval num_threads device_bin_path).
#[local] Abbreviation lock := (device_lock_path serialno).

Lemma is_setup_command e : is_setup e -> is_command e.
Proof. by destruct e. Qed.

Lemma traces_run_batch rounds cpu_mask start_time elapse_minutes i :
  traces is_command (batch rounds cpu_mask start_time elapse_minutes i).
Proof.
  revert elapse_minutes i.
  induction rounds as [|rounds IH]; intros elapse_minutes i; cbn [run_batch];
    destruct (_ && _).
  - intros w r w' [= <- <-]. exists []. split; [apply extends_refl | done].
  - apply emits_traces. auto with emits.
  - repeat first [ apply traces_bind; [apply emits_traces; auto with emits |]; intros
                 | apply IH ].
  - apply emits_traces. auto with emits.
Qed.

Lemma traces_get_cpu_mask cpu_fuel :
  traces is_command (get_cpu_mask X cpu_fuel serialno).
Proof.
  intros w r w' Hrun.
  destruct (get_cpu_mask_run _ _ _ _ _ _ Hrun) as (es & Hes & Hsetup & _).
  exists es. split; [done |]. eapply Forall_impl; [exact Hsetup |].
  apply is_setup_command.
Qed.

Lemma traces_lock_hold cpu_fuel props product_model target_soc i :
  traces is_command (hold cpu_fuel props product_model target_soc i).
Proof.
  unfold lock_hold.
  apply traces_bind; [apply emits_traces; auto with emits |]. intros start_time.
  apply traces_bind.
  { apply emits_traces. eapply emits_weaken; [apply is_setup_command |].
    apply emits_stage_device. }
  intros _. apply traces_bind; [apply traces_get_cpu_mask |]. intros cpu_mask.
  apply traces_bind; [apply traces_run_batch |]. intros [elapse_minutes i'].
  apply emits_traces. emits_structure; auto with emits.
Qed.

(** One round: the lock is taken and given back around commands. *)
Lemma locked_hold_discipline cpu_fuel props product_model target_soc i w r w' :
  with_device_lock serialno (hold cpu_fuel props product_model target_soc i) w
  = (r, w') ->
  exists es held,
    extends w w' es /\ lock_after lock false es = Some held
    /\ (r <> OutOfFuel -> held = false).
Proof.
  intros [(e & -> & Hw) | (r0 & w1 & w2 & Hacq & Hbody & -> & Hend)]%with_device_lock_run.
  { by exists [AcquireTimeout lock], false. }
  destruct (traces_lock_hold _ _ _ _ _ _ _ _ Hbody) as (es & Hes & Hcmds).
  pose proof (extends_trans _ _ _ [_] _ Hacq Hes) as Hw2.
  destruct Hend as [[-> ->] | [Hr0 Hrel]].
  - eexists _, true. split; [exact Hw2 |]. split; [| done].
    cbn. rewrite bool_decide_eq_true_2 by done. by apply lock_after_held.
  - pose proof (extends_trans _ _ _ _ [_] Hw2 Hrel) as Hw'.
    eexists _, false. split; [exact Hw' |]. split; [| done].
    rewrite lock_after_app. cbn. rewrite bool_decide_eq_true_2 by done.
    by rewrite lock_after_held.
Qed.

Lemma schedule_discipline fuel cpu_fuel props product_model target_soc i w r w' :
  sched fuel cpu_fuel props product_model target_soc i w = (r, w') ->
  exists es held,
    extends w w' es /\ lock_after lock false es = Some held
    /\ (r <> OutOfFuel -> held = false).
Proof.
  revert i w r w'.
  induction fuel as [|fuel IH]; intros i w r w' Hrun; cbn [schedule] in Hrun;
    (destruct (bool_decide (i < length benchmark_list)%nat);
     [| injection Hrun as <- <-; exists [], false;
        split_and!; [apply extends_refl | done | done] ]).
  { injection Hrun as <- <-. exists [], false.
    split_and!; [apply extends_refl | done | done]. }
  unfold bind at 1 2, print at 1 2 in Hrun.
  set (w0 := log_line _ (log_line _ w)) in Hrun.
  assert (extends w w0 []) as Hw0.
  { eapply extends_nil_l; apply extends_log_line. }
  run_cases Hrun.
  - destruct (locked_hold_discipline _ _ _ _ _ _ _ _ Hrun0)
      as (es1 & held & Hes1 & Hlock1 & Hfree).
    rewrite Hfree in Hlock1 by done.
    pose proof (extends_nil_l _ _ _ _ Hw0 Hes1) as Hw1.
    clear Hes1 Hrun0 Hfree held.
    run_cases Hrun.
    + assert (extends w1 w2 [Sleep run_interval]) as Hes2.
      { unfold time_sleep in Hrun0. destruct (_ <? _); [done |].
        injection Hrun0 as _ <-. apply extends_log_event. }
      destruct (IH _ _ _ _ Hrun) as (es3 & held & Hes3 & Hlock3 & Hfree).
      exists ((es1 ++ [Sleep run_interval]) ++ es3), held. split_and!.
      * eapply extends_trans; [| exact Hes3]. by eapply extends_trans.
      * rewrite !lock_after_app, Hlock1. cbn. exact Hlock3.
      * exact Hfree.
    + exists es1, false. split_and!; [| done | done].
      unfold time_sleep in Hrun. destruct (_ <? _); [| done].
      by injection Hrun as _ <-.
    + unfold time_sleep in Hrun. by destruct (_ <? _).
  - destruct (locked_hold_discipline _ _ _ _ _ _ _ _ Hrun)
      as (es1 & held & Hes1 & Hlock1 & Hfree).
    exists es1, held. split_and!; [by eapply extends_nil_l | done |].
    intros Hr. first [done | by apply Hfree].
  - destruct (locked_hold_discipline _ _ _ _ _ _ _ _ Hrun)
      as (es1 & held & Hes1 & Hlock1 & Hfree).
    exists es1, held. split_and!; [by eapply extends_nil_l | done |].
    intros Hr. first [done | by apply Hfree].
Qed.

Lemma traces_adb_getprop : traces is_setup (adb_getprop_by_serialno X serialno).
Proof. apply emits_traces, emits_adb_getprop, is_setup_plain. Qed.

Lemma traces_adb_pull src dst : traces is_setup (adb_pull X src dst serialno).
Proof. apply emits_traces, emits_adb_pull, is_setup_plain. Qed.

(** X20: [adb_run] keeps the lock discipline.  Along its events the device
    lock is taken only when free and released only when held, a benchmark is
    invoked only while the lock is held, and [adb_run] sleeps only while the
    lock is free; when [adb_run] returns or raises, the lock is free. *)
Theorem adb_run_lock_discipline fuel cpu_fuel w r w' :
  run fuel cpu_fuel w = (r, w') ->
  exists es held,
    trace w' = trace w ++ es
    /\ lock_after (device_lock_path serialno) false es = Some held
    /\ (r <> OutOfFuel -> held = false).
Proof.
  intros Hrun. unfold adb_run in Hrun.
  assert (forall es (r : result string) w0,
            extends w w0 es -> Forall is_setup es ->
            exists es held,
              trace w0 = trace w ++ es
              /\ lock_after lock false es = Some held
              /\ (r <> OutOfFuel -> held = false)) as Hearly.
  { intros es r0 w0 Hes Hsetup. exists es, false.
    split_and!; [by destruct Hes | by apply lock_after_free | done]. }
  run_cases Hrun.
  2: { eapply (Hearly [_]); [by eapply sh_extends | by repeat constructor]. }
  2: { by apply sh_total in Hrun. }
  pose proof (sh_extends _ _ _ _ _ _ _ _ Hrun0) as Hw0. clear Hrun0.
  set (c1 := Cmd "adb" _ false) in Hw0.
  assert (forall es, Forall is_setup es -> Forall is_setup ([c1] ++ es)) as Hc1.
  { intros es Hes. apply Forall_cons. split; [by left | done]. }
  assert (forall (r0 : result (gmap string string)) w1,
            adb_getprop_by_serialno X serialno w0 = (r0, w1) ->
            exists es, extends w w1 es /\ Forall is_setup es) as Hprops.
  { intros r0 w1 Hr0. destruct (traces_adb_getprop _ _ _ Hr0) as (es & Hes & Hsetup).
    exists ([c1] ++ es). split; [by eapply extends_trans | by apply Hc1]. }
  run_cases Hrun.
  2: { destruct (Hprops _ _ Hrun) as (es & Hes & Hsetup). by eapply Hearly. }
  2: { destruct (Hprops _ _ Hrun) as (es & Hes & Hsetup). by eapply Hearly. }
  destruct (Hprops _ _ Hrun0) as (pre & Hw1 & Hsetup).
  clear Hrun0 Hw0 Hprops Hc1 c1.
  apply bind_silent_run in Hrun as [(product_model & w2 & Hw2 & Hrun) | [[e ->] Hw]];
    [| eapply Hearly; [by eapply extends_nil_r | done]
     | apply emits_getitem].
  apply bind_silent_run in Hrun as [(target_soc & w3 & Hw3 & Hrun) | [[e ->] Hw]];
    [| eapply Hearly;
       [eapply extends_nil_r; [| exact Hw]; by eapply extends_nil_r | done]
     | apply emits_getitem].
  assert (extends w w3 pre) as Hpre.
  { eapply extends_nil_r; [| exact Hw3]. by eapply extends_nil_r. }
  clear Hw1 Hw2 Hw3 Hearly.
  assert (forall (r0 : result unit) w4,
            sched fuel cpu_fuel a0 product_model target_soc 0 w3 = (r0, w4) ->
            exists es held,
              extends w w4 es /\ lock_after lock false es = Some held
              /\ (r0 <> OutOfFuel -> held = false)) as Hsched.
  { intros r0 w4 Hr0.
    destruct (schedule_discipline _ _ _ _ _ _ _ _ _ Hr0) as (es & held & Hes & Hlock & Hfree).
    exists (pre ++ es), held. split_and!; [by eapply extends_trans | | exact Hfree].
    by rewrite lock_after_app, lock_after_free. }
  run_cases Hrun.
  2: { destruct (Hsched _ _ Hrun) as (es & held & Hes & Hlock & Hfree).
       exists es, held. split_and!; [by destruct Hes | done |].
       intros Hr. first [done | by apply Hfree]. }
  2: { destruct (Hsched _ _ Hrun) as (es & held & Hes & Hlock & Hfree).
       exists es, held. split_and!; [by destruct Hes | done |].
       intros Hr. first [done | by apply Hfree]. }
  destruct (Hsched _ _ Hrun0) as (es & held & Hes & Hlock & Hfree).
  rewrite Hfree in Hlock by done. clear Hfree held Hsched Hrun0.
  assert (forall (r0 : result unit) w5,
            adb_pull X (device_bin_path +:+ "/result.txt")
              (result_path abi output_dir product_model target_soc) serialno w4
            = (r0, w5) ->
            exists es held,
              trace w5 = trace w ++ es /\ lock_after lock false es = Some held
              /\ held = false) as Hpull.
  { intros r0 w5 Hr0. destruct (traces_adb_pull _ _ _ _ _ Hr0) as (es3 & Hes3 & Hsetup3).
    exists (es ++ es3), false. split_and!; [| | done].
    - by destruct (extends_trans _ _ _ _ _ Hes Hes3).
    - by rewrite lock_after_app, Hlock; cbn; apply lock_after_free. }
  run_cases Hrun.
  - injection Hrun as <- <-.
    destruct (Hpull _ _ Hrun0) as (es' & held & ? & ? & ->). by exists es', false.
  - destruct (Hpull _ _ Hrun) as (es' & held & ? & ? & ->). by exists es', false.
  - destruct (Hpull _ _ Hrun) as (es' & held & ? & ? & ->). by exists es', false.
Qed.

End lock_discipline.

(** ** [adb_run]: progress, start and end *)

Section adb_run_edges.

Context (X : Externals)
        (abi serialno host_bin_path bin_name : string)
        (benchmark_option : Z)
        (input_dir : string)
        (run_interval num_threads : Z)
        (max_time_per_lock : Q)
        (push_list : list string)
        (benchmark_list : list Job)
        (executors : list Z)
        (device_bin_path output_dir : string).

#[local] Abbreviation hold :=
  (lock_hold X abi serialno host_bin_path bin_name benchmark_option input_dir
     run_interval num_threads max_time_per_lock push_list benchmark_list
     executors device_bin_path).
#[local] Abbreviation sched :=
  (schedule X abi serialno host_bin_path bin_name benchmark_option input_dir
     run_interval num_threads max_time_per_lock push_list benchmark_list
     executors device_bin_path).
#[local] Abbreviation run :=
  (adb_run X abi serialno host_bin_path bin_name benchmark_option input_dir
     run_interval num_threads max_time_per_lock push_list benchmark_list
     executors device_bin_path output_dir).
#[local] Abbreviation job_run :=
  (invokes serialno benchmark_option run_interval num_threads device_bin_path).
#[local] Abbreviation clean_up :=
  (Cmd "adb" ["-s"; serialno; "shell";
              "rm -rf " +:+ Py.path_join device_bin_path "result.txt"] false).

(** X19: with a positive [max_time_per_lock] and a pending job [i], a lock
    hold that ends normally has taken the lock once and has invoked job [i]
    first (with the command the module builds, which is the command line of
    the job), then the jobs up to the index it returns, which is beyond
    [i]. *)
Theorem lock_hold_runs_a_job cpu_fuel props product_model target_soc i i' w w' :
  (0 < max_time_per_lock)%Q ->
  (i < length benchmark_list)%nat ->
  with_device_lock serialno (hold cpu_fuel props product_model target_soc i) w
  = (Ok i', w') ->
  (i < i')%nat
  /\ exists es item args rest,
       trace w' = trace w ++ es /\ lock_holds es = 1%nat
       /\ Forall2 job_run (runs_of es) (jobs_between i i' benchmark_list)
       /\ benchmark_list !! i = Some item
       /\ runs_of es = args :: rest /\ job_run args item
       /\ runs_job serialno benchmark_option run_interval num_threads
            device_bin_path args item.
Proof.
  intros Hmax Hpending Hrun.
  apply locked_hold_run in Hrun
    as (es & n & Hes & Hn & Hjobs & _ & Hin & Hlocks & Hprogress).
  subst n. specialize (Hprogress Hmax Hpending). split; [done |].
  destruct (lookup_lt_is_Some_2 benchmark_list i Hpending) as [item Hitem].
  rewrite (jobs_between_app i (S i) i') in Hjobs by lia.
  rewrite (jobs_between_one _ _ _ Hitem) in Hjobs.
  apply Forall2_cons_inv_r in Hjobs as (args & rest & Hinv & Hrest & Hruns).
  exists es, item, args, rest. split_and!; try done.
  - by destruct Hes.
  - rewrite Hruns. rewrite (jobs_between_app i (S i) i') by lia.
    rewrite (jobs_between_one _ _ _ Hitem). by constructor.
  - by apply invokes_runs_job.
Qed.

Lemma adb_run_start fuel cpu_fuel w (out : string) w0 (props : gmap string string) w1 :
  sh_adb X ["-s"; serialno; "shell";
            "rm -rf " +:+ Py.path_join device_bin_path "result.txt"] w = (Ok out, w0) ->
  adb_getprop_by_serialno X serialno w0 = (Ok props, w1) ->
  trace w1 = trace w ++ [clean_up;
                         Cmd "adb" ["-s"; serialno; "shell"; "getprop"] false;
                         Cmd "iconv" ["-c"; "-t"; "UTF-8"] false]
  /\ run fuel cpu_fuel w
     = (let! product_model := getitem props "ro.product.model" in
        let! target_soc := getitem props "ro.board.platform" in
        sched fuel cpu_fuel props product_model target_soc 0 >>
        let src_path := device_bin_path +:+ "/result.txt" in
        let dest_path := result_path abi output_dir product_model target_soc in
        adb_pull X src_path dest_path serialno >>
        ret dest_path) w1.
Proof.
  intros Hrm Hprops. split.
  - destruct (sh_extends _ _ _ _ _ _ _ _ Hrm) as (Hw0 & _).
    destruct (adb_getprop_trace _ _ _ _ _ Hprops) as (_ & es & Hes & _ & _ & _ & Hshape).
    destruct Hes as (-> & _). rewrite Hw0, (Hshape props eq_refl).
    by rewrite <- app_assoc.
  - unfold adb_run. rewrite (bind_ok _ _ _ _ _ Hrm).
    by rewrite (bind_ok _ _ _ _ _ Hprops).
Qed.

(** X21: when the property dump of the device lacks [ro.product.model], or
    has it and lacks [ro.board.platform], [adb_run] raises [KeyError] for
    that key after three commands (the removal of the old result file,
    [getprop], [iconv]): the lock is not taken and nothing is staged or
    run. *)
Theorem adb_run_needs_model_and_platform fuel cpu_fuel w (out : string) w0
    (props : gmap string string) w1 key :
  sh_adb X ["-s"; serialno; "shell";
            "rm -rf " +:+ Py.path_join device_bin_path "result.txt"] w = (Ok out, w0) ->
  adb_getprop_by_serialno X serialno w0 = (Ok props, w1) ->
  (key = "ro.product.model" /\ props !! "ro.product.model" = None)
  \/ (key = "ro.board.platform" /\ is_Some (props !! "ro.product.model")
      /\ props !! "ro.board.platform" = None) ->
  run fuel cpu_fuel w = (Raise (KeyError key), w1)
  /\ trace w1 = trace w ++ [clean_up;
                            Cmd "adb" ["-s"; serialno; "shell"; "getprop"] false;
                            Cmd "iconv" ["-c"; "-t"; "UTF-8"] false].
Proof.
  intros Hrm Hprops Hkey.
  destruct (adb_run_start fuel cpu_fuel _ _ _ _ _ Hrm Hprops) as [Htrace ->].
  split; [| done]. unfold bind, getitem.
  destruct Hkey as [[-> ->] | (-> & [pm ->] & ->)]; done.
Qed.

(** X22: when [adb_run] returns, its first command removed the old result
    file of the device, its last command pulled [result.txt] from
    [device_bin_path] to the path it returns, and that path is
    [<output_dir>/<model>_<platform>_<abi>_result.txt] for the model and the
    platform among the properties that [adb_getprop_by_serialno] read from
    the device right after that first command. *)
Theorem adb_run_pulls_results_last fuel cpu_fuel w path w' :
  run fuel cpu_fuel w = (Ok path, w') ->
  exists out w0 props w1 product_model target_soc es,
    sh_adb X ["-s"; serialno; "shell";
              "rm -rf " +:+ Py.path_join device_bin_path "result.txt"] w
    = (Ok out, w0)
    /\ adb_getprop_by_serialno X serialno w0 = (Ok props, w1)
    /\ props !! "ro.product.model" = Some product_model
    /\ props !! "ro.board.platform" = Some target_soc
    /\ path = output_dir +:+ "/" +:+ product_model +:+ "_" +:+ target_soc
                +:+ "_" +:+ abi +:+ "_result.txt"
    /\ trace w' = trace w ++ [clean_up] ++ es
                    ++ [Cmd "adb" ["-s"; serialno; "pull";
                                   device_bin_path +:+ "/result.txt"; path] false].
Proof.
  intros Hrun. unfold adb_run in Hrun.
  run_ok Hrun. rename w0 into w0'. rename a into out.
  pose proof (sh_extends _ _ _ _ _ _ _ _ Hrun0) as Hw0.
  run_ok Hrun. rename a into props.
  pose proof Hrun1 as Hgetprop.
  apply traces_adb_getprop in Hgetprop as (es1 & Hes1 & _).
  exists out, w0', props, w0.
  run_ok Hrun. rename a into product_model.
  run_ok Hrun. rename a into target_soc.
  exists product_model, target_soc.
  unfold getitem in Hrun2, Hrun3.
  destruct (props !! "ro.product.model") as [pm|] eqn:Hpm; [| done].
  destruct (props !! "ro.board.platform") as [soc|] eqn:Hsoc; [| done].
  injection Hrun2 as -> ->. injection Hrun3 as -> ->.
  run_ok Hrun.
  apply schedule_discipline in Hrun2 as (es2 & _ & Hes2 & _).
  run_ok Hrun. injection Hrun as <- <-.
  match goal with H : adb_pull _ _ _ _ _ = _ |- _ => apply adb_pull_trace in H as (_ & Hes3) end.
  exists (es1 ++ es2). split_and!; try done.
  destruct Hw0 as (Ht0 & _), Hes1 as (Ht1 & _), Hes2 as (Ht2 & _), Hes3 as (Ht3 & _).
  rewrite Ht3, Ht2, Ht1, Ht0. unfold result_path. by rewrite <- !app_assoc.
Qed.

Lemma locked_hold_once cpu_fuel props product_model target_soc i w r w' :
  with_device_lock serialno (hold cpu_fuel props product_model target_soc i) w
  = (r, w') ->
  exists es, extends w w' es /\ (lock_holds es <= 1)%nat
             /\ Forall (fun e => forall secs, e <> Sleep secs) es.
Proof.
  assert (forall es, Forall is_command es ->
            lock_holds es = 0%nat /\ Forall (fun e => forall secs, e <> Sleep secs) es)
    as Hcmds.
  { induction 1 as [|e es He _ [IH1 IH2]]; [done |].
    destruct e; try done; (split; [exact IH1 | by constructor]). }
  intros [(e & -> & Hw) | (r0 & w1 & w2 & Hacq & Hbody & -> & Hend)]%with_device_lock_run.
  { exists [AcquireTimeout (device_lock_path serialno)].
    split_and!; [done | cbn; lia | by repeat constructor]. }
  apply traces_lock_hold in Hbody as (es & Hes & [Hlocks Hawake]%Hcmds).
  pose proof (extends_trans _ _ _ [_] _ Hacq Hes) as Hw2.
  destruct Hend as [[-> ->] | [Hr0 Hrel]].
  - eexists. split; [exact Hw2 |]. rewrite lock_holds_app, Hlocks.
    split; [cbn; lia |]. by constructor.
  - pose proof (extends_trans _ _ _ _ [_] Hw2 Hrel) as Hw'.
    eexists. split; [exact Hw' |]. rewrite !lock_holds_app, Hlocks.
    split; [cbn; lia |]. apply Forall_app. split; [by constructor | by repeat constructor].
Qed.

(** X23: with a negative [run_interval] and at least one job, [adb_run]
    never returns a path: [time.sleep] refuses the interval after the first
    lock hold, so the lock is taken at most once and [adb_run] never
    sleeps. *)
Theorem adb_run_negative_interval fuel cpu_fuel w r w' :
  run_interval < 0 ->
  benchmark_list <> [] ->
  run fuel cpu_fuel w = (r, w') ->
  (forall path, r <> Ok path)
  /\ exists es,
       trace w' = trace w ++ es /\ (lock_holds es <= 1)%nat
       /\ Forall (fun e => forall secs, e <> Sleep secs) es.
Proof.
  intros Hneg Hjobs Hrun. unfold adb_run in Hrun.
  assert (forall es, Forall is_setup es ->
            lock_holds es = 0%nat /\ Forall (fun e => forall secs, e <> Sleep secs) es)
    as Hplain.
  { induction 1 as [|e es He _ [IH1 IH2]]; [done |].
    destruct e; try done; (split; [exact IH1 | by constructor]). }
  assert (forall es (r : result string) w0,
            extends w w0 es -> Forall is_setup es -> (forall path, r <> Ok path) ->
            (forall path, r <> Ok path)
            /\ exists es,
                 trace w0 = trace w ++ es /\ (lock_holds es <= 1)%nat
                 /\ Forall (fun e => forall secs, e <> Sleep secs) es) as Hearly.
  { intros es r0 w0 Hes [Hlocks Hawake]%Hplain Hr0. split; [done |]. exists es.
    split_and!; [by destruct Hes | lia | done]. }
  run_cases Hrun.
  2: { eapply (Hearly [_]); [by eapply sh_extends | by repeat constructor | done]. }
  2: { eapply (Hearly [_]); [by eapply sh_extends | by repeat constructor | done]. }
  pose proof (sh_extends _ _ _ _ _ _ _ _ Hrun0) as Hw0. clear Hrun0.
  assert (forall (r0 : result (gmap string string)) w1,
            adb_getprop_by_serialno X serialno w0 = (r0, w1) ->
            exists es, extends w w1 es /\ Forall is_setup es) as Hprops.
  { intros r0 w1 Hr0. apply traces_adb_getprop in Hr0 as (es & Hes & Hsetup).
    eexists. split; [by eapply extends_trans |].
    apply Forall_app. split; [by repeat constructor | done]. }
  run_cases Hrun.
  2: { destruct (Hprops _ _ Hrun) as (es & Hes & Hsetup). by eapply Hearly. }
  2: { destruct (Hprops _ _ Hrun) as (es & Hes & Hsetup). by eapply Hearly. }
  destruct (Hprops _ _ Hrun0) as (pre & Hw1 & Hsetup).
  clear Hrun0 Hw0 Hprops.
  apply bind_silent_run in Hrun as [(product_model & w2 & Hw2 & Hrun) | [[e ->] Hw]];
    [| eapply Hearly; [by eapply extends_nil_r | done | done]
     | apply emits_getitem].
  apply bind_silent_run in Hrun as [(target_soc & w3 & Hw3 & Hrun) | [[e ->] Hw]];
    [| eapply Hearly;
       [eapply extends_nil_r; [| exact Hw]; by eapply extends_nil_r | done | done]
     | apply emits_getitem].
  assert (extends w w3 pre) as Hpre.
  { eapply extends_nil_r; [| exact Hw3]. by eapply extends_nil_r. }
  clear Hw1 Hw2 Hw3 Hearly.
  destruct (Hplain _ Hsetup) as [Hlocks Hawake].
  assert (forall (r0 : result unit) w4,
            sched fuel cpu_fuel a0 product_model target_soc 0 w3 = (r0, w4) ->
            (forall u, r0 <> Ok u)
            /\ exists es, extends w3 w4 es /\ (lock_holds es <= 1)%nat
                          /\ Forall (fun e => forall secs, e <> Sleep secs) es) as Hsched.
  { intros r0 w4 Hr0. destruct fuel as [|fuel]; cbn [schedule] in Hr0;
      rewrite bool_decide_eq_true_2 in Hr0 by (destruct benchmark_list; [done | cbn; lia]).
    { injection Hr0 as <- <-. split; [done |]. exists [].
      split_and!; [apply extends_refl | cbn; lia | done]. }
    unfold bind at 1 2, print at 1 2 in Hr0.
    set (wp := log_line _ (log_line _ w3)) in Hr0.
    assert (extends w3 wp []) as Hwp.
    { eapply extends_nil_l; apply extends_log_line. }
    run_cases Hr0.
    - apply locked_hold_once in Hrun0 as (es1 & Hes1 & Hone & Hawake1).
      unfold bind, time_sleep in Hr0.
      rewrite (proj2 (Z.ltb_lt _ _) Hneg) in Hr0. injection Hr0 as <- <-.
      split; [done |]. exists es1. split_and!; [by eapply extends_nil_l | done | done].
    - apply locked_hold_once in Hr0 as (es1 & Hes1 & Hone & Hawake1).
      split; [done |]. exists es1. split_and!; [by eapply extends_nil_l | done | done].
    - apply locked_hold_once in Hr0 as (es1 & Hes1 & Hone & Hawake1).
      split; [done |]. exists es1. split_and!; [by eapply extends_nil_l | done | done]. }
  run_cases Hrun.
  - by destruct (Hsched _ _ Hrun0) as [Hno _], a1; destruct (Hno ()).
  - destruct (Hsched _ _ Hrun) as (_ & es & Hes & Hone & Hawake').
    split; [done |]. exists (pre ++ es). split_and!.
    + by destruct (extends_trans _ _ _ _ _ Hpre Hes).
    + rewrite lock_holds_app. lia.
    + by apply Forall_app.
  - destruct (Hsched _ _ Hrun) as (_ & es & Hes & Hone & Hawake').
    split; [done |]. exists (pre ++ es). split_and!.
    + by destruct (extends_trans _ _ _ _ _ Hpre Hes).
    + rewrite lock_holds_app. lia.
    + by apply Forall_app.
Qed.

End adb_run_edges.

(** ** [adb_push] of a directory, and back *)

Section push_directory.

Context (X : Externals).

Lemma push_step_host src_file dst_dir serialno w c r w' :
  host_files (host w) !! src_file = Some c ->
  push_step X src_file dst_dir serialno w = (r, w') -> host w' = host w.
Proof.
  intros Hc. unfold push_step, bind, print.
  rewrite (sh_adb_push X serialno src_file dst_dir _ c) by done. cbv zeta.
  cbn [oracle trace log_line]. destruct (faults _ _); [by intros [= _ <-] |].
  cbn [dev log_line log_event]. destruct (decide _); by intros [= _ <-].
Qed.

Lemma adb_push_file_effect src_file dst_dir serialno w r w' :
  adb_push_file X src_file dst_dir serialno w = (r, w') ->
  host w' = host w
  /\ exists es,
       trace w' = trace w ++ es
       /\ (pushes_of es = []
           \/ (is_Some (host_files (host w) !! src_file)
               /\ pushes_of es = [[serialno; src_file; dst_dir]])).
Proof.
  intros Hrun.
  destruct (host_files (host w) !! src_file) as [c|] eqn:Hc.
  - destruct (sh_adb X ["-s"; serialno; "shell"; "md5sum";
                        Py.path_join dst_dir (Py.basename src_file)] w)
      as [query wq] eqn:Hquery.
    split.
    + rewrite (adb_push_file_run X _ _ _ _ _ _ _ Hc Hquery) in Hrun.
      rewrite sh_adb_md5sum in Hquery. injection Hquery as _ <-.
      set (wq := log_event _ w) in *.
      assert (host_files (host wq) !! src_file = Some c) as Hc' by done.
      destruct query as [out|e|].
      * destruct (reported_checksum out); [| by injection Hrun as _ <-].
        destruct (decide _); [by injection Hrun as _ <- |].
        by apply (push_step_host _ _ _ _ _ _ _ Hc') in Hrun.
      * destruct (is_ErrorReturnCode_1 e); [| by injection Hrun as _ <-].
        by apply (push_step_host _ _ _ _ _ _ _ Hc') in Hrun.
      * by injection Hrun as _ <-.
    + destruct (adb_push_file_decision X _ _ _ _ _ _ _ _ _ Hc Hquery Hrun)
        as (es & Hes & Hpushes).
      exists es. split; [done |]. destruct (transfer_needed _ _); eauto.
  - unfold adb_push_file, bind, os_path_isfile in Hrun. rewrite Hc in Hrun.
    rewrite bool_decide_eq_false_2 in Hrun by (by intros [? ?]).
    cbn in Hrun. injection Hrun as _ <-. split; [done |].
    exists []. split; [| by left]. cbn. by rewrite app_nil_r.
Qed.

(** X4: [adb_push] of a directory is not recursive.  It leaves the host as
    it is, and the transfers it makes are, in the order of the listing and at
    most one for each, transfers of regular files that lie directly in the
    directory; an entry that is not a regular file is passed over. *)
Theorem adb_push_only_regular_files src_path dst_dir serialno entries w r w' :
  host_dirs (host w) !! src_path = Some entries ->
  adb_push X src_path dst_dir serialno w = (r, w') ->
  host w' = host w
  /\ exists es,
       trace w' = trace w ++ es
       /\ sublist (pushes_of es)
            ((fun f => [serialno; Py.path_join src_path f; dst_dir])
               <$> filter (fun f => is_Some (host_files (host w)
                                               !! Py.path_join src_path f))
                     entries).
Proof.
  intros Hdir. unfold adb_push, bind at 1, os_path_isdir.
  rewrite bool_decide_eq_true_2 by (by rewrite Hdir).
  unfold bind at 1, os_listdir. rewrite Hdir.
  clear Hdir. revert w r.
  induction entries as [|f entries IH]; intros w r Hrun.
  { injection Hrun as _ <-. split; [done |]. exists [].
    split; [by rewrite app_nil_r | constructor]. }
  cbn [for_each] in Hrun. run_cases Hrun.
  - apply adb_push_file_effect in Hrun0 as (Hhost & es1 & Hes1 & Hpush1).
    apply IH in Hrun as (Hhost' & es2 & Hes2 & Hpush2).
    split; [congruence |]. exists (es1 ++ es2).
    split; [by rewrite Hes2, Hes1, app_assoc |].
    rewrite pushes_of_app. rewrite Hhost in Hpush2.
    destruct Hpush1 as [-> | [Hfile ->]].
    + cbn [app]. rewrite filter_cons. destruct (decide _); [| done].
      by apply sublist_cons.
    + rewrite filter_cons_True by done. by apply sublist_skip.
  - apply adb_push_file_effect in Hrun as (Hhost & es1 & Hes1 & Hpush1).
    split; [done |]. exists es1. split; [done |].
    destruct Hpush1 as [-> | [Hfile ->]]; [apply sublist_nil_l |].
    rewrite filter_cons_True by done. apply sublist_skip, sublist_nil_l.
  - apply adb_push_file_effect in Hrun as (Hhost & es1 & Hes1 & Hpush1).
    split; [done |]. exists es1. split; [done |].
    destruct Hpush1 as [-> | [Hfile ->]]; [apply sublist_nil_l |].
    rewrite filter_cons_True by done. apply sublist_skip, sublist_nil_l.
Qed.

End push_directory.

Section round_trip.

Context (X : Externals).

Lemma sh_adb_pull src dst w c :
  faults (oracle w) (length (trace w)) = None ->
  dev_files (dev w) !! src = Some c ->
  sh_adb X ["-s"; dev_serial (dev w); "pull"; src; dst] w
  = (Ok "", set_host_files (<[dst := c]> (host_files (host w)))
              (log_event (Cmd "adb" ["-s"; dev_serial (dev w); "pull"; src; dst]
                            false) w)).
Proof.
  intros Hq Hc. unfold sh_adb, sh. rewrite Hq.
  rewrite decide_True by done. unfold adb_sim. rewrite decide_True by done.
  cbn [dev log_event]. rewrite decide_True by done.
  unfold adb_device_sim. rewrite decide_False by done.
  rewrite decide_False by done. rewrite decide_True by done.
  unfold pull_sim. cbn [dev log_event]. by rewrite Hc.
Qed.

(** X5: what was pushed can be pulled back.  When [adb_push_file] has
    returned for a regular file, the device holds a file of the same name in
    [dst_dir]; an undisturbed [adb_pull] of it writes that file to
    [dst_path], and its digest is the digest of the source. *)
Theorem push_then_pull_round_trip src_file dst_dir dst_path serialno w c w1 :
  host_files (host w) !! src_file = Some c ->
  adb_push_file X src_file dst_dir serialno w = (Ok tt, w1) ->
  faults (oracle w1) (length (trace w1)) = None ->
  exists c' w2,
    dev_files (dev w1) !! Py.path_join dst_dir (Py.basename src_file) = Some c'
    /\ adb_pull X (Py.path_join dst_dir (Py.basename src_file)) dst_path serialno w1
       = (Ok tt, w2)
    /\ host_files (host w2) !! dst_path = Some c'
    /\ hexdigest X c' = hexdigest X c.
Proof.
  intros Hc Hpush Hq.
  destruct (adb_push_file_done X _ _ _ _ _ _ Hc Hpush) as (_ & -> & c' & Hc' & Hsum).
  exists c'. eexists. split; [done |].
  unfold adb_pull, try_except, try_except_else, bind at 1, print.
  set (wp := log_line _ w1).
  unfold bind. rewrite (sh_adb_pull _ dst_path wp c') by done.
  split; [done |]. split; [| done].
  cbn. by rewrite lookup_insert_eq.
Qed.

End round_trip.

(** ** [download_file] *)

Section download_facts.

Context (X : Externals).

(** X8: when the file is already in [output_dir] with the registered
    digest, [download_file] returns its path and does nothing else: no
    request, no output. *)
Theorem download_file_cached configs filename output_dir url c w :
  configs !! filename = Some url ->
  configs !! (filename +:+ "_md5_checksum") = Some (hexdigest X c) ->
  host_files (host w) !! (output_dir +:+ "/" +:+ filename) = Some c ->
  download_file X configs filename output_dir w
  = (Ok (output_dir +:+ "/" +:+ filename), w).
Proof.
  intros Hurl Hsum Hfile.
  unfold download_file, getitem, bind, os_path_exists, file_checksum, ret.
  rewrite Hurl, Hsum. cbn.
  repeat first
    [ rewrite Hfile | rewrite bool_decide_eq_true_2 by done
    | rewrite bool_decide_eq_false_2 by (by intros []) | rewrite decide_False by (by intros [])
    | progress cbn ].
  done.
Qed.

(** X9: when there is no file with the registered digest in [output_dir],
    and the URL can be reached, [download_file] fetches it once; it returns
    the path when what it fetched has the registered digest, and otherwise
    leaves the file and exits with status 1. *)
Theorem download_file_fetches_and_checks configs filename output_dir url checksum c w :
  configs !! filename = Some url ->
  configs !! (filename +:+ "_md5_checksum") = Some checksum ->
  (forall c0, host_files (host w) !! (output_dir +:+ "/" +:+ filename) = Some c0 ->
              hexdigest X c0 <> checksum) ->
  host_dirs (host w) !! (output_dir +:+ "/" +:+ filename) = None ->
  faults (oracle w) (length (trace w)) = None ->
  internet (host w) !! url = Some c ->
  exists w',
    download_file X configs filename output_dir w
    = (if decide (hexdigest X c = checksum)
       then Ok (output_dir +:+ "/" +:+ filename) else Raise (SystemExit 1), w')
    /\ trace w' = trace w ++ [UrlRetrieve url (output_dir +:+ "/" +:+ filename)]
    /\ host_files (host w') !! (output_dir +:+ "/" +:+ filename) = Some c.
Proof.
  intros Hurl Hsum Hstale Hdir Hfault Hnet.
  unfold download_file, getitem, bind, os_path_exists, file_checksum, ret,
    urlretrieve, print, raise.
  rewrite Hurl, Hsum, Hdir. cbn.
  destruct (host_files (host w) !! _) as [c0|] eqn:Hfile.
  - specialize (Hstale c0 eq_refl).
    repeat first
      [ rewrite Hfile | rewrite Hfault | rewrite Hnet | rewrite lookup_insert_eq
      | rewrite bool_decide_eq_true_2 by done
      | progress cbn ].
    destruct (decide (hexdigest X c = checksum)) as [Heq|Hne].
    + rewrite decide_False by (by intros []). eexists. split; [done |].
      split; [done |]. cbn. by rewrite lookup_insert_eq.
    + rewrite decide_True by done. eexists. split; [done |].
      split; [done |]. cbn. by rewrite lookup_insert_eq.
  - repeat first
      [ rewrite Hfile | rewrite Hfault | rewrite Hnet | rewrite lookup_insert_eq
      | rewrite bool_decide_eq_false_2 by (by intros [? ?])
      | progress cbn ].
    destruct (decide (hexdigest X c = checksum)) as [Heq|Hne].
    + rewrite decide_False by (by intros []). eexists. split; [done |].
      split; [done |]. cbn. by rewrite lookup_insert_eq.
    + rewrite decide_True by done. eexists. split; [done |].
      split; [done |]. cbn. by rewrite lookup_insert_eq.
Qed.

Lemma download_file_ok configs filename output_dir w p w' :
  download_file X configs filename output_dir w = (Ok p, w') ->
  p = output_dir +:+ "/" +:+ filename
  /\ exists c, host_files (host w') !! p = Some c
               /\ configs !! (filename +:+ "_md5_checksum") = Some (hexdigest X c).
Proof.
  intros Hrun. unfold download_file in Hrun.
  run_ok Hrun. run_ok Hrun. run_ok Hrun. run_ok Hrun. run_ok Hrun. run_ok Hrun.
  run_ok Hrun. injection Hrun as <- <-. split; [done |].
  apply file_checksum_run in Hrun5 as (-> & c & Hc & ->).
  destruct (decide (hexdigest X c <> a0)) as [|Heq%dec_stable].
  { unfold bind, print, raise in Hrun6. done. }
  injection Hrun6 as _ <-. exists c. split; [done |].
  unfold getitem in Hrun1. destruct (configs !! _) as [v|]; [| done].
  injection Hrun1 as -> _. by rewrite Heq.
Qed.

End download_facts.

(** ** [get_model], [prepare_datasets] and [get_tflite] *)

Section model_facts.

Context (X : Externals).

Lemma urlretrieve_ok url path w w' :
  urlretrieve url path w = (Ok tt, w') ->
  forall q, q <> path -> host_files (host w') !! q = host_files (host w) !! q.
Proof.
  unfold urlretrieve. destruct (faults _ _); [done |].
  destruct (internet _ !! _); [| done]. intros [= <-] q Hq.
  cbn. by rewrite lookup_insert_ne.
Qed.

Lemma get_model_file_ok file_path checksum output_dir push_list w l w' :
  get_model_file X file_path checksum output_dir push_list w = (Ok l, w') ->
  l = push_list ++ [local_model_path file_path output_dir]
  /\ (exists c, host_files (host w') !! local_model_path file_path output_dir = Some c
                /\ hexdigest X c = checksum)
  /\ (forall q, q <> local_model_path file_path output_dir ->
                host_files (host w') !! q = host_files (host w) !! q).
Proof.
  intros Hrun. unfold get_model_file in Hrun. unfold local_model_path.
  run_ok Hrun. injection Hrun as <- <-.
  destruct (Py.startswith "http" file_path).
  - run_ok Hrun0. run_ok Hrun0. run_ok Hrun0. run_ok Hrun0. run_ok Hrun0.
    injection Hrun0 as <- <-.
    apply file_checksum_run in Hrun3 as (-> & c & Hc & ->).
    unfold aibench_check in Hrun4. case_bool_decide; [| done].
    injection Hrun4 as _ <-. split; [done |]. split; [eauto |].
    intros q Hq. injection Hrun as _ <-.
    assert (w2 = w) as ->.
    { destruct (negb a0); [by injection Hrun1 as _ <- |].
      run_ok Hrun1.
      match goal with
      | H : file_checksum _ _ _ = _ |- _ => apply file_checksum_run in H as [-> _]
      end.
      by injection Hrun1 as _ <-. }
    destruct a1.
    + unfold bind, print in Hrun2. destruct a2.
      apply (urlretrieve_ok _ _ _ _ Hrun2 q) in Hq. exact Hq.
    + by injection Hrun2 as _ <-.
  - run_ok Hrun0. run_ok Hrun0. injection Hrun0 as <- <-.
    apply file_checksum_run in Hrun as (-> & c & Hc & ->).
    unfold aibench_check in Hrun1. case_bool_decide; [| done].
    injection Hrun1 as _ <-. split; [done |]. split; [eauto | done].
Qed.

(** X14: [get_model] appends the model file, and the weights file when the
    entry names one.  When it returns, the file appended last has the digest
    given for it, and so has the model file when the weights were kept under
    another path.  (The check is [aibench_check], taken to raise when the
    digests differ.) *)
Theorem get_model_verifies model_info output_dir push_list w l w' :
  get_model X model_info output_dir push_list w = (Ok l, w') ->
  let model_file := local_model_path (model_path model_info) output_dir in
  let weight_file := local_model_path (weight_path model_info) output_dir in
  (weight_path model_info = "" ->
     l = push_list ++ [model_file]
     /\ exists c, host_files (host w') !! model_file = Some c
                  /\ hexdigest X c = model_checksum model_info)
  /\ (weight_path model_info <> "" ->
        l = push_list ++ [model_file; weight_file]
        /\ (exists c, host_files (host w') !! weight_file = Some c
                      /\ hexdigest X c = weight_checksum model_info)
        /\ (model_file <> weight_file ->
            exists c, host_files (host w') !! model_file = Some c
                      /\ hexdigest X c = model_checksum model_info)).
Proof.
  intros Hrun model_file weight_file. unfold get_model in Hrun.
  run_ok Hrun. apply get_model_file_ok in Hrun0 as (-> & Hmodel & _).
  destruct (decide (weight_path model_info <> "")) as [Hw|Hw%dec_stable].
  - split; [done |]. intros _.
    apply get_model_file_ok in Hrun as (-> & Hweight & Hframe).
    split; [by rewrite <- app_assoc |]. split; [done |].
    intros Hne. by rewrite Hframe.
  - injection Hrun as <- <-. split; [done |]. by intros [].
Qed.

Lemma sh_unzip args w r w' :
  sh X "unzip" args false None w = (r, w') ->
  host w' = host w /\ trace w' = trace w ++ [Cmd "unzip" args false]
  /\ r <> OutOfFuel.
Proof.
  unfold sh. destruct (faults _ _); [by intros [= <- <-] |].
  rewrite !decide_False by done. by intros [= <- <-].
Qed.

(** An archive is unpacked only after it was fetched and its digest
    checked. *)
Lemma unzip_after_download {A} configs filename output_dir dest (a : A) w r w' :
  (let! file_path := download_file X configs filename output_dir in
   sh X "unzip" ["-o"; file_path; "-d"; dest] false None >> ret a) w = (r, w') ->
  exists es,
    trace w' = trace w ++ es
    /\ (forall args fg, Cmd "unzip" args fg ∈ es ->
          args = ["-o"; output_dir +:+ "/" +:+ filename; "-d"; dest] /\ fg = false
          /\ exists c, host_files (host w') !! (output_dir +:+ "/" +:+ filename) = Some c
                       /\ configs !! (filename +:+ "_md5_checksum")
                          = Some (hexdigest X c))
    /\ (r = Ok a ->
        Cmd "unzip" ["-o"; output_dir +:+ "/" +:+ filename; "-d"; dest] false ∈ es).
Proof.
  intros Hrun. set (archive := output_dir +:+ "/" +:+ filename).
  assert (forall es, Forall (fun e => is_command e
                                      /\ forall args fg, e <> Cmd "unzip" args fg) es ->
            forall args fg, Cmd "unzip" args fg ∉ es) as Hnone.
  { intros es Hes args fg Hin. rewrite Forall_forall in Hes.
    destruct (Hes _ Hin) as [_ Hne]. by apply (Hne args fg). }
  assert (emits (fun e => is_command e /\ forall args fg, e <> Cmd "unzip" args fg)
            (download_file X configs filename output_dir)) as Hdl.
  { unfold download_file. emits_structure;
      auto using emits_urlretrieve with emits. }
  run_cases Hrun.
  - destruct (Hdl _ _ _ Hrun0) as (_ & es1 & Hes1 & Hquiet).
    apply download_file_ok in Hrun0 as (-> & c & Hc & Hsum).
    assert (host w' = host w0
            /\ trace w' = trace w0 ++ [Cmd "unzip" ["-o"; archive; "-d"; dest] false])
      as [Hhost Htrace].
    { pose proof Hrun as Hrun'. run_cases Hrun'.
      - injection Hrun' as _ <-.
        match goal with
        | H : sh _ _ _ _ _ _ = _ |- _ => by apply sh_unzip in H as (? & ? & _)
        end.
      - by apply sh_unzip in Hrun' as (? & ? & _).
      - by apply sh_unzip in Hrun' as (_ & _ & ?). }
    exists (es1 ++ [Cmd "unzip" ["-o"; archive; "-d"; dest] false]).
    split_and!.
    + destruct Hes1 as (Ht & _). by rewrite Htrace, Ht, app_assoc.
    + intros args fg [Hin | Hin%list_elem_of_singleton]%elem_of_app.
      * by apply Hnone in Hin.
      * injection Hin as -> ->. rewrite Hhost. eauto.
    + intros _. apply elem_of_app. right. by apply list_elem_of_singleton.
  - destruct (Hdl _ _ _ Hrun) as (_ & es1 & Hes1 & Hquiet).
    exists es1. split_and!; [by destruct Hes1 | | done].
    intros args fg Hin. by apply Hnone in Hin.
  - by destruct (Hdl _ _ _ Hrun) as [? _].
Qed.

(** X15: for an [input_dir] that is no URL, [prepare_datasets] returns it and
    does nothing.  For a URL it unpacks [imagenet_less.zip] only after the
    archive is in [output_dir] with the registered digest, and when it
    returns, it has unpacked it and returns [<output_dir>/imagenet_less]. *)
Theorem prepare_datasets_unpacks_verified configs output_dir input_dir w r w' :
  prepare_datasets X configs output_dir input_dir w = (r, w') ->
  if Py.startswith "http" input_dir then
    let archive := output_dir +:+ "/imagenet_less.zip" in
    (forall p, r = Ok p -> p = output_dir +:+ "/imagenet_less")
    /\ exists es,
         trace w' = trace w ++ es
         /\ (forall args fg, Cmd "unzip" args fg ∈ es ->
               args = ["-o"; archive; "-d"; output_dir] /\ fg = false
               /\ exists c, host_files (host w') !! archive = Some c
                            /\ configs !! "imagenet_less.zip_md5_checksum"
                               = Some (hexdigest X c))
         /\ (forall p, r = Ok p ->
               Cmd "unzip" ["-o"; archive; "-d"; output_dir] false ∈ es)
  else r = Ok input_dir /\ w' = w.
Proof.
  unfold prepare_datasets. destruct (Py.startswith "http" input_dir);
    [| by intros [= <- <-]].
  intros Hrun. lazy beta iota zeta. split.
  - intros p ->. run_ok Hrun. run_ok Hrun. by injection Hrun as <- _.
  - pose proof Hrun as Hrun'.
    apply unzip_after_download in Hrun' as (es & Htrace & Hunzip & Hdone).
    exists es. split; [done |]. split; [exact Hunzip |].
    intros p ->. apply Hdone. run_ok Hrun. run_ok Hrun. by injection Hrun as <- _.
Qed.

(** X10: [get_tflite] unpacks [tensorflow-1.10.1.zip] into
    [third_party/tflite] only after the archive is in [output_dir] with the
    registered digest; when it returns, it has unpacked it. *)
Theorem get_tflite_unpacks_verified configs output_dir w r w' :
  get_tflite X configs output_dir w = (r, w') ->
  let archive := output_dir +:+ "/tensorflow-1.10.1.zip" in
  exists es,
    trace w' = trace w ++ es
    /\ (forall args fg, Cmd "unzip" args fg ∈ es ->
          args = ["-o"; archive; "-d"; "third_party/tflite"] /\ fg = false
          /\ exists c, host_files (host w') !! archive = Some c
                       /\ configs !! "tensorflow-1.10.1.zip_md5_checksum"
                          = Some (hexdigest X c))
    /\ (r = Ok tt ->
        Cmd "unzip" ["-o"; archive; "-d"; "third_party/tflite"] false ∈ es).
Proof.
  unfold get_tflite. intros Hrun. lazy beta iota zeta.
  apply unzip_after_download in Hrun as (es & Htrace & Hunzip & Hdone).
  exists es. split; [done |]. split; [exact Hunzip | exact Hdone].
Qed.

End model_facts.

(** ** [bazel_build] *)

Section bazel_build_facts.

Context (X : Externals).

Lemma define_executors_ok executors bazel_args w args w' :
  define_executors X executors bazel_args w = (Ok args, w') ->
  w' = w
  /\ exists names,
       Forall2 (fun e n => ExecutorType_Name X e = Some n) executors names
       /\ args = bazel_args
                   ++ concat ((fun name => ["--define"; Py.lower name +:+ "=true"])
                                <$> names).
Proof.
  revert bazel_args w.
  induction executors as [|e executors IH]; intros bazel_args w Hrun.
  { injection Hrun as <- <-. split; [done |]. exists [].
    split; [constructor | by rewrite app_nil_r]. }
  cbn [define_executors] in Hrun. run_ok Hrun.
  unfold enum_name in Hrun0.
  destruct (ExecutorType_Name X e) as [n|] eqn:Hn; [| done].
  injection Hrun0 as <- <-.
  apply IH in Hrun as (-> & names & Hnames & ->).
  split; [done |]. exists (n :: names). split; [by constructor |].
  cbn. by rewrite <- !app_assoc.
Qed.

(** X11: when [bazel_build] returns, it has run [bazel] once, in the
    foreground, as its last command.  The arguments are the build command
    for the ABI, one definition for each executor, the four fixed
    definitions, and the two DSP definitions only if the DSP is among the
    device types and the ABI is [armeabi-v7a]; in that case the device lock
    was taken for the look at the device and released before the build.  In
    every other case the device is not touched. *)
Theorem bazel_build_ok serialno target abi executors device_types w w' :
  bazel_build X serialno target abi executors device_types w = (Ok tt, w') ->
  exists names ndk (dsp : bool),
    Forall2 (fun e n => ExecutorType_Name X e = Some n) executors names
    /\ (abi <> "host" -> environ (host w) !! "ANDROID_NDK_HOME" = Some ndk)
    /\ let args := bazel_common_args target abi ndk names
                     ++ (if dsp then dsp_args else []) in
       if bool_decide (DSP X ∈ device_types) && bool_decide (abi = "armeabi-v7a")
       then
         trace w'
         = trace w ++ [Acquire (device_lock_path serialno);
                       Cmd "adb" ["-s"; serialno; "shell";
                                  "ls /system/lib/libcdsprpc.so"] false;
                       Release (device_lock_path serialno);
                       Cmd "bazel" args true]
       else dsp = false /\ trace w' = trace w ++ [Cmd "bazel" args true].
Proof.
  intros Hrun. unfold bazel_build in Hrun.
  unfold bind at 1, print at 1 in Hrun.
  set (w0 := log_line _ w) in Hrun.
  run_ok Hrun. rename a into base. rename w1 into w1'.
  assert (w1' = w0
          /\ exists ndk,
               (abi <> "host" -> environ (host w) !! "ANDROID_NDK_HOME" = Some ndk)
               /\ base = if decide (abi = "host") then ["build"; target]
                         else ["build"; target; "--config"; "android";
                               "--cpu=" +:+ abi;
                               "--action_env=ANDROID_NDK_HOME=" +:+ ndk])
    as (-> & ndk & Hndk & ->).
  { destruct (decide (abi = "host")).
    - injection Hrun0 as <- <-. split; [done |]. by exists "".
    - unfold bind, os_environ in Hrun0. cbn [host w0 log_line] in Hrun0.
      destruct (environ (host w) !! "ANDROID_NDK_HOME") as [ndk|]; [| done].
      injection Hrun0 as <- <-. split; [done |]. by exists ndk. }
  clear Hrun0. run_ok Hrun.
  apply define_executors_ok in Hrun0 as (-> & names & Hnames & ->).
  exists names, ndk.
  set (common := bazel_common_args target abi ndk names).
  assert ((((((if decide (abi = "host") then ["build"; target]
              else ["build"; target; "--config"; "android"; "--cpu=" +:+ abi;
                    "--action_env=ANDROID_NDK_HOME=" +:+ ndk])
             ++ concat ((fun name => ["--define"; Py.lower name +:+ "=true"])
                          <$> names))
            ++ ["--define"; "neon=true"]) ++ ["--define"; "openmp=true"])
           ++ ["--define"; "opencl=true"]) ++ ["--define"; "quantize=true"]
          = common) as Hcommon.
  { unfold common, bazel_common_args. by rewrite <- !app_assoc. }
  cbv zeta in Hrun. rewrite Hcommon in Hrun. clear Hcommon.
  run_ok Hrun. rename a into args. rename w1 into w2.
  assert (exists (dsp : bool),
            args = common ++ (if dsp then dsp_args else [])
            /\ if bool_decide (DSP X ∈ device_types)
                  && bool_decide (abi = "armeabi-v7a")
               then trace w2
                    = trace w ++ [Acquire (device_lock_path serialno);
                                  Cmd "adb" ["-s"; serialno; "shell";
                                             "ls /system/lib/libcdsprpc.so"] false;
                                  Release (device_lock_path serialno)]
                         /\ True
               else dsp = false /\ trace w2 = trace w) as (dsp & -> & Htrace).
  { destruct (bool_decide (DSP X ∈ device_types) && bool_decide (abi = "armeabi-v7a")).
    2: { injection Hrun0 as <- <-. exists false. by rewrite app_nil_r. }
    apply with_device_lock_run in Hrun0
      as [(e & [=] & _) | (r0 & w1 & w3 & Hacq & Hbody & <- & Hend)].
    destruct Hend as [[[=] _] | [_ Hrel]].
    assert (exists dsp : bool,
              args = common ++ (if dsp then dsp_args else [])
              /\ trace w3 = trace w1 ++ [Cmd "adb" ["-s"; serialno; "shell";
                                                    "ls /system/lib/libcdsprpc.so"]
                                           false]) as (dsp & -> & Hprobe).
    { run_cases Hbody;
        match goal with
        | H : sh_adb _ _ _ = _ |- _ => apply sh_extends in H as (Ht & _)
        end.
      - destruct (Py.contains _ _).
        + injection Hbody as <- <-. exists false. by rewrite app_nil_r.
        + injection Hbody as <- <-. by exists true.
      - injection Hbody as <- <-. exists false. by rewrite app_nil_r. }
    exists dsp. split; [done |]. split; [| done].
    destruct Hacq as (Ha & _), Hrel as (Hr & _).
    rewrite Hr, Hprobe, Ha. cbn [trace w0 log_line]. by rewrite <- !app_assoc. }
  exists dsp. split; [done |]. split; [done |]. cbv zeta.
  run_ok Hrun.
  match goal with
  | H : sh _ _ _ _ _ _ = _ |- _ => apply sh_extends in H as (Ht & _)
  end.
  injection Hrun as <-. cbn [trace log_line]. rewrite Ht.
  destruct (_ && _).
  - destruct Htrace as [-> _]. by rewrite <- app_assoc.
  - destruct Htrace as [-> ->]. done.
Qed.

End bazel_build_facts.

(** ** The attached devices by platform *)

Section device_pool.

Context (X : Externals).

Lemma grouped_setdefault_append soc serialno m :
  grouped (setdefault_append soc serialno m) ≡ₚ grouped m ++ [serialno].
Proof.
  unfold grouped, setdefault_append.
  rewrite <- insert_delete_eq.
  rewrite map_to_list_insert by apply lookup_delete_eq.
  destruct (m !! soc) as [l|] eqn:Hsoc; cbn.
  - rewrite <- (map_to_list_delete m soc l Hsoc). cbn.
    rewrite <- !app_assoc. apply Permutation_app_head, Permutation_app_comm.
  - rewrite delete_id by done. apply Permutation_cons_append.
Qed.

Lemma group_by_soc_ok serialnos m w m' w' :
  group_by_soc X serialnos m w = (Ok m', w') ->
  grouped m' ≡ₚ grouped m ++ serialnos.
Proof.
  revert m w. induction serialnos as [|s serialnos IH]; intros m w Hrun.
  { injection Hrun as <- _. by rewrite app_nil_r. }
  cbn [group_by_soc] in Hrun. run_ok Hrun. run_ok Hrun.
  apply IH in Hrun. rewrite Hrun, grouped_setdefault_append.
  by rewrite <- app_assoc.
Qed.

Lemma extend_serialnos_run m target_socs serialnos w r w' :
  extend_serialnos m target_socs serialnos w = (r, w') ->
  w' = w
  /\ match r with
     | Ok l =>
         Forall (fun soc => is_Some (m !! soc)) target_socs
         /\ l = serialnos ++ concat ((fun soc => default [] (m !! soc)) <$> target_socs)
     | Raise e => exists soc, e = KeyError soc /\ soc ∈ target_socs /\ m !! soc = None
     | OutOfFuel => False
     end.
Proof.
  revert serialnos. induction target_socs as [|soc target_socs IH]; intros serialnos Hrun.
  { injection Hrun as <- <-. split; [done |]. split; [done |]. by rewrite app_nil_r. }
  cbn [extend_serialnos] in Hrun. unfold bind, getitem_of in Hrun.
  destruct (m !! soc) as [found|] eqn:Hsoc.
  - apply IH in Hrun as [-> Hr]. split; [done |].
    destruct r as [l|e|]; [| | done].
    + destruct Hr as [Hall ->]. split; [by constructor |].
      cbn. rewrite Hsoc. cbn. by rewrite <- app_assoc.
    + destruct Hr as (soc' & -> & Hin & Hnone). exists soc'.
      split_and!; [done | by right | done].
  - injection Hrun as <- <-. split; [done |]. exists soc.
    split_and!; [done | by left | done].
Qed.

Lemma grouped_by_keys (m : gmap string (list string)) (keys : list string) :
  keys ≡ₚ (map_to_list m).*1 ->
  concat ((fun soc => default [] (m !! soc)) <$> keys) ≡ₚ grouped m.
Proof.
  intros ->. unfold grouped. rewrite <- list_fmap_compose.
  replace ((fun soc => default [] (m !! soc)) ∘ fst <$> map_to_list m)
    with ((map_to_list m).*2); [done |].
  apply list_fmap_ext.
  intros i [k v] Hkv. cbn.
  apply list_elem_of_lookup_2, elem_of_map_to_list in Hkv. by rewrite Hkv.
Qed.

Lemma elem_of_concat {A} (x : A) (ls : list (list A)) :
  x ∈ concat ls <-> exists l, x ∈ l /\ l ∈ ls.
Proof.
  rewrite list_elem_of_In, in_concat. split.
  - intros (l & Hl & Hx). exists l. by rewrite !list_elem_of_In.
  - intros (l & Hx & Hl). exists l. by rewrite <- !list_elem_of_In.
Qed.

Lemma grouped_lookup (m : gmap string (list string)) soc l s :
  m !! soc = Some l -> s ∈ l -> s ∈ grouped m.
Proof.
  intros Hsoc Hs. unfold grouped. apply elem_of_concat. exists l.
  split; [done |]. apply list_elem_of_fmap. exists (soc, l).
  split; [done |]. by apply elem_of_map_to_list.
Qed.

(** X6: every serial number that [get_target_socs_serialnos] returns is one
    that [adb_devices] lists; when no platform is given, the result holds
    the listed devices, each as often as it is listed, in an order that
    depends on the order of the keys of the dictionary. *)
Theorem get_target_socs_serialnos_attached dict_keys target_socs w l w' :
  (forall m, dict_keys m ≡ₚ (map_to_list m).*1) ->
  get_target_socs_serialnos X dict_keys target_socs w = (Ok l, w') ->
  exists serialnos w1,
    adb_devices X w = (Ok serialnos, w1)
    /\ (forall s, s ∈ l -> s ∈ serialnos)
    /\ (target_socs = None -> l ≡ₚ serialnos).
Proof.
  intros Hkeys Hrun. unfold get_target_socs_serialnos in Hrun.
  run_ok Hrun. rename a into m. unfold get_soc_serialnos_map in Hrun0.
  run_ok Hrun0. rename a into serialnos. exists serialnos, w1.
  split; [done |].
  apply group_by_soc_ok in Hrun0. cbn in Hrun0.
  apply extend_serialnos_run in Hrun as (_ & Hall & ->). cbn [app].
  split.
  - intros s (found & Hs & (soc & -> & Hsoc)%list_elem_of_fmap)%elem_of_concat.
    rewrite <- Hrun0. rewrite Forall_forall in Hall.
    destruct (Hall _ Hsoc) as [found Hfound]. rewrite Hfound in Hs.
    by eapply grouped_lookup.
  - intros ->. by rewrite grouped_by_keys.
Qed.

(** X7: when [get_target_socs_serialnos] is given platforms and raises,
    either the grouping of the devices has failed, or the exception is
    [KeyError] for one of the given platforms, which no attached device
    has. *)
Theorem get_target_socs_serialnos_unknown_soc dict_keys target_socs w e w' :
  get_target_socs_serialnos X dict_keys (Some target_socs) w = (Raise e, w') ->
  (exists w1, get_soc_serialnos_map X w = (Raise e, w1))
  \/ (exists m soc,
        get_soc_serialnos_map X w = (Ok m, w')
        /\ e = KeyError soc /\ soc ∈ target_socs /\ m !! soc = None).
Proof.
  intros Hrun. unfold get_target_socs_serialnos in Hrun.
  run_cases Hrun.
  - apply extend_serialnos_run in Hrun as (-> & soc & -> & Hin & Hnone).
    right. eauto 6.
  - injection Hr as ->. left. eauto.
Qed.

End device_pool.

(** ** Staging *)

Section staging_facts.

Context (X : Externals).

Lemma rev_app_rev_app (a b c : string) :
  String.rev_app (String.rev_app a b) c = String.rev_app b (a +:+ c).
Proof.
  revert b c. induction a as [|x a IH]; intros b c; [done |].
  cbn [String.rev_app]. by rewrite IH.
Qed.

Lemma rev_app_app (a b c : string) :
  String.rev_app (a +:+ b) c = String.rev_app b (String.rev_app a c).
Proof.
  revert c. induction a as [|x a IH]; intros c; [done |].
  rewrite str_app_cons. cbn [String.rev_app]. by rewrite IH.
Qed.

Lemma last_char_slash (d : string) : Py.last_char (d +:+ "/") = Some "/"%char.
Proof. unfold Py.last_char, String.rev. by rewrite rev_app_app. Qed.

Lemma init_slash (d : string) : Py.init (d +:+ "/") = d.
Proof.
  unfold Py.init, String.rev. rewrite rev_app_app. cbn.
  by rewrite rev_app_rev_app, str_app_nil_r.
Qed.

(** X16: a slash at the end of [input_dir] makes no difference to the last
    step of [push_precision_files]: for the directory [d] and for [d/], the
    images are moved out of [<device_bin_path>/inputs/<basename of d>]. *)
Theorem push_precision_files_trailing_slash serialno device_bin_path d input_dir
    w w' :
  d <> "" -> Py.last_char d <> Some "/"%char ->
  input_dir = d \/ input_dir = d +:+ "/" ->
  push_precision_files X serialno device_bin_path input_dir w = (Ok tt, w') ->
  last (trace w')
  = Some (Cmd "adb" ["-s"; serialno; "shell";
                     "mv " +:+ ((device_bin_path +:+ "/inputs/") +:+ Py.basename d)
                       +:+ "/* " +:+ device_bin_path +:+ "/inputs/"] false).
Proof.
  intros Hd Hlast Hinput Hrun. unfold push_precision_files in Hrun.
  do 4 run_ok Hrun.
  assert (input_dir <> ""
          /\ (if decide (Py.last_char input_dir <> Some "/"%char)
              then Py.basename input_dir
              else Py.basename (Py.init input_dir)) = Py.basename d) as [Hne Hbase].
  { destruct Hinput as [-> | ->].
    - split; [done |]. by rewrite decide_True.
    - split; [by destruct d |].
      rewrite decide_False by (by rewrite last_char_slash; intros []).
      by rewrite init_slash. }
  rewrite decide_True in Hrun by done. cbv zeta in Hrun. rewrite Hbase in Hrun.
  do 4 run_ok Hrun. injection Hrun as <-.
  match goal with
  | H : sh_adb _ ["-s"; _; "shell"; "mv " +:+ _] _ = _ |- _ =>
      apply sh_extends in H as (-> & _)
  end.
  by rewrite last_snoc.
Qed.

(** X13: for an ABI other than [armeabi-v7a] and [arm64-v8a],
    [prepare_device_env] stages nothing but the DSP directory of SNPE, and
    that only when SNPE is among the executors. *)
Theorem prepare_device_env_other_abi serialno abi device_bin_path executors w :
  abi <> "armeabi-v7a" -> abi <> "arm64-v8a" ->
  prepare_device_env X serialno abi device_bin_path executors w
  = if bool_decide (SNPE X ∈ executors)
    then adb_push X "bazel-mobile-ai-bench/external/snpe/lib/dsp"
           device_bin_path serialno w
    else (Ok tt, w).
Proof.
  intros H32 H64. unfold prepare_device_env.
  rewrite !(decide_False (P := abi = "armeabi-v7a")) by done.
  rewrite !(decide_False (P := abi = "arm64-v8a")) by done.
  rewrite !decide_False by (by intros []).
  rewrite (bool_decide_eq_false_2 (abi = "armeabi-v7a")) by done.
  rewrite andb_false_r.
  unfold bind at 1, ret at 1.
  destruct (bool_decide (SNPE X ∈ executors)).
  - unfold bind, ret.
    destruct (adb_push X _ device_bin_path serialno w) as [[[]|e|] w1];
      try done; by destruct (bool_decide _).
  - unfold bind, ret. by destruct (bool_decide _).
Qed.

End staging_facts.

(** ** [get_proto] and [prepare_all_models] *)

Section prepare_all_models_facts.

Context (X : Externals) (P : Protobuf).

Lemma get_model_ok model_info output_dir push_list w l w' :
  get_model X model_info output_dir push_list w = (Ok l, w') ->
  l = push_list ++ model_files output_dir model_info.
Proof.
  intros Hrun. unfold get_model in Hrun. unfold model_files.
  run_ok Hrun. apply get_model_file_ok in Hrun0 as (-> & _ & _).
  destruct (decide (weight_path model_info <> "")).
  - apply get_model_file_ok in Hrun as (-> & _ & _). by rewrite <- app_assoc.
  - by injection Hrun as <- _.
Qed.

Lemma enum_values_ok value enum names w vs w' :
  enum_values value enum names w = (Ok vs, w') ->
  w' = w /\ Forall2 (fun e v => value e = Some v) names vs.
Proof.
  revert vs. induction names as [|e names IH]; intros vs Hrun.
  { injection Hrun as <- <-. by split. }
  cbn [enum_values] in Hrun. destruct (value e) as [v|] eqn:Hv; [| done].
  run_ok Hrun. injection Hrun as <- <-.
  apply IH in Hrun0 as [-> Hvs]. split; [done | by constructor].
Qed.

Lemma select_devices_ok executor model device_types output_dir devices
    (downloaded : bool) push_list model_infos w pl mi w' :
  select_devices X executor model device_types output_dir devices downloaded
    push_list model_infos w = (Ok (pl, mi), w') ->
  mi = model_infos
         ++ ((fun device => {| executor := executor; model_name := entry_name model;
                               device_type := device;
                               quantize := entry_quantize model |})
               <$> filter (fun device => device ∈ device_types) devices)
  /\ pl = push_list
            ++ (if negb downloaded
                   && bool_decide (Exists (fun device => device ∈ device_types)
                                     devices)
                then model_files output_dir (entry_files model) else []).
Proof.
  revert downloaded push_list model_infos w pl mi.
  induction devices as [|device devices IH];
    intros downloaded push_list model_infos w pl mi Hrun.
  { injection Hrun as <- <- _.
    rewrite bool_decide_eq_false_2 by (by intros ?%Exists_nil).
    rewrite andb_false_r. by rewrite !app_nil_r. }
  cbn [select_devices] in Hrun. case_bool_decide as Hdevice.
  - apply IH in Hrun as [-> ->]. rewrite filter_cons_False by done.
    split; [done |].
    rewrite (bool_decide_ext (Exists _ (device :: devices))
               (Exists (fun device => device ∈ device_types) devices)); [done |].
    rewrite Exists_cons. tauto.
  - run_ok Hrun.
    apply IH in Hrun as [-> ->]. rewrite filter_cons_True by done.
    split; [by rewrite <- app_assoc |].
    rewrite (bool_decide_eq_true_2 (Exists _ (device :: devices)))
      by (by apply Exists_cons_hd).
    rewrite andb_true_r. cbn [negb andb]. rewrite app_nil_r.
    destruct downloaded; cbn [negb] in *.
    + injection Hrun0 as <- _. by rewrite app_nil_r.
    + by apply get_model_ok in Hrun0.
Qed.

Lemma select_models_ok executor model_names device_types output_dir models
    push_list model_infos w pl mi w' :
  select_models X executor model_names device_types output_dir models
    push_list model_infos w = (Ok (pl, mi), w') ->
  mi = model_infos
         ++ (model ← filter (fun model => entry_name model ∈ model_names) models;
             jobs_of_model executor device_types model)
  /\ pl = push_list
            ++ (model ← filter (fun model => entry_name model ∈ model_names) models;
                if bool_decide (Exists (fun device => device ∈ device_types)
                                  (entry_devices model))
                then model_files output_dir (entry_files model) else []).
Proof.
  revert push_list model_infos w pl mi.
  induction models as [|model models IH];
    intros push_list model_infos w pl mi Hrun.
  { injection Hrun as <- <- _. by rewrite !app_nil_r. }
  cbn [select_models] in Hrun. case_bool_decide as Hmodel.
  - apply IH in Hrun as [-> ->]. by rewrite filter_cons_False.
  - run_ok Hrun. destruct a as [pl1 mi1].
    apply select_devices_ok in Hrun0 as [-> ->].
    apply IH in Hrun as [-> ->]. rewrite filter_cons_True by done.
    rewrite !bind_cons, !app_assoc. done.
Qed.

Lemma select_benchmarks_ok executors model_names device_types output_dir
    benchmarks push_list model_infos w pl mi w' :
  select_benchmarks X executors model_names device_types output_dir benchmarks
    push_list model_infos w = (Ok (pl, mi), w') ->
  mi = model_infos ++ selected_jobs executors model_names device_types benchmarks
  /\ pl = push_list
            ++ selected_files executors model_names device_types output_dir
                 benchmarks.
Proof.
  unfold selected_jobs, selected_files, chosen_benchmarks, chosen_models.
  revert push_list model_infos w pl mi.
  induction benchmarks as [|benchmark benchmarks IH];
    intros push_list model_infos w pl mi Hrun.
  { injection Hrun as <- <- _. by rewrite !app_nil_r. }
  cbn [select_benchmarks] in Hrun. case_bool_decide as Hbench.
  - apply IH in Hrun as [-> ->]. by rewrite filter_cons_False.
  - run_ok Hrun. destruct a as [pl1 mi1].
    apply select_models_ok in Hrun0 as [-> ->].
    apply IH in Hrun as [-> ->]. rewrite filter_cons_True by done.
    rewrite !bind_cons, !app_assoc. done.
Qed.

Lemma get_proto_ok push_list output_dir w benchmarks pl w' :
  get_proto P push_list output_dir w = (Ok (benchmarks, pl), w') ->
  pl = push_list ++ [output_dir +:+ "/benchmark.pb"; output_dir +:+ "/model.pb"]
  /\ exists content serialized,
       host_files (host w) !! "aibench/proto/benchmark.meta" = Some content
       /\ parse_BenchFactory P content = Some (benchmarks, serialized).
Proof.
  intros Hrun. unfold get_proto in Hrun. run_ok Hrun.
  unfold read_file in Hrun0.
  destruct (host_files (host w) !! "aibench/proto/benchmark.meta") as [content|];
    [| done].
  injection Hrun0 as <- <-.
  destruct (parse_BenchFactory P content) as [[bs serialized]|] eqn:Hparse; [| done].
  run_ok Hrun. run_ok Hrun.
  destruct (parse_ModelFactory P a0); [| done].
  run_ok Hrun. injection Hrun as <- <- _.
  split; [by rewrite <- app_assoc | eauto].
Qed.

(** X24: when [prepare_all_models] returns, the two descriptions were read
    and written to [output_dir], the names it was given (or all the names of
    the enumeration, for [all]) were turned into their values, in order, the
    jobs are one for each chosen device of each chosen model of each chosen
    benchmark, in the order of the description, and the list of files holds
    the two written files and then the files of each chosen model that has a
    chosen device, once, however many of its devices are chosen. *)
Theorem prepare_all_models_selects executors model_names device_types output_dir
    w es ds push_list model_infos w' :
  prepare_all_models X P executors model_names device_types output_dir w
  = (Ok (es, ds, push_list, model_infos), w') ->
  exists content benchmarks serialized ms,
    host_files (host w) !! "aibench/proto/benchmark.meta" = Some content
    /\ parse_BenchFactory P content = Some (benchmarks, serialized)
    /\ Forall2 (fun e v => ExecutorType_Value P e = Some v)
         (enum_names (ExecutorType_keys P) executors) es
    /\ Forall2 (fun e v => ModelName_Value P e = Some v)
         (enum_names (ModelName_keys P) model_names) ms
    /\ Forall2 (fun e v => DeviceType_Value P e = Some v)
         (enum_names (DeviceType_keys P) device_types) ds
    /\ model_infos = selected_jobs es ms ds benchmarks
    /\ push_list = [output_dir +:+ "/benchmark.pb"; output_dir +:+ "/model.pb"]
                     ++ selected_files es ms ds output_dir benchmarks.
Proof.
  intros Hrun. unfold prepare_all_models in Hrun.
  run_ok Hrun. destruct a as [benchmarks pl0].
  apply get_proto_ok in Hrun0 as (-> & content & serialized & Hfile & Hparse).
  run_ok Hrun. apply enum_values_ok in Hrun0 as [-> Hes].
  run_ok Hrun. apply enum_values_ok in Hrun0 as [-> Hms].
  run_ok Hrun. apply enum_values_ok in Hrun0 as [-> Hds].
  run_ok Hrun. destruct a2 as [pl mi].
  apply select_benchmarks_ok in Hrun0 as [-> ->].
  injection Hrun as <- <- <- <- _.
  exists content, benchmarks, serialized, a0. by split_and!.
Qed.

End prepare_all_models_facts.

(** ** [push_all_models] *)

Section push_models.

Context (X : Externals).

Lemma for_each_push_effect src_path dst_dir serialno entries w r w' :
  for_each entries (fun src_file =>
    adb_push_file X (Py.path_join src_path src_file) dst_dir serialno) w
  = (r, w') ->
  host w' = host w
  /\ exists es,
       trace w' = trace w ++ es
       /\ Forall (fun p => exists f,
                    f ∈ entries
                    /\ is_Some (host_files (host w) !! Py.path_join src_path f)
                    /\ p = [serialno; Py.path_join src_path f; dst_dir])
            (pushes_of es).
Proof.
  revert w r. induction entries as [|f entries IH]; intros w r Hrun.
  { injection Hrun as _ <-. split; [done |]. exists [].
    split; [by rewrite app_nil_r | constructor]. }
  assert (forall es,
    pushes_of es = []
    \/ (is_Some (host_files (host w) !! Py.path_join src_path f)
        /\ pushes_of es = [[serialno; Py.path_join src_path f; dst_dir]]) ->
    Forall (fun p => exists f0,
              f0 ∈ f :: entries
              /\ is_Some (host_files (host w) !! Py.path_join src_path f0)
              /\ p = [serialno; Py.path_join src_path f0; dst_dir])
      (pushes_of es)) as Hone.
  { intros es [-> | [Hfile ->]]; [constructor |].
    constructor; [| constructor]. exists f. split_and!; [left | done | done]. }
  cbn [for_each] in Hrun. run_cases Hrun.
  - apply adb_push_file_effect in Hrun0 as (Hhost & es1 & Hes1 & Hpush1).
    apply IH in Hrun as (Hhost' & es2 & Hes2 & Hpush2).
    split; [congruence |]. exists (es1 ++ es2).
    split; [by rewrite Hes2, Hes1, app_assoc |].
    rewrite pushes_of_app. apply Forall_app. split; [by apply Hone |].
    rewrite Hhost in Hpush2. eapply Forall_impl; [exact Hpush2 |].
    intros p (f0 & Hin & Hfile & ->). exists f0. split_and!; [by right | done | done].
  - apply adb_push_file_effect in Hrun as (Hhost & es1 & Hes1 & Hpush1).
    split; [done |]. exists es1. split; [done | by apply Hone].
  - apply adb_push_file_effect in Hrun as (Hhost & es1 & Hes1 & Hpush1).
    split; [done |]. exists es1. split; [done | by apply Hone].
Qed.

Lemma adb_push_effect src_path dst_dir serialno w r w' :
  adb_push X src_path dst_dir serialno w = (r, w') ->
  host w' = host w
  /\ exists es,
       trace w' = trace w ++ es
       /\ Forall (fun p => exists src,
                    p = [serialno; src; dst_dir]
                    /\ listed_file (host w) [src_path] src)
            (pushes_of es).
Proof.
  unfold adb_push, bind at 1, os_path_isdir.
  destruct (host_dirs (host w) !! src_path) as [entries|] eqn:Hdir.
  - rewrite bool_decide_eq_true_2 by done.
    unfold bind at 1, os_listdir. rewrite Hdir. intros Hrun.
    apply for_each_push_effect in Hrun as (Hhost & es & Hes & Hpush).
    split; [done |]. exists es. split; [done |].
    eapply Forall_impl; [exact Hpush |].
    intros p (f & Hin & Hfile & ->). eexists. split; [done |].
    split; [done |]. right. exists src_path, entries, f.
    split_and!; [by left | done | done | done].
  - rewrite bool_decide_eq_false_2 by (by intros [? ?]). intros Hrun.
    apply adb_push_file_effect in Hrun as (Hhost & es & Hes & Hpush).
    split; [done |]. exists es. split; [done |].
    destruct Hpush as [-> | [Hfile ->]]; [constructor |].
    constructor; [| constructor]. eexists. split; [done |].
    split; [done |]. left. by left.
Qed.

(** X25: [push_all_models] transfers nothing but what its list names.  It
    leaves the host as it is, and each transfer it makes, however it ends,
    is to [device_bin_path] on the device [serialno], of a regular file that
    is a path of the list or lies directly in a directory of the list. *)
Theorem push_all_models_pushes_listed serialno device_bin_path push_list
    w r w' :
  push_all_models X serialno device_bin_path push_list w = (r, w') ->
  host w' = host w
  /\ exists es,
       trace w' = trace w ++ es
       /\ Forall (fun p => exists src,
                    p = [serialno; src; device_bin_path]
                    /\ listed_file (host w) push_list src)
            (pushes_of es).
Proof.
  unfold push_all_models. revert w r.
  induction push_list as [|path push_list IH]; intros w r Hrun.
  { injection Hrun as _ <-. split; [done |]. exists [].
    split; [by rewrite app_nil_r | constructor]. }
  assert (forall p,
    (exists src, p = [serialno; src; device_bin_path]
                 /\ listed_file (host w) [path] src) ->
    exists src, p = [serialno; src; device_bin_path]
                /\ listed_file (host w) (path :: push_list) src) as Hhead.
  { intros p (src & -> & Hfile & Hsrc). exists src. split; [done |].
    split; [done |]. destruct Hsrc as [Hin | (d & entries & f & Hin & Hrest)].
    - apply list_elem_of_singleton in Hin as ->. left. by left.
    - apply list_elem_of_singleton in Hin as ->. right.
      exists path, entries, f. split; [by left | done]. }
  cbn [for_each] in Hrun. run_cases Hrun.
  - apply adb_push_effect in Hrun0 as (Hhost & es1 & Hes1 & Hpush1).
    apply IH in Hrun as (Hhost' & es2 & Hes2 & Hpush2).
    split; [congruence |]. exists (es1 ++ es2).
    split; [by rewrite Hes2, Hes1, app_assoc |].
    rewrite pushes_of_app. apply Forall_app. split.
    + eapply Forall_impl; [exact Hpush1 | exact Hhead].
    + rewrite Hhost in Hpush2. eapply Forall_impl; [exact Hpush2 |].
      intros p (src & -> & Hfile & Hsrc). exists src. split; [done |].
      split; [done |]. destruct Hsrc as [Hin | (d & entries & f & Hin & Hrest)].
      * left. by right.
      * right. exists d, entries, f. split; [by right | done].
  - apply adb_push_effect in Hrun as (Hhost & es1 & Hes1 & Hpush1).
    split; [done |]. exists es1. split; [done |].
    eapply Forall_impl; [exact Hpush1 | exact Hhead].
  - apply adb_push_effect in Hrun as (Hhost & es1 & Hes1 & Hpush1).
    split; [done |]. exists es1. split; [done |].
    eapply Forall_impl; [exact Hpush1 | exact Hhead].
Qed.

End push_models.

(** ** The second bench *)

(** Blank lines are dropped, the others trimmed. *)
Example split_stdout_example :
  (split_stdout Demo.externals ("  a b " +:+ Py.nl +:+ Py.nl +:+ "c" +:+ Demo.tab)
     Demo.world).1 = Ok ["a b"; "c"].
Proof. by vm_compute. Qed.

Lemma split_stdout_lines_clean_witness :
  Forall (fun l => l <> "" /\ Py.strip l = l /\ Py.mem Py.newline l = false)
    ["a b"; "c"].
Proof.
  apply (split_stdout_lines_clean Demo.externals
           ("  a b " +:+ Py.nl +:+ Py.nl +:+ "c" +:+ Demo.tab) Demo.world
           ["a b"; "c"]
           (split_stdout Demo.externals
              ("  a b " +:+ Py.nl +:+ Py.nl +:+ "c" +:+ Demo.tab) Demo.world).2).
  apply run_pair. by vm_compute.
Defined.

Lemma adb_getprop_reads_back_witness :
  exists w',
    adb_getprop_by_serialno Demo.externals (dev_serial (dev Lab.world)) Lab.world
    = (Ok (list_to_map (reverse Lab.props)), w').
Proof.
  apply adb_getprop_reads_back.
  - repeat constructor; by vm_compute.
  - reflexivity.
  - reflexivity.
  - reflexivity.
  - reflexivity.
Defined.

(** The three ABIs of the phone. *)
Example adb_supported_abis_example :
  (adb_supported_abis Demo.externals "abc123" Lab.world).1
  = Ok ["arm64-v8a"; "armeabi-v7a"; "armeabi"].
Proof. by vm_compute. Qed.

Lemma adb_supported_abis_spec_witness :
  match value_of ∅ (adb_getprop_by_serialno Demo.externals "abc123" Lab.world).1
          !! "ro.product.cpu.abilist" with
  | None =>
      adb_supported_abis Demo.externals "abc123" Lab.world
      = (Raise (KeyError "ro.product.cpu.abilist"),
         (adb_getprop_by_serialno Demo.externals "abc123" Lab.world).2)
  | Some abilist_str =>
      exists abis,
        adb_supported_abis Demo.externals "abc123" Lab.world
        = (Ok abis, (adb_getprop_by_serialno Demo.externals "abc123" Lab.world).2)
        /\ abis <> []
        /\ Forall (fun abi => Py.strip abi = abi /\ Py.mem "," abi = false) abis
        /\ (forall l, l <> [] ->
              Forall (fun abi => Py.strip abi = abi /\ Py.mem "," abi = false) l ->
              abilist_str = Py.join "," l -> abis = l)
  end.
Proof.
  apply (adb_supported_abis_spec Demo.externals "abc123" Lab.world).
  apply run_pair. vm_compute. reflexivity.
Defined.

(** The fastest core of the phone lies behind the one that is offline: the
    mask selects the two cores ahead of it. *)
Example get_cpu_mask_gap_example :
  (get_cpu_mask Demo.externals 5 "abc123" Lab.world).1 = Ok "3".
Proof. by vm_compute. Qed.

Lemma get_cpu_mask_selects_a_core_witness :
  exists freq_list top mask,
    read_cpu_freqs Demo.externals 5 "abc123" 0 [] Demo.world
    = (Ok freq_list, (get_cpu_mask Demo.externals 5 "abc123" Demo.world).2)
    /\ Py.max freq_list = Some top
    /\ 0 < mask < 2 ^ Z.of_nat (length freq_list)
    /\ (forall i : nat,
          Z.testbit mask (Z.of_nat i) = true <-> freq_list !! i = Some top)
    /\ "6" = Py.hex_digits mask
               +:+ (if sys_maxint Demo.externals <? mask then "L" else "").
Proof.
  apply (get_cpu_mask_selects_a_core Demo.externals 5 "abc123" Demo.world "6").
  apply run_pair. by vm_compute.
Defined.

Lemma get_cpu_mask_stops_at_first_gap_witness :
  exists w',
    read_cpu_freqs Demo.externals 5 (dev_serial (dev Lab.world)) 0 [] Lab.world
    = (Ok [1766400; 1766400], w')
    /\ trace w' = trace Lab.world
                    ++ (cat_cpufreq (dev_serial (dev Lab.world))
                          <$> seq 0 (S (length [1766400; 1766400])))
    /\ get_cpu_mask Demo.externals 5 (dev_serial (dev Lab.world)) Lab.world
       = render_cpu_mask Demo.externals (cpu_mask_string [1766400; 1766400]) w'.
Proof.
  apply get_cpu_mask_stops_at_first_gap.
  - repeat constructor.
  - intros s [= <-]. reflexivity.
  - reflexivity.
  - cbn. lia.
Defined.

Lemma adb_run_lock_discipline_witness :
  exists es held,
    trace (Demo.run 5 Demo.jobs 3 Demo.world).2 = trace Demo.world ++ es
    /\ lock_after (device_lock_path "abc123") false es = Some held
    /\ ((Demo.run 5 Demo.jobs 3 Demo.world).1 <> OutOfFuel -> held = false).
Proof.
  apply (adb_run_lock_discipline Demo.externals "arm64-v8a" "abc123" "bin"
           "model_benchmark" 0 "" 1 4 5 ["m/model.pb"] Demo.jobs [0]
           "/data/local/tmp/aibench" "out" 3 5 Demo.world).
  apply surjective_pairing.
Defined.

(** With five minutes for a lock hold, the first one runs both jobs. *)
Example lock_hold_example :
  (with_device_lock "abc123"
     (lock_hold Demo.externals "arm64-v8a" "abc123" "bin" "model_benchmark" 0 ""
        1 4 5 ["m/model.pb"] Demo.jobs [0] "/data/local/tmp/aibench" 5 ∅
        "MI 8" "sdm845" 0) Demo.world).1 = Ok 2%nat.
Proof. by vm_compute. Qed.

Lemma lock_hold_runs_a_job_witness :
  (0 < 2)%nat
  /\ exists es item args rest,
       trace (with_device_lock "abc123"
                (lock_hold Demo.externals "arm64-v8a" "abc123" "bin"
                   "model_benchmark" 0 "" 1 4 5 ["m/model.pb"] Demo.jobs [0]
                   "/data/local/tmp/aibench" 5 ∅ "MI 8" "sdm845" 0)
                Demo.world).2
       = trace Demo.world ++ es
       /\ lock_holds es = 1%nat
       /\ Forall2 (invokes "abc123" 0 1 4 "/data/local/tmp/aibench")
            (runs_of es) (jobs_between 0 2 Demo.jobs)
       /\ Demo.jobs !! 0%nat = Some item
       /\ runs_of es = args :: rest
       /\ invokes "abc123" 0 1 4 "/data/local/tmp/aibench" args item
       /\ runs_job "abc123" 0 1 4 "/data/local/tmp/aibench" args item.
Proof.
  apply (lock_hold_runs_a_job Demo.externals "arm64-v8a" "abc123" "bin"
           "model_benchmark" 0 "" 1 4 5 ["m/model.pb"] Demo.jobs [0]
           "/data/local/tmp/aibench" 5 ∅ "MI 8" "sdm845" 0 2 Demo.world).
  - reflexivity.
  - cbn. lia.
  - apply run_pair. by vm_compute.
Defined.

Lemma adb_run_needs_model_and_platform_witness :
  adb_run Demo.externals "arm64-v8a" "abc123" "bin" "model_benchmark" 0 "" 1 4 5
    ["m/model.pb"] Demo.jobs [0] "/data/local/tmp/aibench" "out" 3 5 Lab.nameless
  = (Raise (KeyError "ro.board.platform"),
     (adb_getprop_by_serialno Demo.externals "abc123"
        (sh_adb Demo.externals
           ["-s"; "abc123"; "shell";
            "rm -rf " +:+ Py.path_join "/data/local/tmp/aibench" "result.txt"]
           Lab.nameless).2).2)
  /\ trace (adb_getprop_by_serialno Demo.externals "abc123"
              (sh_adb Demo.externals
                 ["-s"; "abc123"; "shell";
                  "rm -rf " +:+ Py.path_join "/data/local/tmp/aibench" "result.txt"]
                 Lab.nameless).2).2
     = trace Lab.nameless
         ++ [Cmd "adb" ["-s"; "abc123"; "shell";
                        "rm -rf " +:+ Py.path_join "/data/local/tmp/aibench"
                                        "result.txt"] false;
             Cmd "adb" ["-s"; "abc123"; "shell"; "getprop"] false;
             Cmd "iconv" ["-c"; "-t"; "UTF-8"] false].
Proof.
  apply (adb_run_needs_model_and_platform Demo.externals "arm64-v8a" "abc123"
           "bin" "model_benchmark" 0 "" 1 4 5 ["m/model.pb"] Demo.jobs [0]
           "/data/local/tmp/aibench" "out" 3 5 Lab.nameless ""
           (sh_adb Demo.externals
              ["-s"; "abc123"; "shell";
               "rm -rf " +:+ Py.path_join "/data/local/tmp/aibench" "result.txt"]
              Lab.nameless).2
           (value_of ∅
              (adb_getprop_by_serialno Demo.externals "abc123"
                 (sh_adb Demo.externals
                    ["-s"; "abc123"; "shell";
                     "rm -rf " +:+ Py.path_join "/data/local/tmp/aibench"
                                     "result.txt"]
                    Lab.nameless).2).1)).
  - apply run_pair. reflexivity.
  - apply run_pair. vm_compute. reflexivity.
  - right. split; [reflexivity |]. split; [by eexists | reflexivity].
Defined.

Lemma adb_run_pulls_results_last_witness :
  exists out w0 props w1 product_model target_soc es,
    sh_adb Demo.externals
      ["-s"; "abc123"; "shell";
       "rm -rf " +:+ Py.path_join "/data/local/tmp/aibench" "result.txt"]
      Demo.world
    = (Ok out, w0)
    /\ adb_getprop_by_serialno Demo.externals "abc123" w0 = (Ok props, w1)
    /\ props !! "ro.product.model" = Some product_model
    /\ props !! "ro.board.platform" = Some target_soc
    /\ "out/MI 8_sdm845_arm64-v8a_result.txt"
       = "out" +:+ "/" +:+ product_model +:+ "_" +:+ target_soc
           +:+ "_" +:+ "arm64-v8a" +:+ "_result.txt"
    /\ trace (Demo.run 5 Demo.jobs 3 Demo.world).2
       = trace Demo.world
           ++ [Cmd "adb" ["-s"; "abc123"; "shell";
                          "rm -rf " +:+ Py.path_join "/data/local/tmp/aibench"
                                          "result.txt"] false]
           ++ es
           ++ [Cmd "adb" ["-s"; "abc123"; "pull";
                          "/data/local/tmp/aibench" +:+ "/result.txt";
                          "out/MI 8_sdm845_arm64-v8a_result.txt"] false].
Proof.
  apply (adb_run_pulls_results_last Demo.externals "arm64-v8a" "abc123" "bin"
           "model_benchmark" 0 "" 1 4 5 ["m/model.pb"] Demo.jobs [0]
           "/data/local/tmp/aibench" "out" 3 5 Demo.world).
  apply run_pair. by vm_compute.
Defined.

(** After the first lock hold the pause of -1 seconds is refused. *)
Example adb_run_negative_interval_example :
  (adb_run Demo.externals "arm64-v8a" "abc123" "bin" "model_benchmark" 0 "" (-1) 4
     5 ["m/model.pb"] Demo.jobs [0] "/data/local/tmp/aibench" "out" 3 5
     Demo.world).1
  = Raise (IOError "[Errno 22] Invalid argument").
Proof. by vm_compute. Qed.

Lemma adb_run_negative_interval_witness :
  (forall path,
     (adb_run Demo.externals "arm64-v8a" "abc123" "bin" "model_benchmark" 0 ""
        (-1) 4 5 ["m/model.pb"] Demo.jobs [0] "/data/local/tmp/aibench" "out" 3 5
        Demo.world).1 <> Ok path)
  /\ exists es,
       trace (adb_run Demo.externals "arm64-v8a" "abc123" "bin" "model_benchmark"
                0 "" (-1) 4 5 ["m/model.pb"] Demo.jobs [0]
                "/data/local/tmp/aibench" "out" 3 5 Demo.world).2
       = trace Demo.world ++ es
       /\ (lock_holds es <= 1)%nat
       /\ Forall (fun e => forall secs, e <> Sleep secs) es.
Proof.
  apply (adb_run_negative_interval Demo.externals "arm64-v8a" "abc123" "bin"
           "model_benchmark" 0 "" (-1) 4 5 ["m/model.pb"] Demo.jobs [0]
           "/data/local/tmp/aibench" "out" 3 5 Demo.world).
  - reflexivity.
  - discriminate.
  - apply surjective_pairing.
Defined.

(** Of the three entries of [libs], the two libraries are transferred. *)
Example adb_push_directory_example :
  pushes_of (trace (adb_push Demo.externals "libs" "/data/local/tmp/aibench"
                      "abc123" Lab.world).2)
  = [["abc123"; "libs/liba.so"; "/data/local/tmp/aibench"];
     ["abc123"; "libs/libb.so"; "/data/local/tmp/aibench"]].
Proof. by vm_compute. Qed.

Lemma adb_push_only_regular_files_witness :
  host (adb_push Demo.externals "libs" "/data/local/tmp/aibench" "abc123"
          Lab.world).2 = host Lab.world
  /\ exists es,
       trace (adb_push Demo.externals "libs" "/data/local/tmp/aibench" "abc123"
                Lab.world).2 = trace Lab.world ++ es
       /\ sublist (pushes_of es)
            ((fun f => ["abc123"; Py.path_join "libs" f; "/data/local/tmp/aibench"])
               <$> filter (fun f => is_Some (host_files (host Lab.world)
                                               !! Py.path_join "libs" f))
                     ["liba.so"; "arm"; "libb.so"]).
Proof.
  apply (adb_push_only_regular_files Demo.externals "libs"
           "/data/local/tmp/aibench" "abc123" ["liba.so"; "arm"; "libb.so"]
           Lab.world
           (adb_push Demo.externals "libs" "/data/local/tmp/aibench" "abc123"
              Lab.world).1).
  - reflexivity.
  - apply surjective_pairing.
Defined.

Lemma push_then_pull_round_trip_witness :
  exists c' w2,
    dev_files (dev (adb_push_file Demo.externals "m/model.pb"
                      "/data/local/tmp/aibench" "abc123" Demo.world).2)
      !! Py.path_join "/data/local/tmp/aibench" (Py.basename "m/model.pb") = Some c'
    /\ adb_pull Demo.externals
         (Py.path_join "/data/local/tmp/aibench" (Py.basename "m/model.pb"))
         "out/model.pb" "abc123"
         (adb_push_file Demo.externals "m/model.pb" "/data/local/tmp/aibench"
            "abc123" Demo.world).2
       = (Ok tt, w2)
    /\ host_files (host w2) !! "out/model.pb" = Some c'
    /\ hexdigest Demo.externals c' = hexdigest Demo.externals "weights".
Proof.
  apply (push_then_pull_round_trip Demo.externals "m/model.pb"
           "/data/local/tmp/aibench" "out/model.pb" "abc123" Demo.world).
  - reflexivity.
  - apply run_pair. by vm_compute.
  - reflexivity.
Defined.

Lemma download_file_cached_witness :
  download_file Demo.externals Demo.configs "net.pb" "out" Lab.world
  = (Ok ("out" +:+ "/" +:+ "net.pb"), Lab.world).
Proof.
  apply (download_file_cached Demo.externals Demo.configs "net.pb" "out"
           "http://models/net.pb" "net" Lab.world); reflexivity.
Defined.

Lemma download_file_fetches_and_checks_witness :
  exists w',
    download_file Demo.externals Demo.configs "net.pb" "out" Demo.world
    = (if decide (hexdigest Demo.externals "net" = hexdigest Demo.externals "net")
       then Ok ("out" +:+ "/" +:+ "net.pb") else Raise (SystemExit 1), w')
    /\ trace w' = trace Demo.world
                    ++ [UrlRetrieve "http://models/net.pb" ("out" +:+ "/" +:+ "net.pb")]
    /\ host_files (host w') !! ("out" +:+ "/" +:+ "net.pb") = Some "net".
Proof.
  apply (download_file_fetches_and_checks Demo.externals Demo.configs "net.pb"
           "out" "http://models/net.pb" (hexdigest Demo.externals "net") "net"
           Demo.world).
  - reflexivity.
  - reflexivity.
  - intros c0 H. vm_compute in H. discriminate.
  - reflexivity.
  - reflexivity.
  - reflexivity.
Defined.

Lemma get_model_verifies_witness :
  let model_file := local_model_path (model_path Lab.model_info) "out" in
  let weight_file := local_model_path (weight_path Lab.model_info) "out" in
  (weight_path Lab.model_info = "" ->
     ["m/model.pb"; "out/net.pb"] = [] ++ [model_file]
     /\ exists c, host_files (host (get_model Demo.externals Lab.model_info "out" []
                                      Demo.world).2) !! model_file = Some c
                  /\ hexdigest Demo.externals c = model_checksum Lab.model_info)
  /\ (weight_path Lab.model_info <> "" ->
        ["m/model.pb"; "out/net.pb"] = [] ++ [model_file; weight_file]
        /\ (exists c, host_files (host (get_model Demo.externals Lab.model_info "out"
                                          [] Demo.world).2) !! weight_file = Some c
                      /\ hexdigest Demo.externals c = weight_checksum Lab.model_info)
        /\ (model_file <> weight_file ->
            exists c, host_files (host (get_model Demo.externals Lab.model_info "out"
                                          [] Demo.world).2) !! model_file = Some c
                      /\ hexdigest Demo.externals c = model_checksum Lab.model_info)).
Proof.
  apply (get_model_verifies Demo.externals Lab.model_info "out" [] Demo.world
           ["m/model.pb"; "out/net.pb"]).
  apply run_pair. by vm_compute.
Defined.

(** The archive comes from the registered URL, whatever URL was given. *)
Example prepare_datasets_example :
  (prepare_datasets Demo.externals Lab.configs "out" "http://data" Lab.world).1
  = Ok "out/imagenet_less".
Proof. by vm_compute. Qed.

Lemma prepare_datasets_unpacks_verified_witness :
  (forall p,
     (prepare_datasets Demo.externals Lab.configs "out" "http://data" Lab.world).1
     = Ok p -> p = "out" +:+ "/imagenet_less")
  /\ exists es,
       trace (prepare_datasets Demo.externals Lab.configs "out" "http://data"
                Lab.world).2 = trace Lab.world ++ es
       /\ (forall args fg, Cmd "unzip" args fg ∈ es ->
             args = ["-o"; "out" +:+ "/imagenet_less.zip"; "-d"; "out"] /\ fg = false
             /\ exists c,
                  host_files (host (prepare_datasets Demo.externals Lab.configs
                                      "out" "http://data" Lab.world).2)
                    !! ("out" +:+ "/imagenet_less.zip") = Some c
                  /\ Lab.configs !! "imagenet_less.zip_md5_checksum"
                     = Some (hexdigest Demo.externals c))
       /\ (forall p,
             (prepare_datasets Demo.externals Lab.configs "out" "http://data"
                Lab.world).1 = Ok p ->
             Cmd "unzip" ["-o"; "out" +:+ "/imagenet_less.zip"; "-d"; "out"] false
               ∈ es).
Proof.
  apply (prepare_datasets_unpacks_verified Demo.externals Lab.configs "out"
           "http://data" Lab.world).
  apply surjective_pairing.
Defined.

Lemma get_tflite_unpacks_verified_witness :
  exists es,
    trace (get_tflite Demo.externals Lab.configs "out" Lab.world).2
    = trace Lab.world ++ es
    /\ (forall args fg, Cmd "unzip" args fg ∈ es ->
          args = ["-o"; "out" +:+ "/tensorflow-1.10.1.zip"; "-d"; "third_party/tflite"]
          /\ fg = false
          /\ exists c,
               host_files (host (get_tflite Demo.externals Lab.configs "out"
                                   Lab.world).2)
                 !! ("out" +:+ "/tensorflow-1.10.1.zip") = Some c
               /\ Lab.configs !! "tensorflow-1.10.1.zip_md5_checksum"
                  = Some (hexdigest Demo.externals c))
    /\ ((get_tflite Demo.externals Lab.configs "out" Lab.world).1 = Ok tt ->
        Cmd "unzip" ["-o"; "out" +:+ "/tensorflow-1.10.1.zip"; "-d";
                     "third_party/tflite"] false ∈ es).
Proof.
  apply (get_tflite_unpacks_verified Demo.externals Lab.configs "out" Lab.world).
  apply surjective_pairing.
Defined.

(** A build for the DSP of the phone. *)
Example bazel_build_example :
  trace (bazel_build Demo.externals "abc123" "//aibench/benchmark:model_benchmark"
           "armeabi-v7a" [0; 1] [0; 2] Lab.world).2
  = [Acquire "/tmp/device-lock-abc123";
     Cmd "adb" ["-s"; "abc123"; "shell"; "ls /system/lib/libcdsprpc.so"] false;
     Release "/tmp/device-lock-abc123";
     Cmd "bazel"
       ["build"; "//aibench/benchmark:model_benchmark"; "--config"; "android";
        "--cpu=armeabi-v7a"; "--action_env=ANDROID_NDK_HOME=/opt/ndk";
        "--define"; "mace=true"; "--define"; "snpe=true";
        "--define"; "neon=true"; "--define"; "openmp=true";
        "--define"; "opencl=true"; "--define"; "quantize=true";
        "--define"; "dsp=true"; "--define"; "hexagon=true"] true].
Proof. by vm_compute. Qed.

Lemma bazel_build_ok_witness :
  exists names ndk (dsp : bool),
    Forall2 (fun e n => ExecutorType_Name Demo.externals e = Some n) [0; 1] names
    /\ ("armeabi-v7a" <> "host" ->
        environ (host Lab.world) !! "ANDROID_NDK_HOME" = Some ndk)
    /\ let args := bazel_common_args "//aibench/benchmark:model_benchmark"
                     "armeabi-v7a" ndk names
                     ++ (if dsp then dsp_args else []) in
       if bool_decide (DSP Demo.externals ∈ [0; 2])
            && bool_decide ("armeabi-v7a" = "armeabi-v7a")
       then
         trace (bazel_build Demo.externals "abc123"
                  "//aibench/benchmark:model_benchmark" "armeabi-v7a" [0; 1] [0; 2]
                  Lab.world).2
         = trace Lab.world ++ [Acquire (device_lock_path "abc123");
                               Cmd "adb" ["-s"; "abc123"; "shell";
                                          "ls /system/lib/libcdsprpc.so"] false;
                               Release (device_lock_path "abc123");
                               Cmd "bazel" args true]
       else dsp = false
            /\ trace (bazel_build Demo.externals "abc123"
                        "//aibench/benchmark:model_benchmark" "armeabi-v7a" [0; 1]
                        [0; 2] Lab.world).2
               = trace Lab.world ++ [Cmd "bazel" args true].
Proof.
  apply (bazel_build_ok Demo.externals "abc123" "//aibench/benchmark:model_benchmark"
           "armeabi-v7a" [0; 1] [0; 2] Lab.world).
  apply run_pair. by vm_compute.
Defined.

(** A platform named twice yields its devices twice; one that no device has
    is a [KeyError]. *)
Example get_target_socs_serialnos_example :
  (get_target_socs_serialnos Demo.externals Lab.dict_keys (Some ["sdm845"; "sdm845"])
     Lab.world).1 = Ok ["abc123"; "abc123"]
  /\ (get_target_socs_serialnos Demo.externals Lab.dict_keys (Some ["msm8998"])
        Lab.world).1 = Raise (KeyError "msm8998").
Proof. by vm_compute. Qed.

Lemma get_target_socs_serialnos_attached_witness :
  exists serialnos w1,
    adb_devices Demo.externals Lab.world = (Ok serialnos, w1)
    /\ (forall s, s ∈ ["abc123"] -> s ∈ serialnos)
    /\ (@None (list string) = None -> ["abc123"] ≡ₚ serialnos).
Proof.
  apply (get_target_socs_serialnos_attached Demo.externals Lab.dict_keys None
           Lab.world ["abc123"]
           (get_target_socs_serialnos Demo.externals Lab.dict_keys None
              Lab.world).2).
  - intros m. reflexivity.
  - apply run_pair. by vm_compute.
Defined.

Lemma get_target_socs_serialnos_unknown_soc_witness :
  (exists w1, get_soc_serialnos_map Demo.externals Lab.world
              = (Raise (KeyError "msm8998"), w1))
  \/ (exists m soc,
        get_soc_serialnos_map Demo.externals Lab.world
        = (Ok m, (get_target_socs_serialnos Demo.externals Lab.dict_keys
                    (Some ["msm8998"]) Lab.world).2)
        /\ KeyError "msm8998" = KeyError soc /\ soc ∈ ["msm8998"] /\ m !! soc = None).
Proof.
  apply (get_target_socs_serialnos_unknown_soc Demo.externals Lab.dict_keys
           ["msm8998"] Lab.world).
  apply run_pair. by vm_compute.
Defined.

(** The images of [data/images/] are moved out of [inputs/images]. *)
Example push_precision_files_example :
  last (trace (push_precision_files Demo.externals "abc123" "/data/local/tmp/aibench"
                 "data/images/" Lab.world).2)
  = Some (Cmd "adb" ["-s"; "abc123"; "shell";
                     "mv /data/local/tmp/aibench/inputs/images/* /data/local/tmp/aibench/inputs/"]
            false).
Proof. by vm_compute. Qed.

Lemma push_precision_files_trailing_slash_witness :
  last (trace (push_precision_files Demo.externals "abc123" "/data/local/tmp/aibench"
                 ("data/images" +:+ "/") Lab.world).2)
  = Some (Cmd "adb" ["-s"; "abc123"; "shell";
                     "mv " +:+ (("/data/local/tmp/aibench" +:+ "/inputs/")
                                  +:+ Py.basename "data/images")
                       +:+ "/* " +:+ "/data/local/tmp/aibench" +:+ "/inputs/"] false).
Proof.
  apply (push_precision_files_trailing_slash Demo.externals "abc123"
           "/data/local/tmp/aibench" "data/images" ("data/images" +:+ "/")
           Lab.world).
  - discriminate.
  - vm_compute. discriminate.
  - by right.
  - apply run_pair. by vm_compute.
Defined.

Lemma prepare_device_env_other_abi_witness :
  prepare_device_env Demo.externals "abc123" "x86_64" "/data/local/tmp/aibench"
    [0; 1] Lab.world
  = if bool_decide (SNPE Demo.externals ∈ [0; 1])
    then adb_push Demo.externals "bazel-mobile-ai-bench/external/snpe/lib/dsp"
           "/data/local/tmp/aibench" "abc123" Lab.world
    else (Ok tt, Lab.world).
Proof.
  apply (prepare_device_env_other_abi Demo.externals "abc123" "x86_64"
           "/data/local/tmp/aibench" [0; 1] Lab.world); discriminate.
Defined.

(** The benchmarks of MACE, for all models and devices: the model is fetched
    once for its two devices. *)
Example prepare_all_models_example :
  (prepare_all_models Demo.externals Lab.protobuf "MACE" "all" "all" "out"
     Lab.office).1
  = Ok ([0], [0; 1],
        ["out/benchmark.pb"; "out/model.pb"; "m/model.pb"; "out/net.pb"],
        [ {| executor := 0; model_name := 0; device_type := 0; quantize := false |};
          {| executor := 0; model_name := 0; device_type := 1; quantize := false |} ]).
Proof. by vm_compute. Qed.

Lemma prepare_all_models_selects_witness :
  exists content benchmarks serialized ms,
    host_files (host Lab.office) !! "aibench/proto/benchmark.meta" = Some content
    /\ parse_BenchFactory Lab.protobuf content = Some (benchmarks, serialized)
    /\ Forall2 (fun e v => ExecutorType_Value Lab.protobuf e = Some v)
         (enum_names (ExecutorType_keys Lab.protobuf) "MACE") [0]
    /\ Forall2 (fun e v => ModelName_Value Lab.protobuf e = Some v)
         (enum_names (ModelName_keys Lab.protobuf) "all") ms
    /\ Forall2 (fun e v => DeviceType_Value Lab.protobuf e = Some v)
         (enum_names (DeviceType_keys Lab.protobuf) "all") [0; 1]
    /\ [ {| executor := 0; model_name := 0; device_type := 0; quantize := false |};
         {| executor := 0; model_name := 0; device_type := 1; quantize := false |} ]
       = selected_jobs [0] ms [0; 1] benchmarks
    /\ ["out/benchmark.pb"; "out/model.pb"; "m/model.pb"; "out/net.pb"]
       = ["out" +:+ "/benchmark.pb"; "out" +:+ "/model.pb"]
           ++ selected_files [0] ms [0; 1] "out" benchmarks.
Proof.
  apply (prepare_all_models_selects Demo.externals Lab.protobuf "MACE" "all" "all"
           "out" Lab.office [0] [0; 1]
           ["out/benchmark.pb"; "out/model.pb"; "m/model.pb"; "out/net.pb"]
           [ {| executor := 0; model_name := 0; device_type := 0; quantize := false |};
             {| executor := 0; model_name := 0; device_type := 1; quantize := false |} ]
           (prepare_all_models Demo.externals Lab.protobuf "MACE" "all" "all" "out"
              Lab.office).2).
  apply run_pair. by vm_compute.
Defined.

(** A file, a directory and a path that does not exist: the sub-directory
    of [libs] and the missing path are passed over. *)
Example push_all_models_example :
  pushes_of (trace (push_all_models Demo.externals "abc123" "/data/local/tmp/aibench"
                      ["m/model.pb"; "libs"; "nowhere"] Lab.world).2)
  = [["abc123"; "m/model.pb"; "/data/local/tmp/aibench"];
     ["abc123"; "libs/liba.so"; "/data/local/tmp/aibench"];
     ["abc123"; "libs/libb.so"; "/data/local/tmp/aibench"]].
Proof. by vm_compute. Qed.

Lemma push_all_models_pushes_listed_witness :
  host (push_all_models Demo.externals "abc123" "/data/local/tmp/aibench"
          ["m/model.pb"; "libs"; "nowhere"] Lab.world).2
  = host Lab.world
  /\ exists es,
       trace (push_all_models Demo.externals "abc123" "/data/local/tmp/aibench"
                ["m/model.pb"; "libs"; "nowhere"] Lab.world).2
       = trace Lab.world ++ es
       /\ Forall (fun p => exists src,
                    p = ["abc123"; src; "/data/local/tmp/aibench"]
                    /\ listed_file (host Lab.world)
                         ["m/model.pb"; "libs"; "nowhere"] src)
            (pushes_of es).
Proof.
  apply (push_all_models_pushes_listed Demo.externals "abc123"
           "/data/local/tmp/aibench" ["m/model.pb"; "libs"; "nowhere"] Lab.world
           (push_all_models Demo.externals "abc123" "/data/local/tmp/aibench"
              ["m/model.pb"; "libs"; "nowhere"] Lab.world).1).
  apply surjective_pairing.
Defined.

(** The lines of the dump of the bench: the header, two devices whose line
    matches, the emulator (its name is not a word), the offline device and
    two empty lines. *)
Lemma adb_devices_lists_matching_lines_witness :
  exists serials w',
    adb_devices Demo.externals Demo.world = (Ok serials, w')
    /\ listed (Py.strip <$> ["List of devices attached";
                             "abc123" +:+ Demo.tab +:+ "device";
                             "emulator-5554" +:+ Demo.tab +:+ "device";
                             "0123456789ABCDEF" +:+ Demo.tab +:+ "offline";
                             "f00d" +:+ Demo.tab +:+ "device"; ""; ""]) serials
    /\ length serials
       = length (filter (fun l => exists serial, device_line l serial)
                   (Py.strip <$> ["List of devices attached";
                                  "abc123" +:+ Demo.tab +:+ "device";
                                  "emulator-5554" +:+ Demo.tab +:+ "device";
                                  "0123456789ABCDEF" +:+ Demo.tab +:+ "offline";
                                  "f00d" +:+ Demo.tab +:+ "device"; ""; ""]))
    /\ (Forall (fun l => Py.lstrip l = l)
          ["List of devices attached";
           "abc123" +:+ Demo.tab +:+ "device";
           "emulator-5554" +:+ Demo.tab +:+ "device";
           "0123456789ABCDEF" +:+ Demo.tab +:+ "offline";
           "f00d" +:+ Demo.tab +:+ "device"; ""; ""] ->
        listed ["List of devices attached";
                "abc123" +:+ Demo.tab +:+ "device";
                "emulator-5554" +:+ Demo.tab +:+ "device";
                "0123456789ABCDEF" +:+ Demo.tab +:+ "offline";
                "f00d" +:+ Demo.tab +:+ "device"; ""; ""] serials).
Proof.
  apply (adb_devices_lists_matching_lines Demo.externals Demo.world).
  - reflexivity.
  - reflexivity.
  - reflexivity.
  - by repeat constructor.
  - reflexivity.
Defined.
